(** * Travel_Agent.py: a shallow embedding of the planning script

    The script is a Streamlit page: every user action runs it again from the
    top, in a new namespace, against the session state that survives between
    runs.  The embedding follows that shape: a script run is a computation in
    a state-and-exception monad over a [world] (session state, the script
    names bound so far in this run, the files on disk, and the trace of calls
    to the outside), and everything the outside decides (model answers,
    renderer outcomes, the clock, random bits) is read from an [environment].

    A Python [str] is modelled as the [string] of its UTF-8 bytes.  Searching
    ([in]), [split], [replace] and [join] on the bytes give the bytes of what
    Python computes on the characters.  A slice counts characters, so [take]
    counts the bytes that start one.  [str.lower()] follows the Unicode
    tables and is read from the [environment] ([py_lower]), like [float()].
    [strip] removes the ASCII white space; the script strips only the
    geocoding answer and its two parts, which then go to [float()], and
    [float()] ignores white space around the number itself. *)

From Stdlib Require Import ZArith NArith List String Ascii Bool Lia Floats DecimalString.
From Stdlib Require Import DecimalZ.
Import ListNotations.

Set Warnings "-inexact-float".

Open Scope string_scope.
Open Scope Z_scope.

(* ================================================================== *)
(** * Python string operations used by the script *)
(* ================================================================== *)

Module PyStr.

(** [A]..[Z] to [a]..[z], any other byte unchanged. *)
Definition lower_ascii (c : ascii) : ascii :=
  let n := nat_of_ascii c in
  if andb (Nat.leb 65 n) (Nat.leb n 90) then ascii_of_nat (n + 32) else c.

(** What [s.lower()] gives for a text of ASCII characters.  The script's own
    [lower()] is [py_lower] of the environment; this function only fills
    that field in the example settings, whose texts are ASCII. *)
Fixpoint ascii_lower (s : string) : string :=
  match s with
  | EmptyString => EmptyString
  | String c s' => String (lower_ascii c) (ascii_lower s')
  end.

(** [c.isspace()]: TAB, LF, VT, FF, CR, FS, GS, RS, US and the space. *)
Definition isspace (c : ascii) : bool :=
  let n := nat_of_ascii c in
  orb (andb (Nat.leb 9 n) (Nat.leb n 13))
      (orb (andb (Nat.leb 28 n) (Nat.leb n 31)) (Nat.eqb n 32)).

Fixpoint lstrip (s : string) : string :=
  match s with
  | EmptyString => EmptyString
  | String c s' => if isspace c then lstrip s' else s
  end.

Fixpoint rstrip (s : string) : string :=
  match s with
  | EmptyString => EmptyString
  | String c s' =>
      match rstrip s' with
      | EmptyString => if isspace c then EmptyString else String c EmptyString
      | r => String c r
      end
  end.

(** [s.strip()]. *)
Definition strip (s : string) : string := rstrip (lstrip s).

(** [sub in s]. *)
Fixpoint contains (sub s : string) : bool :=
  orb (String.prefix sub s)
      match s with
      | EmptyString => false
      | String _ s' => contains sub s'
      end.

(** [s.split(sep)] for a one-character separator. *)
Fixpoint split (sep : ascii) (s : string) : list string :=
  match s with
  | EmptyString => [EmptyString]
  | String c s' =>
      if Ascii.eqb c sep then EmptyString :: split sep s'
      else match split sep s' with
           | part :: parts => String c part :: parts
           | [] => [String c EmptyString]
           end
  end.

(** [sep.join(parts)]. *)
Definition join (sep : string) (parts : list string) : string :=
  String.concat sep parts.

(** In UTF-8 a character is one byte that is not of the form [10xxxxxx],
    followed by its continuation bytes, which are. *)
Definition is_continuation (c : ascii) : bool :=
  let n := nat_of_ascii c in
  andb (Nat.leb 128 n) (Nat.leb n 191).

(** [len(s)]: the number of characters. *)
Fixpoint char_count (s : string) : nat :=
  match s with
  | EmptyString => O
  | String c s' => if is_continuation c then char_count s' else S (char_count s')
  end.

(** [s[:n]]: the first [n] characters, each with its continuation bytes. *)
Fixpoint take (n : nat) (s : string) : string :=
  match s with
  | EmptyString => EmptyString
  | String c s' =>
      if is_continuation c then String c (take n s')
      else match n with
           | O => EmptyString
           | S n' => String c (take n' s')
           end
  end.

(** [str(i)] for an [int]. *)
Definition str_of_int (i : Z) : string := NilZero.string_of_int (Z.to_int i).

(** [s.replace(old, new)] for a one-character [old]. *)
Fixpoint replace (old : ascii) (new : string) (s : string) : string :=
  match s with
  | EmptyString => EmptyString
  | String c s' =>
      if Ascii.eqb c old then new ++ replace old new s'
      else String c (replace old new s')
  end.

(** [repr] of a list of [str] whose items hold no quote, backslash or
    control character (all the script ever prints this way are widget
    labels). *)
Definition repr_list (items : list string) : string :=
  "[" ++ join ", " (map (fun s => "'" ++ s ++ "'") items) ++ "]".

End PyStr.

Import PyStr.

(* ================================================================== *)
(** * Exceptions, the world of a script run, and the run monad *)
(* ================================================================== *)

Inductive exn : Type :=
| NameError (name : string)
| ValueError (msg : string)
| TypeError (msg : string)
| OverflowError (msg : string)
| ImportError (module : string)
| OSError (msg : string)
| UpstreamError (msg : string)  (* a model, search or rendering call failed *)
| RerunException.               (* raised by st.rerun() to end the run *)

(** [RerunException] derives from [BaseException] only: [except Exception]
    lets it through, a bare [except:] does not. *)
Definition is_Exception (e : exn) : bool :=
  match e with
  | RerunException => false
  | _ => true
  end.

Inductive result (A : Type) : Type :=
| Ok (a : A)
| Raise (e : exn).
Arguments Ok {A} a.
Arguments Raise {A} e.

(** Python floats are binary64, as Rocq's primitive floats. *)
Definition coords : Type := (float * float)%type.

(* ================================================================== *)
(** * Data model *)
(* ================================================================== *)

(** The option lists of the widgets are fixed, so a widget's value is an
    element of an enumeration; the strings the script compares, interpolates
    and records are the labels. *)

Inductive language : Type := English | Hindi | Spanish | French | German.

Definition language_name (l : language) : string :=
  match l with
  | English => "English"
  | Hindi => "Hindi"
  | Spanish => "Spanish"
  | French => "French"
  | German => "German"
  end.

Inductive accommodation_option : Type :=
| LuxuryHotels | MidRangeHotels | BudgetHotelsHostels | LocalGuesthouses
| VacationRentals | AccommodationNoPreference.

Definition accommodation_label (o : accommodation_option) : string :=
  match o with
  | LuxuryHotels => "Luxury Hotels (₹15,000-40,000+ per night)"
  | MidRangeHotels => "Mid-range Hotels (₹4,000-15,000 per night)"
  | BudgetHotelsHostels => "Budget Hotels/Hostels (₹800-4,000 per night)"
  | LocalGuesthouses => "Local Guesthouses (₹1,500-6,000 per night)"
  | VacationRentals => "Vacation Rentals (₹2,500-20,000 per night)"
  | AccommodationNoPreference => "No Preference"
  end.

Inductive activity_option : Type :=
| AdventureSports | CulturalHistorical | RelaxationWellness
| ShoppingEntertainment | NatureWildlife | MixOfEverything.

Definition activity_label (o : activity_option) : string :=
  match o with
  | AdventureSports => "Adventure & Sports (₹2,000-10,000 per activity)"
  | CulturalHistorical => "Cultural & Historical (₹500-3,000 per site)"
  | RelaxationWellness => "Relaxation & Wellness (₹1,500-8,000 per session)"
  | ShoppingEntertainment => "Shopping & Entertainment (₹1,000-5,000 per experience)"
  | NatureWildlife => "Nature & Wildlife (₹1,000-6,000 per experience)"
  | MixOfEverything => "Mix of Everything"
  end.

Inductive dining_option : Type :=
| FineDining | LocalStreetFood | MixOfBoth | VegetarianVegan
| BudgetFriendly | DiningNoPreference.

Definition dining_label (o : dining_option) : string :=
  match o with
  | FineDining => "Fine Dining (₹3,500-10,000+ per meal)"
  | LocalStreetFood => "Local Street Food (₹200-800 per meal)"
  | MixOfBoth => "Mix of Both (₹800-4,000 per meal)"
  | VegetarianVegan => "Vegetarian/Vegan (₹400-2,500 per meal)"
  | BudgetFriendly => "Budget-Friendly (₹300-1,500 per meal)"
  | DiningNoPreference => "No Preference"
  end.

Inductive transport_option : Type :=
| PublicTransport | RentalCar | WalkingCycling | RideSharingTaxi
| TourGroups | TransportNoPreference.

Definition transport_label (o : transport_option) : string :=
  match o with
  | PublicTransport => "Public Transport (₹50-500 per day)"
  | RentalCar => "Rental Car (₹2,000-6,000 per day)"
  | WalkingCycling => "Walking/Cycling (₹200-800 per day for rentals)"
  | RideSharingTaxi => "Ride-sharing/Taxi (₹500-2,000 per trip)"
  | TourGroups => "Tour Groups (₹1,500-5,000 per day)"
  | TransportNoPreference => "No Preference"
  end.

(** The three generated options, as the selection widgets list them. *)
Inductive option_no : Type := Option1 | Option2 | Option3.

Definition option_label (o : option_no) : string :=
  match o with
  | Option1 => "Option 1"
  | Option2 => "Option 2"
  | Option3 => "Option 3"
  end.

(** Value of the selectbox keyed [accommodation_selection]. *)
Inductive accommodation_pick : Type :=
| AccommodationOption (o : option_no)
| LetAIDecide.

Definition accommodation_pick_label (p : accommodation_pick) : string :=
  match p with
  | AccommodationOption o => option_label o
  | LetAIDecide => "Let AI decide based on budget"
  end.

(** Value of the selectbox keyed [transport_selection]. *)
Inductive transport_pick : Type :=
| TransportOption (o : option_no)
| CombinationOfOptions.

Definition transport_pick_label (p : transport_pick) : string :=
  match p with
  | TransportOption o => option_label o
  | CombinationOfOptions => "Combination of options"
  end.

(** [st.multiselect]: the chosen options, in the order they were chosen. *)
Definition multiselect (chosen : list option_no) : list string :=
  map option_label chosen.

(** [st.session_state.current_trip_data] *)
Record trip_data : Type := mkTripData {
  td_destination : string;
  td_num_days : Z;
  td_budget : Z;
  td_language : language
}.

(** The ["preferences"] entry of a trip record. *)
Record preferences : Type := mkPreferences {
  accommodation : string;
  selected_accommodation : string;
  activities : string;
  selected_activities : list string;
  dining : string;
  selected_dining : list string;
  transportation : string;
  selected_transport : string;
  special_requests : string
}.

(** An entry of [st.session_state.trip_history]. *)
Record trip_record : Type := mkTripRecord {
  tr_id : string;
  tr_destination : string;
  tr_days : Z;
  tr_budget : Z;
  tr_language : language;
  tr_itinerary : string;
  tr_research : string;
  tr_preferences : preferences;
  tr_date : string
}.

(** [st.session_state].  Lines 40-47 give each key its first value when a
    browser session runs the script for the first time and leave it alone on
    every later run, so a session starts from [new_session]. *)
Record session_state : Type := mkSession {
  trip_history : list trip_record;
  research_results : option string;
  current_trip_data : option trip_data;
  show_preferences : bool
}.

Definition new_session : session_state :=
  {| trip_history := []; research_results := None;
     current_trip_data := None; show_preferences := false |}.

(** [datetime.timedelta], without the microseconds. *)
Record timedelta : Type := mkTimedelta {
  delta_days : Z;
  delta_seconds : Z
}.

Definition timedelta_days (d : Z) : timedelta :=
  {| delta_days := d; delta_seconds := 0 |}.

Definition timedelta_hours (h : Z) : timedelta :=
  {| delta_days := (h * 3600) / 86400; delta_seconds := (h * 3600) mod 86400 |}.

(** An [ics.Event]; [ev_begin] is a [datetime.date], held as its proleptic
    Gregorian ordinal ([date.toordinal()]). *)
Record ics_event : Type := mkEvent {
  ev_name : string;
  ev_begin : Z;
  ev_description : string;
  ev_duration : timedelta
}.

(** An [ics.Calendar]: its events in the order they were added.  Every
    [Event()] gets a fresh uid, so adding to [cal.events] never merges two. *)
Definition calendar : Type := list ics_event.

(** What the values interpolated into the export document are. *)
Record export_content : Type := mkExportContent {
  ec_trip : trip_data;
  ec_generated : string;
  ec_research : string;
  ec_preferences : preferences;
  ec_itinerary : string
}.

(** The [data] argument of [st.download_button]. *)
Inductive payload : Type :=
| FileBytes (bytes : string)
| Text (text : string)
| CalendarText (cal : calendar).   (* str(cal) *)

Inductive llm_client : Type :=
| RecommendationLLM   (* the script-level name llm *)
| PlannerLLM          (* planner_llm *)
| GeocodeLLM.         (* geocode_llm *)

Inductive notice : Type := Info | Success | Warning | Error.

(** What a run does to the outside, in order.  Display-only calls with fixed
    text (headers, captions, the echo of a model answer) are not traced. *)
Inductive event : Type :=
| AgentRun (input : string)
| ModelCall (client : llm_client) (prompt : string)
| Notice (level : notice) (text : string)
| DownloadButton (label : string) (data : payload) (file_name : string)
                 (mime : string) (key : string).

(** The state a script run acts on. *)
Record world : Type := mkWorld {
  session : session_state;
  llm_bound : bool;                 (* is the script-level name llm bound *)
  files : list (string * string);   (* files on disk: name, content *)
  draws : nat;                      (* random draws made so far *)
  trace : list event
}.

(** What a call to the outside comes back with. *)
Inductive outcome (A : Type) : Type :=
| Returned (a : A)
| Failed (msg : string).
Arguments Returned {A} a.
Arguments Failed {A} msg.

(** What the outside decides. *)
Record environment : Type := mkEnv {
  github_token : option string;           (* os.getenv("GITHUB_TOKEN") *)
  serp_api_key : option string;           (* os.getenv("SERPAPI_API_KEY") *)
  chat : string -> outcome string;        (* ChatOpenAI(...).invoke(prompt).content *)
  researcher : string -> outcome string;  (* researcher.invoke({"input": i})["output"] *)
  py_float : string -> option float;      (* the builtin float(text); None: ValueError *)
  py_lower : string -> string;            (* text.lower(), by the Unicode tables *)
  urandom : nat -> N;                     (* the n-th draw of 16 random bytes *)
  today : Z;                              (* datetime.now().date().toordinal() *)
  now_text : string;                      (* datetime.now().strftime('%Y-%m-%d %H:%M') *)
  (* HTML(string=html_content).write_pdf(name): the bytes written to name *)
  weasyprint_write_pdf : export_content -> string -> outcome string;
  (* SimpleDocTemplate(name, ...).build(story): the bytes written to name *)
  reportlab_build : export_content -> string -> outcome string;
  ics_importable : bool;                  (* does "from ics import ..." succeed *)
  pip_install_ics : outcome unit;         (* subprocess.check_call(["pip", ...]) *)
  MAP_AVAILABLE : bool;                   (* were folium and streamlit_folium imported *)
  st_folium : coords -> outcome unit      (* building and showing the map *)
}.

(** ** The run monad: state that survives an exception *)

Definition M (A : Type) : Type := world -> result A * world.

Definition ret {A : Type} (a : A) : M A := fun w => (Ok a, w).

Definition bind {A B : Type} (m : M A) (k : A -> M B) : M B :=
  fun w =>
    match m w with
    | (Ok a, w') => k a w'
    | (Raise e, w') => (Raise e, w')
    end.

Definition raise {A : Type} (e : exn) : M A := fun w => (Raise e, w).

Declare Scope run_scope.
Delimit Scope run_scope with run.
Notation "x <- m ;; k" := (bind m (fun x => k))
  (at level 61, m at next level, right associativity) : run_scope.
Notation "m ;; k" := (bind m (fun _ => k))
  (at level 61, right associativity) : run_scope.
Open Scope run_scope.

(** [try: body / except Exception as e: handler e] *)
Definition try_except {A : Type} (body : M A) (handler : exn -> M A) : M A :=
  fun w =>
    match body w with
    | (Raise e, w') => if is_Exception e then handler e w' else (Raise e, w')
    | r => r
    end.

(** [try: body / except: handler], the bare form that catches everything. *)
Definition try_bare {A : Type} (body : M A) (handler : M A) : M A :=
  fun w =>
    match body w with
    | (Raise _, w') => handler w'
    | r => r
    end.

(** A call to the outside: a failure surfaces as an exception. *)
Definition call {A : Type} (o : outcome A) : M A :=
  fun w =>
    match o with
    | Returned a => (Ok a, w)
    | Failed msg => (Raise (UpstreamError msg), w)
    end.

(** The world after one more traced event. *)
Definition log (e : event) (w : world) : world :=
  {| session := session w; llm_bound := llm_bound w; files := files w;
     draws := draws w; trace := (trace w ++ [e])%list |}.

Definition emit (e : event) : M unit := fun w => (Ok tt, log e w).

Definition get_session : M session_state := fun w => (Ok (session w), w).

Definition put_session (s : session_state) : M unit :=
  fun w => (Ok tt, {| session := s; llm_bound := llm_bound w;
                      files := files w; draws := draws w; trace := trace w |}).

(** [llm = ChatOpenAI(...)] at script level. *)
Definition bind_llm : M unit :=
  fun w => (Ok tt, {| session := session w; llm_bound := true;
                      files := files w; draws := draws w; trace := trace w |}).

(** Evaluating the name [llm]. *)
Definition lookup_llm : M unit :=
  fun w => if llm_bound w then (Ok tt, w)
           else (Raise (NameError "llm"), w).

(** [client.invoke(prompt).content] *)
Definition invoke (env : environment) (client : llm_client) (prompt : string)
  : M string :=
  emit (ModelCall client prompt) ;; call (chat env prompt).

(** The message of an exception, [str(e)]. *)
Definition exn_message (e : exn) : string :=
  match e with
  | NameError name => "name '" ++ name ++ "' is not defined"
  | ValueError msg => msg
  | TypeError msg => msg
  | OverflowError msg => msg
  | ImportError module => "No module named '" ++ module ++ "'"
  | OSError msg => msg
  | UpstreamError msg => msg
  | RerunException => ""
  end.

(* ================================================================== *)
(** * The texts the script builds *)
(* ================================================================== *)

Definition researcher_prompt (language : language) (budget num_days : Z) : string :=
  "
CRITICAL: Respond ONLY in "
  ++ language_name language
  ++ " language. All research findings must be presented in "
  ++ language_name language
  ++ ".

You are a world-class travel researcher. Given a travel destination and the number of days the user wants to travel for,
generate a list of 3 search terms for relevant travel activities and accommodations.
Then search the web for each term, analyze the results, and return the most relevant results.
The user has a ₹"
  ++ str_of_int budget
  ++ " INR budget and prefers the itinerary in "
  ++ language_name language
  ++ ".

Generate 3 search terms related to the destination and days.
For each, use `search_google` to fetch results and analyze.
Return 10 most relevant insights aligned with user's preferences.
Maintain high quality and relevance.

Present your findings in this format:

**ACCOMMODATIONS OPTIONS:**
- Option 1: [Name] - [Brief description] - [Price range in INR within ₹"
  ++ str_of_int budget
  ++ " total budget]
- Option 2: [Name] - [Brief description] - [Price range in INR within ₹"
  ++ str_of_int budget
  ++ " total budget]
- Option 3: [Name] - [Brief description] - [Price range in INR within ₹"
  ++ str_of_int budget
  ++ " total budget]

**ACTIVITY OPTIONS:**
- Option 1: [Activity] - [Description] - [Duration/Time needed] - [Cost in INR]
- Option 2: [Activity] - [Description] - [Duration/Time needed] - [Cost in INR]
- Option 3: [Activity] - [Description] - [Duration/Time needed] - [Cost in INR]

**DINING OPTIONS:**
- Option 1: [Restaurant/Food] - [Cuisine type] - [Price range in INR]
- Option 2: [Restaurant/Food] - [Cuisine type] - [Price range in INR]
- Option 3: [Restaurant/Food] - [Cuisine type] - [Price range in INR]

The user has a total budget of ₹"
  ++ str_of_int budget
  ++ " INR for "
  ++ str_of_int num_days
  ++ " days and prefers information in "
  ++ language_name language
  ++ ".
REMEMBER: Write ALL content in "
  ++ language_name language
  ++ ", not English or any other language.
".

Definition accommodation_search_prompt (trip_data : trip_data) (research_results : string) (accommodation_pref : accommodation_option) : string :=
  "
            IMPORTANT: Respond ONLY in "
  ++ language_name (td_language trip_data)
  ++ " language. All responses must be in "
  ++ language_name (td_language trip_data)
  ++ ".
            
            Based on the research results and user preference for "
  ++ accommodation_label accommodation_pref
  ++ " in "
  ++ td_destination trip_data
  ++ ", 
            provide exactly 3 specific accommodation recommendations in this format:
            
            **Option 1: [Hotel Name]**
            - Description: [Brief description and key features]
            - Price: ₹[amount] per night
            - Location: [area/location]
            - Why recommended: [reason it fits preference]
            
            **Option 2: [Hotel Name]**
            - Description: [Brief description and key features]  
            - Price: ₹[amount] per night
            - Location: [area/location]
            - Why recommended: [reason it fits preference]
            
            **Option 3: [Hotel Name]**
            - Description: [Brief description and key features]
            - Price: ₹[amount] per night  
            - Location: [area/location]
            - Why recommended: [reason it fits preference]
            
            Research context: "
  ++ research_results
  ++ "
            Budget: ₹"
  ++ str_of_int (td_budget trip_data)
  ++ " INR total for "
  ++ str_of_int (td_num_days trip_data)
  ++ " days
            ".

Definition activity_search_prompt (trip_data : trip_data) (research_results : string) (activity_pref : activity_option) : string :=
  "
            IMPORTANT: Respond ONLY in "
  ++ language_name (td_language trip_data)
  ++ " language. All responses must be in "
  ++ language_name (td_language trip_data)
  ++ ".
            
            Based on the research results and user preference for "
  ++ activity_label activity_pref
  ++ " in "
  ++ td_destination trip_data
  ++ ", 
            provide exactly 3 specific activity recommendations in this format:
            
            **Option 1: [Activity Name]**
            - Description: [What to expect and details]
            - Cost: ₹[amount] per person
            - Duration: [time needed]
            - Why recommended: [reason it fits preference]
            
            **Option 2: [Activity Name]**  
            - Description: [What to expect and details]
            - Cost: ₹[amount] per person
            - Duration: [time needed]
            - Why recommended: [reason it fits preference]
            
            **Option 3: [Activity Name]**
            - Description: [What to expect and details]
            - Cost: ₹[amount] per person
            - Duration: [time needed]
            - Why recommended: [reason it fits preference]
            
            Research context: "
  ++ research_results
  ++ "
            Budget: ₹"
  ++ str_of_int (td_budget trip_data)
  ++ " INR total for "
  ++ str_of_int (td_num_days trip_data)
  ++ " days
            ".

Definition dining_search_prompt (trip_data : trip_data) (research_results : string) (dining_pref : dining_option) : string :=
  "
            IMPORTANT: Respond ONLY in "
  ++ language_name (td_language trip_data)
  ++ " language. All responses must be in "
  ++ language_name (td_language trip_data)
  ++ ".
            
            Based on the research results and user preference for "
  ++ dining_label dining_pref
  ++ " in "
  ++ td_destination trip_data
  ++ ", 
            provide exactly 3 specific restaurant/dining recommendations in this format:
            
            **Option 1: [Restaurant Name]**
            - Cuisine: [Type of cuisine]
            - Specialties: [Signature dishes]
            - Cost: ₹[amount] per person per meal
            - Location: [area/address]
            - Why recommended: [reason it fits preference]
            
            **Option 2: [Restaurant Name]**
            - Cuisine: [Type of cuisine]  
            - Specialties: [Signature dishes]
            - Cost: ₹[amount] per person per meal
            - Location: [area/address]
            - Why recommended: [reason it fits preference]
            
            **Option 3: [Restaurant Name]**
            - Cuisine: [Type of cuisine]
            - Specialties: [Signature dishes] 
            - Cost: ₹[amount] per person per meal
            - Location: [area/address]
            - Why recommended: [reason it fits preference]
            
            Research context: "
  ++ research_results
  ++ "
            Budget: ₹"
  ++ str_of_int (td_budget trip_data)
  ++ " INR total for "
  ++ str_of_int (td_num_days trip_data)
  ++ " days
            ".

Definition transport_search_prompt (trip_data : trip_data) (research_results : string) (transport_pref : transport_option) : string :=
  "
            IMPORTANT: Respond ONLY in "
  ++ language_name (td_language trip_data)
  ++ " language. All responses must be in "
  ++ language_name (td_language trip_data)
  ++ ".
            
            Based on the research results and user preference for "
  ++ transport_label transport_pref
  ++ " in "
  ++ td_destination trip_data
  ++ ", 
            provide exactly 3 specific transportation recommendations in this format:
            
            **Option 1: [Service Name/Type]**
            - Description: [Service details and availability]
            - Cost: ₹[amount] per day/trip
            - Coverage: [Areas served and convenience]
            - Booking: [How to book and tips]
            - Why recommended: [reason it fits preference]
            
            **Option 2: [Service Name/Type]**
            - Description: [Service details and availability]
            - Cost: ₹[amount] per day/trip  
            - Coverage: [Areas served and convenience]
            - Booking: [How to book and tips]
            - Why recommended: [reason it fits preference]
            
            **Option 3: [Service Name/Type]**
            - Description: [Service details and availability]
            - Cost: ₹[amount] per day/trip
            - Coverage: [Areas served and convenience] 
            - Booking: [How to book and tips]
            - Why recommended: [reason it fits preference]
            
            Research context: "
  ++ research_results
  ++ "
            Budget: ₹"
  ++ str_of_int (td_budget trip_data)
  ++ " INR total for "
  ++ str_of_int (td_num_days trip_data)
  ++ " days
            ".

Definition planner_input (trip_data : trip_data) (research_results : string) (p : preferences) : string :=
  "
CRITICAL: Respond ONLY in "
  ++ language_name (td_language trip_data)
  ++ " language. Every word of the itinerary must be in "
  ++ language_name (td_language trip_data)
  ++ ".

You are a senior travel planner. Based on the research results and user preferences, create a detailed day-wise itinerary.
Follow the planner instructions: Generate a detailed day-wise itinerary, quote facts from research results (do not fabricate), make it engaging and tailored to user's budget and language.

DESTINATION: "
  ++ td_destination trip_data
  ++ "
DURATION: "
  ++ str_of_int (td_num_days trip_data)
  ++ " days
BUDGET: ₹"
  ++ str_of_int (td_budget trip_data)
  ++ " INR total
LANGUAGE: "
  ++ language_name (td_language trip_data)
  ++ " - IMPORTANT: Use this language for ALL content

RESEARCH RESULTS:
"
  ++ research_results
  ++ "

USER PREFERENCES AND SPECIFIC SELECTIONS:
- Accommodation Preference: "
  ++ accommodation p
  ++ "
- Selected Accommodation: "
  ++ selected_accommodation p
  ++ "
- Activity Preference: "
  ++ activities p
  ++ "  
- Selected Activities: "
  ++ repr_list (selected_activities p)
  ++ "
- Dining Preference: "
  ++ dining p
  ++ "
- Selected Dining Options: "
  ++ repr_list (selected_dining p)
  ++ "
- Transportation Preference: "
  ++ transportation p
  ++ "
- Selected Transportation: "
  ++ selected_transport p
  ++ "
- Special Requests: "
  ++ special_requests p
  ++ "

Please create a comprehensive itinerary that includes:
1. Day-by-day schedule with specific activities and timing based on user's exact selections
2. Use the specific accommodation option selected by the user
3. Include the exact restaurants/dining options the user chose
4. Use the selected transportation method throughout the trip
5. Estimated costs within the ₹"
  ++ str_of_int (td_budget trip_data)
  ++ " INR total budget
6. Cultural tips and local customs
7. Emergency contacts and important information

Format the response clearly with day headers and detailed activities. Ensure all recommendations align with their specific selections and stay within the ₹"
  ++ str_of_int (td_budget trip_data)
  ++ " INR budget. All prices should be in Indian Rupees (INR).

IMPORTANT: Structure the itinerary to specifically include the user's selected options rather than generic suggestions.
REMEMBER: Write EVERYTHING in "
  ++ language_name (td_language trip_data)
  ++ ", not English or any other language.
".

Definition geocode_prompt (destination_name : string) : string :=
  "
                    What are the latitude and longitude coordinates for "
  ++ destination_name
  ++ "?
                    Respond ONLY with: latitude,longitude
                    Example: 28.6139,77.2090
                    ".

Definition formatted_content (env : environment) (trip_data : trip_data) (research_results : string)
  (p : preferences) (itinerary_text : string) : string :=
  "
=== TRAVEL ITINERARY ===
Destination: "
  ++ td_destination trip_data
  ++ "
Duration: "
  ++ str_of_int (td_num_days trip_data)
  ++ " days
Budget: ₹"
  ++ str_of_int (td_budget trip_data)
  ++ " INR
Language: "
  ++ language_name (td_language trip_data)
  ++ "
Generated: "
  ++ now_text env
  ++ "

=== RESEARCH RESULTS ===
"
  ++ research_results
  ++ "

=== YOUR SELECTIONS ===
🏨 Accommodation: "
  ++ selected_accommodation p
  ++ " ("
  ++ accommodation p
  ++ ")
🎯 Activities: "
  ++ join ", " (selected_activities p)
  ++ " ("
  ++ activities p
  ++ ")
🍽️ Dining: "
  ++ join ", " (selected_dining p)
  ++ " ("
  ++ dining p
  ++ ")
🚗 Transportation: "
  ++ selected_transport p
  ++ " ("
  ++ transportation p
  ++ ")
"
  ++ (if String.eqb (special_requests p) "" then "" else "💭 Special Requests: " ++ special_requests p)
  ++ "

=== DETAILED ITINERARY ===
"
  ++ itinerary_text
  ++ "
".

Definition event_name (trip_data : trip_data) (i : Z) : string :=
  "🌍 "
  ++ td_destination trip_data
  ++ " Trip - Day "
  ++ str_of_int (i + 1).

Definition event_description (trip_data : trip_data) (p : preferences) (itinerary_text : string) (i : Z) : string :=
  "Day "
  ++ str_of_int (i + 1)
  ++ " of your "
  ++ td_destination trip_data
  ++ " trip\n\nBudget: ₹"
  ++ str_of_int (td_budget trip_data)
  ++ " INR\n\nSelected Options:\n- Accommodation: "
  ++ selected_accommodation p
  ++ "\n- Activities: "
  ++ join ", " (selected_activities p)
  ++ "\n- Dining: "
  ++ join ", " (selected_dining p)
  ++ "\n- Transport: "
  ++ selected_transport p
  ++ "\n\nItinerary:\n"
  ++ take 300 itinerary_text
  ++ "...".

(** The texts are long: keep them folded under simplification. *)
Arguments researcher_prompt : simpl never.
Arguments accommodation_search_prompt : simpl never.
Arguments activity_search_prompt : simpl never.
Arguments dining_search_prompt : simpl never.
Arguments transport_search_prompt : simpl never.
Arguments planner_input : simpl never.
Arguments geocode_prompt : simpl never.
Arguments formatted_content : simpl never.
Arguments event_name : simpl never.
Arguments event_description : simpl never.

(* ================================================================== *)
(** * Library calls: uuid, dates, files *)
(* ================================================================== *)

(** [uuid.uuid4()]: 16 random bytes read as a number, with the variant and
    version bits set as [UUID.__init__(bytes=..., version=4)] sets them. *)
Definition uuid4 (random : N) : N :=
  let int := N.land random (N.ones 128) in
  let int := N.ldiff int (N.shiftl 0xc000 48) in
  let int := N.lor int (N.shiftl 0x8000 48) in
  let int := N.ldiff int (N.shiftl 0xf000 64) in
  N.lor int (N.shiftl 4 76).

Definition hex_digit (d : N) : ascii :=
  match String.get (N.to_nat d) "0123456789abcdef" with
  | Some c => c
  | None => "0"%char
  end.

(** The [k] low hexadecimal digits of [n], most significant first:
    ['%032x' % n] when [k] is 32 and [n] is below 2^128. *)
Fixpoint hex_digits (k : nat) (n : N) : string :=
  match k with
  | O => EmptyString
  | S k' => hex_digits k' (N.shiftr n 4) ++ String (hex_digit (N.land n 15)) EmptyString
  end.

(** [str(u)] for a [UUID]: the 8-4-4-4-12 form. *)
Definition str_uuid (u : N) : string :=
  let hex := hex_digits 32 u in
  substring 0 8 hex ++ "-" ++ substring 8 4 hex ++ "-" ++ substring 12 4 hex
  ++ "-" ++ substring 16 4 hex ++ "-" ++ substring 20 12 hex.

(** [str(uuid.uuid4())[:8]], used for [trip_id] and [export_trip_id]. *)
Definition short_id (random : N) : string := take 8 (str_uuid (uuid4 random)).

Arguments short_id : simpl never.

Definition fresh_id (env : environment) : M string :=
  fun w => (Ok (short_id (urandom env (draws w))),
            {| session := session w; llm_bound := llm_bound w; files := files w;
               draws := S (draws w); trace := trace w |}).

(** [date.max.toordinal()] *)
Definition MAXORDINAL : Z := 3652059.

(** [d + delta] for a [datetime.date] [d]. *)
Definition date_add (d : Z) (delta : timedelta) : result Z :=
  let o := d + delta_days delta in
  if andb (0 <? o) (o <=? MAXORDINAL) then Ok o
  else Raise (OverflowError "date value out of range").

(** [range(n)] *)
Definition range (n : Z) : list Z := map Z.of_nat (seq 0 (Z.to_nat n)).

Definition lift {A : Type} (r : result A) : M A := fun w => (r, w).

Definition lookup_file (name : string) (fs : list (string * string)) : option string :=
  match find (fun f => String.eqb (fst f) name) fs with
  | Some f => Some (snd f)
  | None => None
  end.

Definition delete_file (name : string) (fs : list (string * string))
  : list (string * string) :=
  filter (fun f => negb (String.eqb (fst f) name)) fs.

Definition set_files (fs : list (string * string)) : M unit :=
  fun w => (Ok tt, {| session := session w; llm_bound := llm_bound w; files := fs;
                      draws := draws w; trace := trace w |}).

(** A renderer writing [name]: on success the file holds what it wrote. *)
Definition render_to (name : string) (o : outcome string) : M unit :=
  bytes <- call o ;;
  fun w => set_files ((name, bytes) :: delete_file name (files w)) w.

(** [open(name, "rb").read()] *)
Definition read_file (name : string) : M string :=
  fun w =>
    match lookup_file name (files w) with
    | Some bytes => (Ok bytes, w)
    | None => (Raise (OSError ("No such file or directory: '" ++ name ++ "'")), w)
    end.

(** [os.remove(name)] *)
Definition os_remove (name : string) : M unit :=
  fun w =>
    match lookup_file name (files w) with
    | Some _ => set_files (delete_file name (files w)) w
    | None => (Raise (OSError ("No such file or directory: '" ++ name ++ "'")), w)
    end.

(* ================================================================== *)
(** * Coordinate lookup (lines 841-905) *)
(* ================================================================== *)

Definition location_coords : list (string * coords) :=
  [ ("delhi", (28.6139, 77.2090)%float);
    ("mumbai", (19.0760, 72.8777)%float);
    ("bangalore", (12.9716, 77.5946)%float);
    ("chennai", (13.0827, 80.2707)%float);
    ("kolkata", (22.5726, 88.3639)%float);
    ("hyderabad", (17.3850, 78.4867)%float);
    ("pune", (18.5204, 73.8567)%float);
    ("ahmedabad", (23.0225, 72.5714)%float);
    ("jaipur", (26.9124, 75.7873)%float);
    ("goa", (15.2993, 74.1240)%float);
    ("kerala", (10.8505, 76.2711)%float);
    ("kashmir", (34.0837, 74.7973)%float);
    ("rajasthan", (27.0238, 74.2179)%float);
    ("uttarakhand", (30.0668, 79.0193)%float);
    ("himachal pradesh", (31.1048, 77.1734)%float);
    ("paris", (48.8566, 2.3522)%float);
    ("london", (51.5074, -0.1278)%float);
    ("new york", (40.7128, -74.0060)%float);
    ("tokyo", (35.6762, 139.6503)%float);
    ("bangkok", (13.7563, 100.5018)%float);
    ("dubai", (25.2048, 55.2708)%float);
    ("singapore", (1.3521, 103.8198)%float);
    ("malaysia", (4.2105, 101.9758)%float);
    ("indonesia", (-0.7893, 113.9213)%float);
    ("thailand", (15.8700, 100.9925)%float);
    ("nepal", (28.3949, 84.1240)%float);
    ("bhutan", (27.5142, 90.4336)%float);
    ("sri lanka", (7.8731, 80.7718)%float);
    ("maldives", (3.2028, 73.2207)%float) ].

(** The India-centre fallback of the last line. *)
Definition default_coords : coords := (20.5937, 78.9629)%float.

(** [for key, coords in items: if key in dest_lower: return coords] *)
Fixpoint scan_table (items : list (string * coords)) (dest_lower : string)
  : option coords :=
  match items with
  | [] => None
  | (key, c) :: rest =>
      if contains key dest_lower then Some c else scan_table rest dest_lower
  end.

(** [float(text)] *)
Definition float_of (env : environment) (text : string) : M float :=
  match py_float env text with
  | Some f => ret f
  | None => raise (ValueError ("could not convert string to float: '" ++ text ++ "'"))
  end.

(** The body of the [try] (lines 883-900): [Some] when its [return] is
    reached, [None] when it falls through. *)
Definition geocode_fallback (env : environment) (destination_name : string)
  : M (option coords) :=
  content <- invoke env GeocodeLLM (geocode_prompt destination_name) ;;
  let coords_text := strip content in
  if contains "," coords_text then
    match split "," coords_text with
    | [lat_str; lon_str] =>
        lat <- float_of env (strip lat_str) ;;
        lon <- float_of env (strip lon_str) ;;
        ret (Some (lat, lon))
    | [] | [_] => raise (ValueError "not enough values to unpack (expected 2, got 1)")
    | _ => raise (ValueError "too many values to unpack (expected 2)")
    end
  else ret None.

Definition get_coordinates (env : environment) (destination_name : string) : M coords :=
  let dest_lower := py_lower env destination_name in
  match scan_table location_coords dest_lower with
  | Some c => ret c
  | None =>
      returned <- try_bare (geocode_fallback env destination_name) (ret None) ;;
      match returned with
      | Some c => ret c
      | None => ret default_coords
      end
  end.

(* ================================================================== *)
(** * The script *)
(* ================================================================== *)

(** The widget values of one run. *)
Record widgets : Type := mkWidgets {
  destination : string;                        (* st.text_input *)
  num_days : Z;                                (* st.number_input, 1..30 *)
  budget : Z;                                  (* st.number_input, 5000..5000000 *)
  chosen_language : language;
  generate_clicked : bool;                     (* "Start Research & Planning" *)
  accommodation_pref : accommodation_option;
  accommodation_selection : accommodation_pick;
  activity_pref : activity_option;
  activity_selection : list option_no;
  dining_pref : dining_option;
  dining_selection : list option_no;
  transport_pref : transport_option;
  transport_selection : transport_pick;
  special_requests_text : string;              (* st.text_area *)
  itinerary_clicked : bool;                    (* "Generate My Personalized Itinerary" *)
  pdf_clicked : bool;                          (* "Generate PDF" *)
  calendar_clicked : bool                      (* "Download Calendar (.ics)" *)
}.

(** Truth value of an environment variable: unset and empty are false. *)
Definition truthy (v : option string) : bool :=
  match v with
  | Some (String _ _) => true
  | _ => false
  end.

Definition credentials_warning : string :=
  "Please set your GITHUB_TOKEN and SERPAPI_API_KEY in the .env file.".

(** ** Research stage (lines 63-169) *)

Definition research_input (ui : widgets) : string :=
  researcher_prompt (chosen_language ui) (budget ui) (num_days ui)
  ++ "
Destination: " ++ destination ui ++ "
Days: " ++ str_of_int (num_days ui) ++ "
Budget: " ++ str_of_int (budget ui) ++ "
Language: " ++ language_name (chosen_language ui).

Definition research_stage (env : environment) (ui : widgets) : M unit :=
  if negb (andb (truthy (github_token env)) (truthy (serp_api_key env))) then
    emit (Notice Error credentials_warning)
  else if String.eqb (destination ui) "" then
    emit (Notice Error "Please enter your travel destination.")
  else
    bind_llm ;;
    emit (AgentRun (research_input ui)) ;;
    found <- call (researcher env (research_input ui)) ;;
    s <- get_session ;;
    put_session {| trip_history := trip_history s;
                   research_results := Some found;
                   current_trip_data :=
                     Some {| td_destination := destination ui;
                             td_num_days := num_days ui;
                             td_budget := budget ui;
                             td_language := chosen_language ui |};
                   show_preferences := true |} ;;
    emit (Notice Success "✓ Research completed! Now select your preferences below.") ;;
    raise RerunException.

(** ** Preference refinement (lines 185-500) *)

Definition accommodation_block (env : environment) (trip_data : trip_data)
  (research : string) (pref : accommodation_option) (pick : accommodation_pick)
  : M string :=
  if negb (String.eqb (accommodation_label pref) "No Preference") then
    bind_llm ;;
    _ <- invoke env RecommendationLLM
           (accommodation_search_prompt trip_data research pref) ;;
    ret (accommodation_pick_label pick)
  else ret "No Preference".

Definition activity_block (env : environment) (trip_data : trip_data)
  (research : string) (pref : activity_option) (chosen : list option_no)
  : M (list string) :=
  if negb (String.eqb (activity_label pref) "Mix of Everything") then
    lookup_llm ;;
    _ <- invoke env RecommendationLLM
           (activity_search_prompt trip_data research pref) ;;
    let selected := multiselect chosen in
    match selected with
    | [] => ret ["Option 1"]
    | _ => ret selected
    end
  else ret ["Mix of Everything"].

Definition dining_block (env : environment) (trip_data : trip_data)
  (research : string) (pref : dining_option) (chosen : list option_no)
  : M (list string) :=
  if negb (String.eqb (dining_label pref) "No Preference") then
    lookup_llm ;;
    _ <- invoke env RecommendationLLM
           (dining_search_prompt trip_data research pref) ;;
    let selected := multiselect chosen in
    match selected with
    | [] => ret ["Option 1"]
    | _ => ret selected
    end
  else ret ["No Preference"].

Definition transport_block (env : environment) (trip_data : trip_data)
  (research : string) (pref : transport_option) (pick : transport_pick)
  : M string :=
  if negb (String.eqb (transport_label pref) "No Preference") then
    lookup_llm ;;
    _ <- invoke env RecommendationLLM
           (transport_search_prompt trip_data research pref) ;;
    ret (transport_pick_label pick)
  else ret "No Preference".

(** The four blocks in script order, then the special-requests box. *)
Definition preference_stage (env : environment) (trip_data : trip_data)
  (research : string) (ui : widgets) : M preferences :=
  sel_accommodation <- accommodation_block env trip_data research
                         (accommodation_pref ui) (accommodation_selection ui) ;;
  sel_activities <- activity_block env trip_data research
                      (activity_pref ui) (activity_selection ui) ;;
  sel_dining <- dining_block env trip_data research
                  (dining_pref ui) (dining_selection ui) ;;
  sel_transport <- transport_block env trip_data research
                     (transport_pref ui) (transport_selection ui) ;;
  ret {| accommodation := accommodation_label (accommodation_pref ui);
         selected_accommodation := sel_accommodation;
         activities := activity_label (activity_pref ui);
         selected_activities := sel_activities;
         dining := dining_label (dining_pref ui);
         selected_dining := sel_dining;
         transportation := transport_label (transport_pref ui);
         selected_transport := sel_transport;
         special_requests := special_requests_text ui |}.

(** ** Itinerary synthesis and the history entry (lines 512-590) *)

Definition itinerary_ready : string := "✅ Your personalized itinerary is ready!".

Definition synthesis (env : environment) (trip_data : trip_data)
  (research : string) (p : preferences) : M string :=
  itinerary_text <- invoke env PlannerLLM (planner_input trip_data research p) ;;
  emit (Notice Success itinerary_ready) ;;
  trip_id <- fresh_id env ;;
  s <- get_session ;;
  put_session {| trip_history :=
                   (trip_history s ++
                   [ {| tr_id := trip_id;
                        tr_destination := td_destination trip_data;
                        tr_days := td_num_days trip_data;
                        tr_budget := td_budget trip_data;
                        tr_language := td_language trip_data;
                        tr_itinerary := itinerary_text;
                        tr_research := research;
                        tr_preferences := p;
                        tr_date := now_text env |} ])%list;
                 research_results := research_results s;
                 current_trip_data := current_trip_data s;
                 show_preferences := show_preferences s |} ;;
  ret itinerary_text.

(** ** Document export (lines 599-787) *)

Definition export_file_name (stem : string) (trip_data : trip_data)
  (export_trip_id extension : string) : string :=
  stem ++ "_" ++ replace " " "_" (td_destination trip_data) ++ "_"
  ++ export_trip_id ++ extension.

Arguments export_file_name : simpl never.

(** The two rendering methods (lines 676-735): the value of
    [pdf_generated] after them. *)
Definition generate_pdf (env : environment) (content : export_content)
  (pdf_filename : string) : M bool :=
  try_except
    (render_to pdf_filename (weasyprint_write_pdf env content pdf_filename) ;;
     emit (Notice Info "✅ PDF generated using WeasyPrint") ;;
     ret true)
    (fun weasy_error =>
       try_except
         (render_to pdf_filename (reportlab_build env content pdf_filename) ;;
          emit (Notice Info "✅ PDF generated using ReportLab") ;;
          ret true)
         (fun reportlab_error =>
            emit (Notice Error ("❌ All PDF generation methods failed. Error: "
                                ++ exn_message reportlab_error)) ;;
            ret false)).

Definition document_export (env : environment) (trip_data : trip_data)
  (research : string) (p : preferences) (itinerary_text : string) : M unit :=
  export_trip_id <- fresh_id env ;;
  try_except
    (let content := {| ec_trip := trip_data; ec_generated := now_text env;
                       ec_research := research; ec_preferences := p;
                       ec_itinerary := itinerary_text |} in
     let pdf_filename := export_file_name "itinerary" trip_data export_trip_id ".pdf" in
     pdf_generated <- generate_pdf env content pdf_filename ;;
     if pdf_generated then
       pdf_data <- read_file pdf_filename ;;
       emit (DownloadButton "📥 Download PDF" (FileBytes pdf_data) pdf_filename
               "application/pdf" ("pdf_download_" ++ export_trip_id)) ;;
       try_bare (os_remove pdf_filename) (ret tt) ;;
       emit (Notice Success "✅ PDF ready for download!")
     else
       emit (Notice Warning
               "⚠️ PDF generation unavailable. Offering text download instead.") ;;
       emit (DownloadButton "📄 Download as Text File"
               (Text (formatted_content env trip_data research p itinerary_text))
               (export_file_name "itinerary" trip_data export_trip_id ".txt")
               "text/plain" ("fallback_text_download_" ++ export_trip_id)))
    (fun pdf_error =>
       emit (Notice Error ("❌ Export failed: " ++ exn_message pdf_error))).

(** ** Calendar export (lines 791-830) *)

(** One turn of the loop body (lines 802-806). *)
Definition day_event (trip_data : trip_data) (p : preferences)
  (itinerary_text : string) (start_date : Z) (i : Z) : M ics_event :=
  begin <- lift (date_add start_date (timedelta_days i)) ;;
  ret {| ev_name := event_name trip_data i;
         ev_begin := begin;
         ev_description := event_description trip_data p itinerary_text i;
         ev_duration := timedelta_hours 8 |}.

(** [for i in indices: ...; cal.events.add(e)] *)
Fixpoint add_events (body : Z -> M ics_event) (indices : list Z) (cal : calendar)
  : M calendar :=
  match indices with
  | [] => ret cal
  | i :: rest => e <- body i ;; add_events body rest (cal ++ [e])%list
  end.

Definition calendar_export (env : environment) (trip_data : trip_data)
  (p : preferences) (itinerary_text : string) : M unit :=
  export_trip_id <- fresh_id env ;;
  try_except
    ((if ics_importable env then ret tt else raise (ImportError "ics")) ;;
     let start_date := today env in
     cal <- add_events (day_event trip_data p itinerary_text start_date)
              (range (td_num_days trip_data)) [] ;;
     emit (DownloadButton "📥 Download Calendar" (CalendarText cal)
             (export_file_name "trip" trip_data export_trip_id ".ics")
             "text/calendar" ("calendar_download_" ++ export_trip_id)) ;;
     emit (Notice Success "✅ Calendar file ready for download!"))
    (fun e =>
       emit (Notice Error ("❌ Error creating calendar: " ++ exn_message e)) ;;
       emit (Notice Info "💡 Installing required packages...") ;;
       try_bare
         (call (pip_install_ics env) ;;
          emit (Notice Info "📦 ics package installed. Please try again."))
         (emit (Notice Warning
                  "⚠️ Could not auto-install calendar dependencies. You may need to install the 'ics' package manually."))).

(** ** Map panel (lines 832-946) *)

Definition map_panel (env : environment) (trip_data : trip_data) : M unit :=
  if negb (MAP_AVAILABLE env) then
    emit (Notice Warning
            "⚠️ Interactive maps are not available. The required mapping libraries are not installed.")
  else
    try_except
      (c <- get_coordinates env (td_destination trip_data) ;;
       call (st_folium env c))
      (fun e =>
         emit (Notice Warning ("⚠️ Map display error: " ++ exn_message e)) ;;
         _ <- get_coordinates env (td_destination trip_data) ;;
         ret tt).

(** ** The page below the research stage (lines 172-946) *)

Definition planning_page (env : environment) (ui : widgets) : M unit :=
  s <- get_session ;;
  match show_preferences s, research_results s with
  | true, Some research =>
      (* trip_data = st.session_state.current_trip_data; it is set together
         with research_results, see [session_ok] *)
      trip_data <- match current_trip_data s with
                   | Some td => ret td
                   | None => raise (TypeError "'NoneType' object is not subscriptable")
                   end ;;
      p <- preference_stage env trip_data research ui ;;
      if itinerary_clicked ui then
        itinerary_text <- synthesis env trip_data research p ;;
        (if pdf_clicked ui
         then document_export env trip_data research p itinerary_text
         else ret tt) ;;
        (if calendar_clicked ui
         then calendar_export env trip_data p itinerary_text
         else ret tt) ;;
        map_panel env trip_data
      else ret tt
  | _, _ => ret tt
  end.

(** ** One run of the script, top to bottom *)

(** Lines 50-169: the credentials check and the research button. *)
Definition page_head (env : environment) (ui : widgets) : M unit :=
  (if orb (negb (truthy (github_token env))) (negb (truthy (serp_api_key env)))
   then emit (Notice Warning credentials_warning)
   else ret tt) ;;
  (if generate_clicked ui then research_stage env ui else ret tt).

Definition script (env : environment) (ui : widgets) : M unit :=
  page_head env ui ;; planning_page env ui.

(** A run starts in a new namespace and with an empty trace; the session
    state, the files and the random source carry over. *)
Definition start_run (w : world) : world :=
  {| session := session w; llm_bound := false; files := files w;
     draws := draws w; trace := [] |}.

Definition run (env : environment) (ui : widgets) (w : world) : result unit * world :=
  script env ui (start_run w).

(** A browser session: the runs one after the other, each with what the
    outside decides during it. *)
Fixpoint runs (steps : list (environment * widgets)) (w : world) : world :=
  match steps with
  | [] => w
  | (env, ui) :: rest => runs rest (snd (run env ui w))
  end.

(** The world a browser session starts in. *)
Definition new_world : world :=
  {| session := new_session; llm_bound := false; files := []; draws := O; trace := [] |}.

(** The notice that ends a synthesis. *)
Definition is_ready (e : event) : bool :=
  match e with
  | Notice Success text => String.eqb text itinerary_ready
  | _ => false
  end.

(** How many syntheses a trace announces. *)
Definition ready_count (t : list event) : nat := List.length (filter is_ready t).

(** A synthesis is the call [planner_llm.invoke(planner_input)] of line 560;
    it succeeds when the planner comes back with an itinerary.  This is read
    off the call and the planner's answer, not off what the script does
    with the answer afterwards. *)
Definition planner_answered (env : environment) (e : event) : bool :=
  match e with
  | ModelCall PlannerLLM prompt =>
      match chat env prompt with
      | Returned _ => true
      | Failed _ => false
      end
  | _ => false
  end.

(** The successful syntheses among the calls of a trace. *)
Definition syntheses (env : environment) (t : list event) : nat :=
  List.length (filter (planner_answered env) t).

(** The successful syntheses of a browser session, run by run. *)
Fixpoint successful_syntheses (steps : list (environment * widgets)) (w : world) : nat :=
  match steps with
  | [] => O
  | (env, ui) :: rest =>
      let w' := snd (run env ui w) in
      (syntheses env (trace w') + successful_syntheses rest w')%nat
  end.

(** The downloads a trace offers. *)
Definition downloads (t : list event) : list event :=
  filter (fun e => match e with
                   | DownloadButton _ _ _ _ _ => true
                   | _ => false
                   end) t.

(** What [research_stage] keeps true of the session state. *)
Definition session_ok (s : session_state) : Prop :=
  research_results s <> None -> current_trip_data s <> None.

(* ================================================================== *)
(** * Vocabulary of the statements *)
(* ================================================================== *)

(** [key] occurs in [s]. *)
Definition substring_of (key s : string) : Prop :=
  exists before after, s = before ++ key ++ after.

(** The text is [latitude,longitude]: two parts around a single comma, each
    of which [float] accepts. *)
Definition parses_lat_lon (env : environment) (text : string) : bool :=
  match split "," (strip text) with
  | [lat_str; lon_str] =>
      match py_float env (strip lat_str), py_float env (strip lon_str) with
      | Some _, Some _ => true
      | _, _ => false
      end
  | _ => false
  end.

(** The three generated options. *)
Definition generated_options : list string := ["Option 1"; "Option 2"; "Option 3"].

(** What a multi-choice block returns when its call is made: the chosen
    options, or the first option when none is chosen. *)
Definition chosen_or_first (chosen : list option_no) : list string :=
  match multiselect chosen with
  | [] => ["Option 1"]
  | selected => selected
  end.

(** ** Relations between the worlds before and after a computation *)

(** Every run of [m] takes a world to one related to it by [R]. *)
Definition keeps (R : world -> world -> Prop) {A : Type} (m : M A) : Prop :=
  forall w r w', m w = (r, w') -> R w w'.

(** The session state is untouched and no synthesis was announced. *)
Definition quiet (w w' : world) : Prop :=
  session w' = session w /\ ready_count (trace w') = ready_count (trace w).

(** No event that [P] holds of was added to the trace. *)
Definition unseen (P : event -> bool) (w w' : world) : Prop :=
  filter P (trace w') = filter P (trace w).

(** Nothing that matters to the history happened: the session state is
    untouched and the planner was not called with success. *)
Definition still (env : environment) (w w' : world) : Prop :=
  quiet w w' /\ unseen (planner_answered env) w w'.

(** The history grew at its end, by one entry per successful synthesis, each
    with an identifier cut from a UUID; nothing before was touched. *)
Definition grows (env : environment) (w w' : world) : Prop :=
  exists added,
    trip_history (session w') = (trip_history (session w) ++ added)%list /\
    syntheses env (trace w') = (syntheses env (trace w) + List.length added)%nat /\
    Forall (fun r => exists random, tr_id r = short_id random) added.

(** A computation that keeps the session state well formed. *)
Definition stays_ok (w w' : world) : Prop :=
  session_ok (session w) -> session_ok (session w').

(** ** The two exports *)

(** What the document export hands to the renderers. *)
Definition export_document (env : environment) (td : trip_data) (research : string)
  (p : preferences) (itinerary_text : string) : export_content :=
  {| ec_trip := td; ec_generated := now_text env; ec_research := research;
     ec_preferences := p; ec_itinerary := itinerary_text |}.

(** The download an export offers, by the path taken: the file a renderer
    wrote, or the text document when both renderers failed. *)
Definition offered_document (env : environment) (td : trip_data) (research : string)
  (p : preferences) (itinerary_text : string) (export_trip_id : string) : event :=
  let content := export_document env td research p itinerary_text in
  let pdf_filename := export_file_name "itinerary" td export_trip_id ".pdf" in
  let pdf bytes :=
    DownloadButton "📥 Download PDF" (FileBytes bytes) pdf_filename
      "application/pdf" ("pdf_download_" ++ export_trip_id) in
  match weasyprint_write_pdf env content pdf_filename with
  | Returned bytes => pdf bytes
  | Failed _ =>
      match reportlab_build env content pdf_filename with
      | Returned bytes => pdf bytes
      | Failed _ =>
          DownloadButton "📄 Download as Text File"
            (Text (formatted_content env td research p itinerary_text))
            (export_file_name "itinerary" td export_trip_id ".txt")
            "text/plain" ("fallback_text_download_" ++ export_trip_id)
      end
  end.

(** The declared media type of a download. *)
Definition mime_of (e : event) : string :=
  match e with
  | DownloadButton _ _ _ mime _ => mime
  | _ => ""
  end.

(** The event the calendar loop builds for day index [i]. *)
Definition planned_event (td : trip_data) (p : preferences) (itinerary_text : string)
  (start_date : Z) (i : Z) : ics_event :=
  {| ev_name := event_name td i;
     ev_begin := start_date + i;
     ev_description := event_description td p itinerary_text i;
     ev_duration := timedelta_hours 8 |}.

(** ** A concrete setting for the examples *)

Definition paris_trip : trip_data :=
  {| td_destination := "Paris"; td_num_days := 5; td_budget := 150000;
     td_language := English |}.

(** Both credentials set, a model that answers every prompt with the same
    text, WeasyPrint missing, ReportLab working, 1 May 2024. *)
Definition demo_env : environment :=
  {| github_token := Some "token";
     serp_api_key := Some "key";
     chat := fun _ => Returned "Option 1 ... Option 2 ... Option 3 ...";
     researcher := fun _ => Returned "research notes";
     py_float := fun _ => None;
     py_lower := ascii_lower;
     urandom := fun n => (N.of_nat (S n) * 0x0123456789abcdef0123456789abcdef)%N;
     today := 739007;
     now_text := "2024-05-01 10:00";
     weasyprint_write_pdf := fun _ _ => Failed "No module named 'weasyprint'";
     reportlab_build := fun _ _ => Returned "%PDF-1.4";
     ics_importable := true;
     pip_install_ics := Failed "pip";
     MAP_AVAILABLE := true;
     st_folium := fun _ => Returned tt |}.

(** The world of a run that has reached the preference panel: nothing has
    bound [llm] yet. *)
Definition panel_world : world :=
  {| session := {| trip_history := [];
                   research_results := Some "research notes";
                   current_trip_data := Some paris_trip;
                   show_preferences := true |};
     llm_bound := false; files := []; draws := O; trace := [] |}.

Definition demo_widgets : widgets :=
  {| destination := "Paris"; num_days := 5; budget := 150000;
     chosen_language := English; generate_clicked := false;
     accommodation_pref := MidRangeHotels;
     accommodation_selection := AccommodationOption Option1;
     activity_pref := AdventureSports; activity_selection := [];
     dining_pref := BudgetFriendly; dining_selection := [Option2; Option3];
     transport_pref := TransportNoPreference;
     transport_selection := TransportOption Option1;
     special_requests_text := "";
     itinerary_clicked := true; pdf_clicked := false; calendar_clicked := false |}.

(** The preferences [demo_widgets] lead to. *)
Definition demo_preferences : preferences :=
  {| accommodation := accommodation_label MidRangeHotels;
     selected_accommodation := "Option 1";
     activities := activity_label AdventureSports;
     selected_activities := ["Option 1"];
     dining := dining_label BudgetFriendly;
     selected_dining := ["Option 2"; "Option 3"];
     transportation := "No Preference";
     selected_transport := "No Preference";
     special_requests := "" |}.

(** The same widget values with another accommodation style. *)
Definition with_accommodation (o : accommodation_option) (ui : widgets) : widgets :=
  {| destination := destination ui; num_days := num_days ui; budget := budget ui;
     chosen_language := chosen_language ui; generate_clicked := generate_clicked ui;
     accommodation_pref := o;
     accommodation_selection := accommodation_selection ui;
     activity_pref := activity_pref ui; activity_selection := activity_selection ui;
     dining_pref := dining_pref ui; dining_selection := dining_selection ui;
     transport_pref := transport_pref ui;
     transport_selection := transport_selection ui;
     special_requests_text := special_requests_text ui;
     itinerary_clicked := itinerary_clicked ui; pdf_clicked := pdf_clicked ui;
     calendar_clicked := calendar_clicked ui |}.

(** The end-to-end scenario: the research button for Paris, then the
    itinerary button with a hotel style, "Mix of Everything", a dining style
    and "No Preference" for transportation. *)
Definition research_click : widgets :=
  {| destination := "Paris"; num_days := 5; budget := 150000;
     chosen_language := English; generate_clicked := true;
     accommodation_pref := MidRangeHotels;
     accommodation_selection := AccommodationOption Option1;
     activity_pref := MixOfEverything; activity_selection := [];
     dining_pref := MixOfBoth; dining_selection := [];
     transport_pref := PublicTransport;
     transport_selection := TransportOption Option1;
     special_requests_text := "";
     itinerary_clicked := false; pdf_clicked := false; calendar_clicked := false |}.

Definition itinerary_click : widgets :=
  {| destination := "Paris"; num_days := 5; budget := 150000;
     chosen_language := English; generate_clicked := false;
     accommodation_pref := MidRangeHotels;
     accommodation_selection := AccommodationOption Option2;
     activity_pref := MixOfEverything; activity_selection := [];
     dining_pref := BudgetFriendly; dining_selection := [Option1; Option3];
     transport_pref := TransportNoPreference;
     transport_selection := TransportOption Option1;
     special_requests_text := "";
     itinerary_clicked := true; pdf_clicked := false; calendar_clicked := false |}.

(** A world in which the accommodation block has bound [llm]. *)
Definition bound_world : world := snd (bind_llm panel_world).

(* ================================================================== *)
(** * The rest of the page *)
(* ================================================================== *)

(** ** The option lists and their descriptions (lines 187-203, 269-285,
    346-362, 426-442) *)

Definition accommodation_options : list string :=
  [ "Luxury Hotels (₹15,000-40,000+ per night)";
    "Mid-range Hotels (₹4,000-15,000 per night)";
    "Budget Hotels/Hostels (₹800-4,000 per night)";
    "Local Guesthouses (₹1,500-6,000 per night)";
    "Vacation Rentals (₹2,500-20,000 per night)";
    "No Preference" ].

Definition accommodation_descriptions : list (string * string) :=
  [ ("Luxury Hotels (₹15,000-40,000+ per night)",
     "Premium hotels with high-end amenities, concierge services, and prime locations");
    ("Mid-range Hotels (₹4,000-15,000 per night)",
     "Comfortable hotels with good amenities, central locations, and reliable service");
    ("Budget Hotels/Hostels (₹800-4,000 per night)",
     "Basic accommodations, shared facilities, perfect for budget travelers");
    ("Local Guesthouses (₹1,500-6,000 per night)",
     "Authentic local experience, family-run establishments, cultural immersion");
    ("Vacation Rentals (₹2,500-20,000 per night)",
     "Apartments, houses, or condos with kitchen facilities and more space");
    ("No Preference",
     "Let the AI choose the best option based on your budget and destination") ].

Definition activity_options : list string :=
  [ "Adventure & Sports (₹2,000-10,000 per activity)";
    "Cultural & Historical (₹500-3,000 per site)";
    "Relaxation & Wellness (₹1,500-8,000 per session)";
    "Shopping & Entertainment (₹1,000-5,000 per experience)";
    "Nature & Wildlife (₹1,000-6,000 per experience)";
    "Mix of Everything" ].

Definition activity_descriptions : list (string * string) :=
  [ ("Adventure & Sports (₹2,000-10,000 per activity)",
     "Hiking, water sports, extreme activities, outdoor adventures");
    ("Cultural & Historical (₹500-3,000 per site)",
     "Museums, historical sites, cultural tours, art galleries");
    ("Relaxation & Wellness (₹1,500-8,000 per session)",
     "Spas, beaches, yoga retreats, peaceful activities");
    ("Shopping & Entertainment (₹1,000-5,000 per experience)",
     "Markets, malls, nightlife, shows, entertainment venues");
    ("Nature & Wildlife (₹1,000-6,000 per experience)",
     "National parks, wildlife viewing, botanical gardens, nature trails");
    ("Mix of Everything",
     "Balanced combination of different activity types") ].

Definition dining_options : list string :=
  [ "Fine Dining (₹3,500-10,000+ per meal)";
    "Local Street Food (₹200-800 per meal)";
    "Mix of Both (₹800-4,000 per meal)";
    "Vegetarian/Vegan (₹400-2,500 per meal)";
    "Budget-Friendly (₹300-1,500 per meal)";
    "No Preference" ].

Definition dining_descriptions : list (string * string) :=
  [ ("Fine Dining (₹3,500-10,000+ per meal)",
     "High-end restaurants, chef's specials, gourmet experiences");
    ("Local Street Food (₹200-800 per meal)",
     "Authentic local cuisine, food markets, street vendors");
    ("Mix of Both (₹800-4,000 per meal)",
     "Combination of upscale and local dining experiences");
    ("Vegetarian/Vegan (₹400-2,500 per meal)",
     "Plant-based restaurants and vegetarian-friendly options");
    ("Budget-Friendly (₹300-1,500 per meal)",
     "Affordable restaurants, local eateries, good value meals");
    ("No Preference",
     "Let the AI recommend based on local specialties and budget") ].

Definition transport_options : list string :=
  [ "Public Transport (₹50-500 per day)";
    "Rental Car (₹2,000-6,000 per day)";
    "Walking/Cycling (₹200-800 per day for rentals)";
    "Ride-sharing/Taxi (₹500-2,000 per trip)";
    "Tour Groups (₹1,500-5,000 per day)";
    "No Preference" ].

Definition transport_descriptions : list (string * string) :=
  [ ("Public Transport (₹50-500 per day)",
     "Buses, trains, metro - economical and authentic local experience");
    ("Rental Car (₹2,000-6,000 per day)",
     "Freedom to explore at your own pace, access to remote locations");
    ("Walking/Cycling (₹200-800 per day for rentals)",
     "Eco-friendly, great for short distances and city exploration");
    ("Ride-sharing/Taxi (₹500-2,000 per trip)",
     "Convenient door-to-door service, good for specific destinations");
    ("Tour Groups (₹1,500-5,000 per day)",
     "Organized transportation with guided experiences");
    ("No Preference",
     "Mix of transportation methods based on convenience and cost") ].

(** [d[key]] on a dict written as its items in order; [None] stands for the
    KeyError. *)
Definition dict_get (d : list (string * string)) (key : string) : option string :=
  match find (fun item => String.eqb (fst item) key) d with
  | Some item => Some (snd item)
  | None => None
  end.

(** ** The trip history panel (lines 948-999) *)

(** One [st.expander] of the panel with what is written into it. *)
Record expander : Type := mkExpander {
  ex_title : string;
  ex_expanded : bool;
  ex_metrics : list (string * string);   (* the four st.metric *)
  ex_itinerary : string;                 (* first tab *)
  ex_research : string;                  (* second tab *)
  ex_preferences : list string           (* third tab, one st.write each *)
}.

(** The third tab (lines 980-999): the two columns one after the other,
    a "Selected" line only for a selection that is not empty. *)
Definition preference_lines (p : preferences) : list string :=
  ([("🏨 **Accommodation:** " ++ accommodation p)%string]
   ++ (if String.eqb (selected_accommodation p) "" then []
       else [("   ✅ **Selected:** " ++ selected_accommodation p)%string])
   ++ [("🍽️ **Dining:** " ++ dining p)%string]
   ++ match selected_dining p with
      | [] => []
      | selected => [("   ✅ **Selected:** " ++ join ", " selected)%string]
      end
   ++ [("🎯 **Activities:** " ++ activities p)%string]
   ++ match selected_activities p with
      | [] => []
      | selected => [("   ✅ **Selected:** " ++ join ", " selected)%string]
      end
   ++ [("🚗 **Transportation:** " ++ transportation p)%string]
   ++ (if String.eqb (selected_transport p) "" then []
       else [("   ✅ **Selected:** " ++ selected_transport p)%string])
   ++ (if String.eqb (special_requests p) "" then []
       else [("✨ **Special Requests:** " ++ special_requests p)%string]))%list.

Definition trip_expander (i : nat) (trip : trip_record) : expander :=
  {| ex_title := "🌍 " ++ tr_destination trip ++ " - " ++ str_of_int (tr_days trip)
                 ++ " days (" ++ tr_date trip ++ ")";
     ex_expanded := Nat.eqb i 0;
     ex_metrics := [ ("🎯 Destination", tr_destination trip);
                     ("📅 Duration", str_of_int (tr_days trip) ++ " days");
                     ("💰 Budget", "₹" ++ str_of_int (tr_budget trip) ++ " INR");
                     ("🗣️ Language", language_name (tr_language trip)) ];
     ex_itinerary := tr_itinerary trip;
     ex_research := tr_research trip;
     ex_preferences := preference_lines (tr_preferences trip) |}.

(** [enumerate(items)], counting from [i]. *)
Fixpoint enumerate {A : Type} (i : nat) (items : list A) : list (nat * A) :=
  match items with
  | [] => []
  | x :: rest => (i, x) :: enumerate (S i) rest
  end.

(** [for i, trip in enumerate(trip_history[::-1])]: the expanders of the
    panel, top to bottom.  With an empty history the panel, headings
    included, is not shown at all. *)
Definition history_panel (history : list trip_record) : list expander :=
  map (fun it => trip_expander (fst it) (snd it)) (enumerate 0 (rev history)).

(** ** The texts handed to the renderers (lines 653, 669, 699-728) *)

(** [chr(10)] *)
Definition LF : ascii := ascii_of_nat 10.

(** [text.replace(chr(10), '<br/>')]: the research and itinerary sections of
    the HTML document (lines 653 and 669). *)
Definition html_breaks (text : string) : string := replace LF "<br/>" text.

(** [text.replace('<', '&lt;').replace('>', '&gt;')] (lines 712, 720, 727) *)
Definition escape_markup (text : string) : string :=
  replace ">" "&gt;" (replace "<" "&lt;" text).

(** An item of the ReportLab story. *)
Inductive flowable : Type :=
| Paragraph (text : string) (style : string)
| Spacer (width height : Z).

Definition selections_text (p : preferences) : string :=
  "Accommodation: " ++ selected_accommodation p
  ++ " | Activities: " ++ take 100 (join ", " (selected_activities p))
  ++ " | Dining: " ++ take 100 (join ", " (selected_dining p))
  ++ " | Transportation: " ++ selected_transport p.

(** [story] as [doc.build] receives it (lines 696-728). *)
Definition reportlab_story (td : trip_data) (research : string) (p : preferences)
  (itinerary_text : string) : list flowable :=
  [ Paragraph ("Travel Itinerary: " ++ td_destination td) "Title";
    Spacer 1 12;
    Paragraph ("Duration: " ++ str_of_int (td_num_days td) ++ " days | Budget: ₹"
               ++ str_of_int (td_budget td) ++ " INR | Language: "
               ++ language_name (td_language td)) "Normal";
    Spacer 1 12;
    Paragraph "Research Results" "Heading2";
    Paragraph (escape_markup (take 1000 research)) "Normal";
    Spacer 1 12;
    Paragraph "Your Selections" "Heading2";
    Paragraph (escape_markup (selections_text p)) "Normal";
    Spacer 1 12;
    Paragraph "Detailed Itinerary" "Heading2";
    Paragraph (escape_markup (take 2000 itinerary_text)) "Normal" ].

(** The texts of the paragraphs of one style. *)
Definition paragraphs_of (style : string) (story : list flowable) : list string :=
  flat_map (fun f => match f with
                     | Paragraph text st => if String.eqb st style then [text] else []
                     | Spacer _ _ => []
                     end) story.

(** Neither angle bracket. *)
Definition no_angle (c : ascii) : bool :=
  andb (negb (Ascii.eqb c "<")) (negb (Ascii.eqb c ">")).

(** ** More vocabulary *)

Definition is_model_call (e : event) : bool :=
  match e with
  | ModelCall _ _ => true
  | _ => false
  end.

Definition is_agent_run (e : event) : bool :=
  match e with
  | AgentRun _ => true
  | _ => false
  end.

Definition is_download (e : event) : bool :=
  match e with
  | DownloadButton _ _ _ _ _ => true
  | _ => false
  end.

(** Every date of a trip of [n] days from [start] exists. *)
Definition dates_in_range (start n : Z) : bool :=
  forallb (fun i => andb (0 <? start + i) (start + i <=? MAXORDINAL)) (range n).

(** A setting in which the geocoding model knows the place: its answer
    comes with blanks and a line break around the two numbers. *)
Definition geocoding_env : environment :=
  {| github_token := Some "token";
     serp_api_key := Some "key";
     chat := fun _ => Returned " 64.1466, -21.9426
";
     researcher := fun _ => Returned "research notes";
     py_float := fun text =>
       if String.eqb text "64.1466" then Some 64.1466%float
       else if String.eqb text "-21.9426" then Some (-21.9426)%float
       else None;
     py_lower := ascii_lower;
     urandom := fun n => N.of_nat n;
     today := 739007;
     now_text := "2024-05-01 10:00";
     weasyprint_write_pdf := fun _ _ => Returned "%PDF-1.7";
     reportlab_build := fun _ _ => Failed "unused";
     ics_importable := false;
     pip_install_ics := Failed "pip";
     MAP_AVAILABLE := true;
     st_folium := fun _ => Failed "no display" |}.

(** The recommendation calls of the categories whose label is not the
    sentinel, in page order. *)
Definition recommendation_calls (td : trip_data) (research : string) (ui : widgets)
  : list event :=
  ((if String.eqb (accommodation_label (accommodation_pref ui)) "No Preference"
    then []
    else [ModelCall RecommendationLLM
            (accommodation_search_prompt td research (accommodation_pref ui))])
   ++ (if String.eqb (activity_label (activity_pref ui)) "Mix of Everything"
       then []
       else [ModelCall RecommendationLLM
               (activity_search_prompt td research (activity_pref ui))])
   ++ (if String.eqb (dining_label (dining_pref ui)) "No Preference"
       then []
       else [ModelCall RecommendationLLM
               (dining_search_prompt td research (dining_pref ui))])
   ++ (if String.eqb (transport_label (transport_pref ui)) "No Preference"
       then []
       else [ModelCall RecommendationLLM
               (transport_search_prompt td research (transport_pref ui))]))%list.

(** The history entry the synthesis writes (lines 569-590). *)
Definition history_entry (env : environment) (td : trip_data) (research : string)
  (p : preferences) (itinerary_text : string) (random : N) : trip_record :=
  {| tr_id := short_id random;
     tr_destination := td_destination td;
     tr_days := td_num_days td;
     tr_budget := td_budget td;
     tr_language := td_language td;
     tr_itinerary := itinerary_text;
     tr_research := research;
     tr_preferences := p;
     tr_date := now_text env |}.

(** The session state a successful research run leaves (lines 159-166). *)
Definition researched (s : session_state) (ui : widgets) (found : string)
  : session_state :=
  {| trip_history := trip_history s;
     research_results := Some found;
     current_trip_data :=
       Some {| td_destination := destination ui; td_num_days := num_days ui;
               td_budget := budget ui; td_language := chosen_language ui |};
     show_preferences := true |}.

(** The three flags of the session state go together. *)
Definition session_wf (s : session_state) : Prop :=
  (show_preferences s = true <-> research_results s <> None) /\
  (research_results s <> None <-> current_trip_data s <> None).

Definition stays_wf (w w' : world) : Prop :=
  session_wf (session w) -> session_wf (session w').

(** Every character of the text passes the test. *)
Fixpoint all_chars (test : ascii -> bool) (s : string) : bool :=
  match s with
  | EmptyString => true
  | String c s' => andb (test c) (all_chars test s')
  end.

(** A lower-case hexadecimal digit. *)
Definition is_hex (c : ascii) : bool :=
  match String.index 0 (String c EmptyString) "0123456789abcdef" with
  | Some _ => true
  | None => false
  end.

(** A byte that starts a character. *)
Definition starts_char (c : ascii) : bool := negb (is_continuation c).

(** The text is empty or begins at a character. *)
Definition at_char (s : string) : bool :=
  match s with
  | EmptyString => true
  | String c _ => starts_char c
  end.

Definition not_space (c : ascii) : bool := negb (Ascii.eqb c " ").

Definition not_comma (c : ascii) : bool := negb (Ascii.eqb c ",").

(** A history entry for the examples. *)
Definition demo_entry : trip_record :=
  history_entry demo_env paris_trip "research notes" demo_preferences
    "Day 1: Louvre" 7.


(* ================================================================== *)
(** * Facts about the string operations *)
(* ================================================================== *)

Lemma prefix_app_iff (a s : string) :
  String.prefix a s = true <-> exists b, s = a ++ b.
Proof.
  revert s; induction a as [|c a IH]; intros [|d s]; simpl.
  - split; [intros _; exists EmptyString; reflexivity | reflexivity].
  - split; [intros _; exists (String d s); reflexivity | reflexivity].
  - split; [discriminate | intros [b Hb]; discriminate].
  - destruct (ascii_dec c d) as [->|Hcd].
    + rewrite IH. split; intros [b Hb]; exists b.
      * now rewrite Hb.
      * now injection Hb.
    + split; [discriminate | intros [b Hb]; injection Hb; intros _ E; congruence].
Qed.

Lemma contains_unfold (key s : string) :
  contains key s =
  orb (String.prefix key s)
      match s with
      | EmptyString => false
      | String _ s' => contains key s'
      end.
Proof. destruct s; reflexivity. Qed.

Lemma contains_spec (key s : string) :
  contains key s = true <-> substring_of key s.
Proof.
  unfold substring_of. induction s as [|c s IH]; rewrite contains_unfold.
  - rewrite orb_false_r, prefix_app_iff. split.
    + intros [b Hb]. exists EmptyString, b. exact Hb.
    + intros (before & after & H). destruct before; [|discriminate].
      exists after. exact H.
  - rewrite orb_true_iff, prefix_app_iff, IH. split.
    + intros [[b Hb] | (before & after & H)].
      * exists EmptyString, b. exact Hb.
      * exists (String c before), after. simpl. now rewrite H.
    + intros (before & after & H). destruct before as [|d before].
      * left. exists after. exact H.
      * right. exists before, after. simpl in H. now injection H.
Qed.

Lemma contains_false_iff (key s : string) :
  contains key s = false <-> ~ substring_of key s.
Proof.
  rewrite <- contains_spec. destruct (contains key s); split; congruence.
Qed.

(** The loop returns the pair of the first key, in table order, that occurs
    in the text, and nothing when none does. *)
Lemma scan_table_first (items : list (string * coords)) (s : string) :
  match scan_table items s with
  | Some c =>
      exists pre key post,
        items = (pre ++ (key, c) :: post)%list /\
        substring_of key s /\
        (forall k' c', In (k', c') pre -> ~ substring_of k' s)
  | None => forall k c, In (k, c) items -> ~ substring_of k s
  end.
Proof.
  induction items as [|[key c] rest IH]; simpl.
  - intros k c [].
  - destruct (contains key s) eqn:Hk.
    + exists [], key, rest. repeat split.
      * now apply contains_spec.
      * intros k' c' [].
    + apply contains_false_iff in Hk.
      destruct (scan_table rest s) as [c1|].
      * destruct IH as (pre & key1 & post & -> & Hin & Hpre).
        exists ((key, c) :: pre), key1, post. repeat split; trivial.
        intros k' c' [E | Hin']; [injection E; intros; subst; exact Hk | eauto].
      * intros k c0 [E | Hin]; [injection E; intros; subst; exact Hk | eauto].
Qed.

Lemma split_single_comma (s a b : string) :
  split "," s = [a; b] -> contains "," s = true.
Proof.
  revert a b; induction s as [|c s IH]; intros a b; simpl split; [discriminate|].
  destruct (Ascii.eqb c ",") eqn:Hc.
  - apply Ascii.eqb_eq in Hc. subst c. intros _.
    apply contains_spec. exists EmptyString, s. reflexivity.
  - intros H.
    destruct (split "," s) as [|p [|q [|r l]]] eqn:Hs; try discriminate.
    injection H; intros; subst.
    rewrite contains_unfold, (IH p b eq_refl).
    apply orb_true_r.
Qed.

(** The rupee sign is one character of three bytes. *)
Example take_counts_characters :
  take 2 "₹500" = "₹5" /\ char_count "₹500" = 4%nat /\ String.length "₹500" = 6%nat.
Proof. repeat split; vm_compute; reflexivity. Qed.

(* ================================================================== *)
(** * Coordinate lookup *)
(* ================================================================== *)

Example get_coordinates_goa (env : environment) (w : world) :
  py_lower env "Visiting GOA next month" = "visiting goa next month" ->
  get_coordinates env "Visiting GOA next month" w
  = (Ok (15.2993, 74.1240)%float, w).
Proof. intros H. unfold get_coordinates. rewrite H. vm_compute. reflexivity. Qed.

(** The first letter is the Kelvin sign U+212A, which [lower()] turns into
    [k]: the table is hit. *)
Example get_coordinates_kelvin_sign (env : environment) (w : world) :
  py_lower env "KERALA" = "kerala" ->
  get_coordinates env "KERALA" w = (Ok (10.8505, 76.2711)%float, w).
Proof. intros H. unfold get_coordinates. rewrite H. vm_compute. reflexivity. Qed.

(** C4: when the lower-case form of the destination, as [str.lower()] gives
    it, contains a key of the table, the lookup returns the pair stored for
    the first such key in table order and leaves the world as it was: no
    model call is made. *)
Theorem get_coordinates_table_hit
  (env : environment) (destination_name : string) (w : world) :
  (exists key c, In (key, c) location_coords /\
                 substring_of key (py_lower env destination_name)) ->
  exists pre key c post,
    location_coords = (pre ++ (key, c) :: post)%list /\
    substring_of key (py_lower env destination_name) /\
    (forall k' c', In (k', c') pre -> ~ substring_of k' (py_lower env destination_name)) /\
    get_coordinates env destination_name w = (Ok c, w).
Proof.
  intros (key0 & c0 & Hin & Hsub).
  unfold get_coordinates.
  pose proof (scan_table_first location_coords (py_lower env destination_name)) as Hscan.
  destruct (scan_table location_coords (py_lower env destination_name)) as [c|].
  - destruct Hscan as (pre & key & post & Heq & Hkey & Hpre).
    exists pre, key, c, post. repeat split; assumption.
  - exfalso. exact (Hscan key0 c0 Hin Hsub).
Qed.

Lemma get_coordinates_table_hit_witness :
  exists pre key c post,
    location_coords = (pre ++ (key, c) :: post)%list /\
    substring_of key (py_lower demo_env "Visiting GOA next month") /\
    (forall k' c', In (k', c') pre ->
                   ~ substring_of k' (py_lower demo_env "Visiting GOA next month")) /\
    get_coordinates demo_env "Visiting GOA next month" panel_world
    = (Ok c, panel_world).
Proof.
  apply (get_coordinates_table_hit demo_env "Visiting GOA next month" panel_world).
  exists "goa", (15.2993, 74.1240)%float. split.
  - do 9 right. left. reflexivity.
  - exists "visiting ", " next month". vm_compute. reflexivity.
Defined.

(** The fallback is made of one traced model call. *)
Lemma geocode_fallback_outcome (env : environment) (destination_name : string)
  (w : world) :
  let w1 := log (ModelCall GeocodeLLM (geocode_prompt destination_name)) w in
  try_bare (geocode_fallback env destination_name) (ret None) w
  = match chat env (geocode_prompt destination_name) with
    | Returned content =>
        match split "," (strip content) with
        | [lat_str; lon_str] =>
            match py_float env (strip lat_str), py_float env (strip lon_str) with
            | Some lat, Some lon => (Ok (Some (lat, lon)), w1)
            | _, _ => (Ok None, w1)
            end
        | _ => (Ok None, w1)
        end
    | Failed _ => (Ok None, w1)
    end.
Proof.
  unfold try_bare, geocode_fallback, invoke, bind, emit, call, float_of, ret, raise.
  destruct (chat env (geocode_prompt destination_name)) as [content|msg];
    [|reflexivity].
  destruct (split "," (strip content)) as [|a [|b [|c l]]] eqn:Hsplit.
  - destruct (contains "," (strip content)); reflexivity.
  - destruct (contains "," (strip content)); reflexivity.
  - rewrite (split_single_comma _ _ _ Hsplit).
    destruct (py_float env (strip a)); [|reflexivity].
    destruct (py_float env (strip b)); reflexivity.
  - destruct (contains "," (strip content)); reflexivity.
Qed.

(** C5: when no key of the table occurs in the lower-case form of the
    destination, as [str.lower()] gives it, and
    the model call fails or answers with a text that is not two
    float-parsable parts around a single comma, the lookup returns
    (20.5937, 78.9629), the one attempted model call being all it did; and
    whatever the destination and the outside do, the lookup returns a pair:
    it never raises. *)
Theorem get_coordinates_default
  (env : environment) (destination_name : string) (w : world)
  (Hno_key : forall key c, In (key, c) location_coords ->
                           ~ substring_of key (py_lower env destination_name))
  (Hbad : match chat env (geocode_prompt destination_name) with
          | Returned content => parses_lat_lon env content = false
          | Failed _ => True
          end) :
  get_coordinates env destination_name w
  = (Ok default_coords, log (ModelCall GeocodeLLM (geocode_prompt destination_name)) w)
  /\ (forall name w0, exists c w1, get_coordinates env name w0 = (Ok c, w1)).
Proof.
  split.
  - unfold get_coordinates.
    pose proof (scan_table_first location_coords (py_lower env destination_name)) as Hscan.
    destruct (scan_table location_coords (py_lower env destination_name)) as [c|].
    + destruct Hscan as (pre & key & post & Heq & Hkey & _).
      exfalso. apply (Hno_key key c); [|exact Hkey].
      rewrite Heq. apply in_or_app. right. left. reflexivity.
    + unfold bind at 1. rewrite geocode_fallback_outcome.
      unfold parses_lat_lon in Hbad.
      destruct (chat env (geocode_prompt destination_name)) as [content|msg];
        [|reflexivity].
      destruct (split "," (strip content)) as [|a [|b [|c l]]]; try reflexivity.
      destruct (py_float env (strip a)); [|reflexivity].
      destruct (py_float env (strip b)); [discriminate|reflexivity].
  - intros name w0. unfold get_coordinates.
    destruct (scan_table location_coords (py_lower env name)) as [c|].
    + exists c, w0. reflexivity.
    + unfold bind at 1. rewrite geocode_fallback_outcome.
      destruct (chat env (geocode_prompt name)) as [content|msg];
        [|eexists; eexists; reflexivity].
      destruct (split "," (strip content)) as [|a [|b [|c l]]];
        try (eexists; eexists; reflexivity).
      destruct (py_float env (strip a));
        [destruct (py_float env (strip b))|]; eexists; eexists; reflexivity.
Qed.

Lemma get_coordinates_default_witness :
  get_coordinates demo_env "Atlantis" panel_world
  = (Ok default_coords, log (ModelCall GeocodeLLM (geocode_prompt "Atlantis")) panel_world)
  /\ (forall name w0, exists c w1, get_coordinates demo_env name w0 = (Ok c, w1)).
Proof.
  apply (get_coordinates_default demo_env "Atlantis" panel_world).
  - intros key c Hin. apply contains_false_iff.
    simpl in Hin.
    repeat (destruct Hin as [E | Hin];
            [injection E; intros; subst; vm_compute; reflexivity|]).
    contradiction.
  - vm_compute. reflexivity.
Defined.

(* ================================================================== *)
(** * Preference refinement *)
(* ================================================================== *)

Lemma accommodation_sentinel (o : accommodation_option) :
  accommodation_label o = "No Preference" <-> o = AccommodationNoPreference.
Proof. destruct o; split; intros H; try reflexivity; discriminate. Qed.

Lemma activity_sentinel (o : activity_option) :
  activity_label o = "Mix of Everything" <-> o = MixOfEverything.
Proof. destruct o; split; intros H; try reflexivity; discriminate. Qed.

Lemma dining_sentinel (o : dining_option) :
  dining_label o = "No Preference" <-> o = DiningNoPreference.
Proof. destruct o; split; intros H; try reflexivity; discriminate. Qed.

Lemma transport_sentinel (o : transport_option) :
  transport_label o = "No Preference" <-> o = TransportNoPreference.
Proof. destruct o; split; intros H; try reflexivity; discriminate. Qed.

Lemma accommodation_block_call env td research pref pick w :
  accommodation_label pref <> "No Preference" ->
  accommodation_block env td research pref pick w
  = let w1 := log (ModelCall RecommendationLLM
                     (accommodation_search_prompt td research pref))
                  (snd (bind_llm w)) in
    match chat env (accommodation_search_prompt td research pref) with
    | Returned _ => (Ok (accommodation_pick_label pick), w1)
    | Failed msg => (Raise (UpstreamError msg), w1)
    end.
Proof.
  intros H. apply String.eqb_neq in H.
  unfold accommodation_block. rewrite H.
  unfold bind, invoke, emit, call, bind_llm, ret. simpl.
  destruct (chat env (accommodation_search_prompt td research pref)); reflexivity.
Qed.

Lemma activity_block_call env td research pref chosen w :
  activity_label pref <> "Mix of Everything" ->
  activity_block env td research pref chosen w
  = if llm_bound w then
      let w1 := log (ModelCall RecommendationLLM
                       (activity_search_prompt td research pref)) w in
      match chat env (activity_search_prompt td research pref) with
      | Returned _ => (Ok (chosen_or_first chosen), w1)
      | Failed msg => (Raise (UpstreamError msg), w1)
      end
    else (Raise (NameError "llm"), w).
Proof.
  intros H. apply String.eqb_neq in H.
  unfold activity_block. rewrite H.
  unfold bind, invoke, emit, call, lookup_llm, ret, chosen_or_first. simpl.
  destruct (llm_bound w); [|reflexivity].
  destruct (chat env (activity_search_prompt td research pref)); [|reflexivity].
  destruct (multiselect chosen); reflexivity.
Qed.

Lemma dining_block_call env td research pref chosen w :
  dining_label pref <> "No Preference" ->
  dining_block env td research pref chosen w
  = if llm_bound w then
      let w1 := log (ModelCall RecommendationLLM
                       (dining_search_prompt td research pref)) w in
      match chat env (dining_search_prompt td research pref) with
      | Returned _ => (Ok (chosen_or_first chosen), w1)
      | Failed msg => (Raise (UpstreamError msg), w1)
      end
    else (Raise (NameError "llm"), w).
Proof.
  intros H. apply String.eqb_neq in H.
  unfold dining_block. rewrite H.
  unfold bind, invoke, emit, call, lookup_llm, ret, chosen_or_first. simpl.
  destruct (llm_bound w); [|reflexivity].
  destruct (chat env (dining_search_prompt td research pref)); [|reflexivity].
  destruct (multiselect chosen); reflexivity.
Qed.

Lemma transport_block_call env td research pref pick w :
  transport_label pref <> "No Preference" ->
  transport_block env td research pref pick w
  = if llm_bound w then
      let w1 := log (ModelCall RecommendationLLM
                       (transport_search_prompt td research pref)) w in
      match chat env (transport_search_prompt td research pref) with
      | Returned _ => (Ok (transport_pick_label pick), w1)
      | Failed msg => (Raise (UpstreamError msg), w1)
      end
    else (Raise (NameError "llm"), w).
Proof.
  intros H. apply String.eqb_neq in H.
  unfold transport_block. rewrite H.
  unfold bind, invoke, emit, call, lookup_llm, ret. simpl.
  destruct (llm_bound w); [|reflexivity].
  destruct (chat env (transport_search_prompt td research pref)); reflexivity.
Qed.

Lemma accommodation_block_skip env td research pref pick w :
  accommodation_label pref = "No Preference" ->
  accommodation_block env td research pref pick w = (Ok "No Preference", w).
Proof. intros H. unfold accommodation_block. rewrite H. reflexivity. Qed.

Lemma activity_block_skip env td research pref chosen w :
  activity_label pref = "Mix of Everything" ->
  activity_block env td research pref chosen w = (Ok ["Mix of Everything"], w).
Proof. intros H. unfold activity_block. rewrite H. reflexivity. Qed.

Lemma dining_block_skip env td research pref chosen w :
  dining_label pref = "No Preference" ->
  dining_block env td research pref chosen w = (Ok ["No Preference"], w).
Proof. intros H. unfold dining_block. rewrite H. reflexivity. Qed.

Lemma transport_block_skip env td research pref pick w :
  transport_label pref = "No Preference" ->
  transport_block env td research pref pick w = (Ok "No Preference", w).
Proof. intros H. unfold transport_block. rewrite H. reflexivity. Qed.

(** The stage returns the four block results, in order, next to the labels. *)
Lemma preference_stage_inv env td research ui w p w' :
  preference_stage env td research ui w = (Ok p, w') ->
  exists w1 w2 w3,
    accommodation_block env td research (accommodation_pref ui)
      (accommodation_selection ui) w = (Ok (selected_accommodation p), w1) /\
    activity_block env td research (activity_pref ui) (activity_selection ui) w1
    = (Ok (selected_activities p), w2) /\
    dining_block env td research (dining_pref ui) (dining_selection ui) w2
    = (Ok (selected_dining p), w3) /\
    transport_block env td research (transport_pref ui) (transport_selection ui) w3
    = (Ok (selected_transport p), w') /\
    accommodation p = accommodation_label (accommodation_pref ui) /\
    activities p = activity_label (activity_pref ui) /\
    dining p = dining_label (dining_pref ui) /\
    transportation p = transport_label (transport_pref ui) /\
    special_requests p = special_requests_text ui.
Proof.
  unfold preference_stage, bind, ret.
  destruct (accommodation_block _ _ _ _ _ w) as [[a|e] w1] eqn:Ha; [|discriminate].
  destruct (activity_block _ _ _ _ _ w1) as [[b|e] w2] eqn:Hb; [|discriminate].
  destruct (dining_block _ _ _ _ _ w2) as [[c|e] w3] eqn:Hc; [|discriminate].
  destruct (transport_block _ _ _ _ _ w3) as [[d|e] w4] eqn:Hd; [|discriminate].
  intros H. injection H; intros; subst.
  exists w1, w2, w3. simpl. repeat split; assumption || reflexivity.
Qed.

(** C2: in each of the four categories, choosing the sentinel label makes
    the block return at once: the world is as before, so no model call was
    made, and the selection is the sentinel label (for the two multi-choice
    categories, the list holding that label alone).  The preferences the
    stage hands to the synthesis, which become the history entry, hold the
    sentinel as preference and as selection. *)
Theorem sentinel_skips_recommendation
  (env : environment) (td : trip_data) (research : string) (w : world) :
  (forall pref pick,
      accommodation_label pref = "No Preference" ->
      accommodation_block env td research pref pick w
      = (Ok (accommodation_label pref), w)) /\
  (forall pref chosen,
      activity_label pref = "Mix of Everything" ->
      activity_block env td research pref chosen w
      = (Ok [activity_label pref], w)) /\
  (forall pref chosen,
      dining_label pref = "No Preference" ->
      dining_block env td research pref chosen w
      = (Ok [dining_label pref], w)) /\
  (forall pref pick,
      transport_label pref = "No Preference" ->
      transport_block env td research pref pick w
      = (Ok (transport_label pref), w)) /\
  (forall ui p w',
      preference_stage env td research ui w = (Ok p, w') ->
      (accommodation_label (accommodation_pref ui) = "No Preference" ->
       accommodation p = "No Preference" /\
       selected_accommodation p = "No Preference") /\
      (activity_label (activity_pref ui) = "Mix of Everything" ->
       activities p = "Mix of Everything" /\
       selected_activities p = ["Mix of Everything"]) /\
      (dining_label (dining_pref ui) = "No Preference" ->
       dining p = "No Preference" /\ selected_dining p = ["No Preference"]) /\
      (transport_label (transport_pref ui) = "No Preference" ->
       transportation p = "No Preference" /\
       selected_transport p = "No Preference")).
Proof.
  split; [|split; [|split; [|split]]].
  - intros pref pick H. rewrite H. now apply accommodation_block_skip.
  - intros pref chosen H. rewrite H. now apply activity_block_skip.
  - intros pref chosen H. rewrite H. now apply dining_block_skip.
  - intros pref pick H. rewrite H. now apply transport_block_skip.
  - intros ui p w' Hstage.
    destruct (preference_stage_inv _ _ _ _ _ _ _ Hstage)
      as (w1 & w2 & w3 & Ha & Hb & Hc & Hd & La & Lb & Lc & Ld & _).
    repeat split.
    + congruence.
    + rewrite accommodation_block_skip in Ha by assumption. congruence.
    + congruence.
    + rewrite activity_block_skip in Hb by assumption. congruence.
    + congruence.
    + rewrite dining_block_skip in Hc by assumption. congruence.
    + congruence.
    + rewrite transport_block_skip in Hd by assumption. congruence.
Qed.

Lemma sentinel_skips_recommendation_witness :
  accommodation_block demo_env paris_trip "research notes"
    AccommodationNoPreference LetAIDecide panel_world
  = (Ok "No Preference", panel_world) /\
  activity_block demo_env paris_trip "research notes" MixOfEverything
    [Option2] panel_world
  = (Ok ["Mix of Everything"], panel_world) /\
  dining_block demo_env paris_trip "research notes" DiningNoPreference
    [Option1; Option3] panel_world
  = (Ok ["No Preference"], panel_world) /\
  transport_block demo_env paris_trip "research notes" TransportNoPreference
    CombinationOfOptions panel_world
  = (Ok "No Preference", panel_world).
Proof.
  destruct (sentinel_skips_recommendation demo_env paris_trip "research notes"
              panel_world) as (Ha & Hb & Hc & Hd & _).
  split; [|split; [|split]].
  - apply (Ha AccommodationNoPreference LetAIDecide). reflexivity.
  - apply (Hb MixOfEverything [Option2]). reflexivity.
  - apply (Hc DiningNoPreference [Option1; Option3]). reflexivity.
  - apply (Hd TransportNoPreference CombinationOfOptions). reflexivity.
Defined.

Lemma chosen_or_first_not_empty (chosen : list option_no) :
  chosen_or_first chosen <> [].
Proof. unfold chosen_or_first. destruct chosen; discriminate. Qed.

Lemma chosen_or_first_generated (chosen : list option_no) :
  incl (chosen_or_first chosen) generated_options.
Proof.
  unfold chosen_or_first, multiselect, generated_options.
  destruct chosen as [|o chosen].
  - intros x [<-|[]]. left. reflexivity.
  - change (map option_label (o :: chosen))
      with (option_label o :: map option_label chosen).
    intros x Hx.
    assert (Hin : In x (map option_label (o :: chosen))) by exact Hx.
    apply in_map_iff in Hin. destruct Hin as (o' & <- & _).
    destruct o'; simpl; auto.
Qed.

(** C3: in the two multi-choice categories, when the recommendation call
    was made (the label is not the sentinel and the block returned) and
    nothing is chosen in the multi-select, the selection is the list
    ["Option 1"] and the call is the one event the block added; and whatever
    the label and the choice, a selection these blocks return is not empty. *)
Theorem empty_multiselect_defaults
  (env : environment) (td : trip_data) (research : string) (w : world) :
  (forall pref selected w',
      activity_label pref <> "Mix of Everything" ->
      activity_block env td research pref [] w = (Ok selected, w') ->
      selected = ["Option 1"] /\
      w' = log (ModelCall RecommendationLLM
                  (activity_search_prompt td research pref)) w) /\
  (forall pref selected w',
      dining_label pref <> "No Preference" ->
      dining_block env td research pref [] w = (Ok selected, w') ->
      selected = ["Option 1"] /\
      w' = log (ModelCall RecommendationLLM
                  (dining_search_prompt td research pref)) w) /\
  (forall pref chosen selected w',
      activity_block env td research pref chosen w = (Ok selected, w') ->
      selected <> []) /\
  (forall pref chosen selected w',
      dining_block env td research pref chosen w = (Ok selected, w') ->
      selected <> []).
Proof.
  split; [|split; [|split]].
  - intros pref selected w' Hpref. rewrite activity_block_call by assumption.
    destruct (llm_bound w); [|discriminate].
    destruct (chat env _); [|discriminate].
    intros H. injection H; intros; subst. split; reflexivity.
  - intros pref selected w' Hpref. rewrite dining_block_call by assumption.
    destruct (llm_bound w); [|discriminate].
    destruct (chat env _); [|discriminate].
    intros H. injection H; intros; subst. split; reflexivity.
  - intros pref chosen selected w'.
    destruct (String.eqb_spec (activity_label pref) "Mix of Everything") as [E|E].
    + rewrite activity_block_skip by assumption.
      intros H. injection H; intros; subst. discriminate.
    + rewrite activity_block_call by assumption.
      destruct (llm_bound w); [|discriminate].
      destruct (chat env _); [|discriminate].
      intros H. injection H; intros; subst. apply chosen_or_first_not_empty.
  - intros pref chosen selected w'.
    destruct (String.eqb_spec (dining_label pref) "No Preference") as [E|E].
    + rewrite dining_block_skip by assumption.
      intros H. injection H; intros; subst. discriminate.
    + rewrite dining_block_call by assumption.
      destruct (llm_bound w); [|discriminate].
      destruct (chat env _); [|discriminate].
      intros H. injection H; intros; subst. apply chosen_or_first_not_empty.
Qed.

Lemma empty_multiselect_defaults_witness :
  exists selected w',
    activity_block demo_env paris_trip "research notes" AdventureSports []
      bound_world = (Ok selected, w') /\
    selected = ["Option 1"] /\
    w' = log (ModelCall RecommendationLLM
                (activity_search_prompt paris_trip "research notes" AdventureSports))
             bound_world.
Proof.
  eexists. eexists. split.
  - vm_compute. reflexivity.
  - apply (proj1 (empty_multiselect_defaults demo_env paris_trip "research notes"
                    bound_world) AdventureSports).
    + vm_compute. discriminate.
    + vm_compute. reflexivity.
Defined.

(** With the accommodation call made and the fourth entry of the selectbox
    chosen, the selection is none of the three generated options. *)
Lemma accommodation_fourth_entry :
  accommodation_block demo_env paris_trip "research notes" MidRangeHotels
    LetAIDecide panel_world
  = (Ok "Let AI decide based on budget",
     log (ModelCall RecommendationLLM
            (accommodation_search_prompt paris_trip "research notes" MidRangeHotels))
         bound_world)
  /\ ~ In "Let AI decide based on budget" generated_options.
Proof.
  split.
  - vm_compute. reflexivity.
  - intros [H|[H|[H|[]]]]; discriminate.
Qed.

(** C9, amended: when a category's recommendation call was made, a
    single-choice selection is one of the four entries of its selectbox (the
    three generated options and "Let AI decide based on budget" for
    accommodation, "Combination of options" for transportation), and a
    multi-choice selection is a non-empty list of generated options. *)
Theorem selection_among_offered
  (env : environment) (td : trip_data) (research : string) (w : world) :
  (forall pref pick selected w',
      accommodation_label pref <> "No Preference" ->
      accommodation_block env td research pref pick w = (Ok selected, w') ->
      In selected (generated_options ++ ["Let AI decide based on budget"])%list) /\
  (forall pref pick selected w',
      transport_label pref <> "No Preference" ->
      transport_block env td research pref pick w = (Ok selected, w') ->
      In selected (generated_options ++ ["Combination of options"])%list) /\
  (forall pref chosen selected w',
      activity_label pref <> "Mix of Everything" ->
      activity_block env td research pref chosen w = (Ok selected, w') ->
      selected <> [] /\ incl selected generated_options) /\
  (forall pref chosen selected w',
      dining_label pref <> "No Preference" ->
      dining_block env td research pref chosen w = (Ok selected, w') ->
      selected <> [] /\ incl selected generated_options).
Proof.
  split; [|split; [|split]].
  - intros pref pick selected w' Hpref.
    rewrite accommodation_block_call by assumption. cbv zeta.
    destruct (chat env _); [|discriminate].
    intros H. injection H; intros; subst.
    destruct pick as [[]|]; simpl; auto.
  - intros pref pick selected w' Hpref.
    rewrite transport_block_call by assumption.
    destruct (llm_bound w); [|discriminate]. cbv zeta.
    destruct (chat env _); [|discriminate].
    intros H. injection H; intros; subst.
    destruct pick as [[]|]; simpl; auto.
  - intros pref chosen selected w' Hpref.
    rewrite activity_block_call by assumption.
    destruct (llm_bound w); [|discriminate]. cbv zeta.
    destruct (chat env _); [|discriminate].
    intros H. injection H; intros; subst. split.
    + apply chosen_or_first_not_empty.
    + apply chosen_or_first_generated.
  - intros pref chosen selected w' Hpref.
    rewrite dining_block_call by assumption.
    destruct (llm_bound w); [|discriminate]. cbv zeta.
    destruct (chat env _); [|discriminate].
    intros H. injection H; intros; subst. split.
    + apply chosen_or_first_not_empty.
    + apply chosen_or_first_generated.
Qed.

Lemma selection_among_offered_witness :
  exists selected w',
    accommodation_block demo_env paris_trip "research notes" MidRangeHotels
      LetAIDecide bound_world = (Ok selected, w') /\
    In selected (generated_options ++ ["Let AI decide based on budget"])%list.
Proof.
  exists "Let AI decide based on budget",
         (log (ModelCall RecommendationLLM
                 (accommodation_search_prompt paris_trip "research notes"
                    MidRangeHotels)) bound_world).
  assert (Hrun : accommodation_block demo_env paris_trip "research notes"
                   MidRangeHotels LetAIDecide bound_world
                 = (Ok "Let AI decide based on budget",
                    log (ModelCall RecommendationLLM
                           (accommodation_search_prompt paris_trip "research notes"
                              MidRangeHotels)) bound_world))
    by (vm_compute; reflexivity).
  split; [exact Hrun|].
  eapply (proj1 (selection_among_offered demo_env paris_trip "research notes"
                   bound_world) MidRangeHotels LetAIDecide).
  - vm_compute. discriminate.
  - exact Hrun.
Defined.

(** ** The name [llm] *)

(** The research stage never hands over to the panel with [llm] bound: it
    either shows an error before binding the name, or ends the run. *)
Lemma page_head_leaves_llm_unbound env ui w w1 :
  page_head env ui (start_run w) = (Ok tt, w1) ->
  llm_bound w1 = false /\ session w1 = session w.
Proof.
  unfold page_head, research_stage, bind, emit, ret, raise, bind_llm, call,
    get_session, put_session.
  destruct (orb _ _); simpl;
    destruct (generate_clicked ui); simpl;
    try (intros H; injection H; intros; subst; split; reflexivity);
    destruct (negb _); simpl;
    try (intros H; injection H; intros; subst; split; reflexivity);
    destruct (String.eqb _ _); simpl;
    try (intros H; injection H; intros; subst; split; reflexivity);
    destruct (researcher env _); simpl; discriminate.
Qed.

(** With [llm] unbound and no accommodation call to bind it, the first
    other category that wants a recommendation stops the run. *)
Lemma stage_without_accommodation_call env td research ui w :
  llm_bound w = false ->
  accommodation_label (accommodation_pref ui) = "No Preference" ->
  activity_label (activity_pref ui) <> "Mix of Everything" ->
  preference_stage env td research ui w = (Raise (NameError "llm"), w).
Proof.
  intros Hw Hacc Hact. unfold preference_stage, bind.
  rewrite accommodation_block_skip by assumption.
  rewrite activity_block_call by assumption.
  rewrite Hw. reflexivity.
Qed.

(** C1, on the code: two runs with the same trip, the same research text
    and the same activity label and choice.  With a hotel style chosen the
    activity call is made and ["Option 1"] is recorded; with "No
    Preference" chosen for accommodation the name [llm] is unbound when the
    activity block reaches it, the run stops with a NameError, no call is
    made and nothing is recorded. *)
Theorem activity_call_depends_on_accommodation :
  let hotel := demo_widgets in
  let none := with_accommodation AccommodationNoPreference demo_widgets in
  activity_pref hotel = activity_pref none /\
  activity_selection hotel = activity_selection none /\
  (exists p w1,
      preference_stage demo_env paris_trip "research notes" hotel panel_world
      = (Ok p, w1) /\
      selected_activities p = ["Option 1"] /\
      In (ModelCall RecommendationLLM
            (activity_search_prompt paris_trip "research notes" AdventureSports))
         (trace w1)) /\
  preference_stage demo_env paris_trip "research notes" none panel_world
  = (Raise (NameError "llm"), panel_world) /\
  (exists r, trip_history (session (snd (run demo_env hotel panel_world))) = [r] /\
             selected_activities (tr_preferences r) = ["Option 1"]) /\
  fst (run demo_env none panel_world) = Raise (NameError "llm") /\
  trip_history (session (snd (run demo_env none panel_world))) = [] /\
  trace (snd (run demo_env none panel_world)) = [].
Proof.
  cbv zeta. split; [reflexivity|]. split; [reflexivity|]. split.
  - eexists. eexists. split; [vm_compute; reflexivity|]. split; [reflexivity|].
    right. left. vm_compute. reflexivity.
  - split; [vm_compute; reflexivity|]. split.
    + eexists. split; vm_compute; reflexivity.
    + split; [|split]; vm_compute; reflexivity.
Qed.

(* ================================================================== *)
(** * What a computation keeps *)
(* ================================================================== *)

Section Keeps.

Variable R : world -> world -> Prop.
Hypothesis R_refl : forall w, R w w.
Hypothesis R_trans : forall a b c, R a b -> R b c -> R a c.

Lemma keeps_ret {A} (a : A) : keeps R (ret a).
Proof. intros w r w' H. injection H; intros; subst. apply R_refl. Qed.

Lemma keeps_raise {A} (e : exn) : keeps R (@raise A e).
Proof. intros w r w' H. injection H; intros; subst. apply R_refl. Qed.

Lemma keeps_lift {A} (x : result A) : keeps R (lift x).
Proof. intros w r w' H. injection H; intros; subst. apply R_refl. Qed.

Lemma keeps_call {A} (o : outcome A) : keeps R (call o).
Proof.
  intros w r w'. unfold call.
  destruct o; intros H; injection H; intros; subst; apply R_refl.
Qed.

Lemma keeps_bind {A B} (m : M A) (k : A -> M B) :
  keeps R m -> (forall a, keeps R (k a)) -> keeps R (bind m k).
Proof.
  intros Hm Hk w r w'. unfold bind.
  destruct (m w) as [[a|e] w1] eqn:E.
  - intros H. eapply R_trans; [eapply Hm, E | eapply Hk, H].
  - intros H. injection H; intros; subst. eapply Hm, E.
Qed.

Lemma keeps_try_except {A} (body : M A) (handler : exn -> M A) :
  keeps R body -> (forall e, keeps R (handler e)) ->
  keeps R (try_except body handler).
Proof.
  intros Hb Hh w r w'. unfold try_except.
  destruct (body w) as [[a|e] w1] eqn:E.
  - intros H. injection H; intros; subst. eapply Hb, E.
  - destruct (is_Exception e).
    + intros H. eapply R_trans; [eapply Hb, E | eapply Hh, H].
    + intros H. injection H; intros; subst. eapply Hb, E.
Qed.

Lemma keeps_try_bare {A} (body handler : M A) :
  keeps R body -> keeps R handler -> keeps R (try_bare body handler).
Proof.
  intros Hb Hh w r w'. unfold try_bare.
  destruct (body w) as [[a|e] w1] eqn:E.
  - intros H. injection H; intros; subst. eapply Hb, E.
  - intros H. eapply R_trans; [eapply Hb, E | eapply Hh, H].
Qed.

End Keeps.

Lemma quiet_refl (w : world) : quiet w w.
Proof. split; reflexivity. Qed.

Lemma quiet_trans (a b c : world) : quiet a b -> quiet b c -> quiet a c.
Proof. intros [H1 H2] [H3 H4]. split; congruence. Qed.

Lemma ready_count_app (t u : list event) :
  ready_count (t ++ u) = (ready_count t + ready_count u)%nat.
Proof. unfold ready_count. rewrite filter_app, length_app. reflexivity. Qed.

Lemma quiet_emit (e : event) : is_ready e = false -> keeps quiet (emit e).
Proof.
  intros He w r w' H. injection H; intros; subst. split; [reflexivity|].
  simpl. rewrite ready_count_app. unfold ready_count at 2. simpl.
  rewrite He. simpl. lia.
Qed.

Lemma quiet_bind_llm : keeps quiet bind_llm.
Proof. intros w r w' H. injection H; intros; subst. split; reflexivity. Qed.

Lemma quiet_lookup_llm : keeps quiet lookup_llm.
Proof.
  intros w r w'. unfold lookup_llm.
  destruct (llm_bound w); intros H; injection H; intros; subst; apply quiet_refl.
Qed.

Lemma quiet_get_session : keeps quiet get_session.
Proof. intros w r w' H. injection H; intros; subst. apply quiet_refl. Qed.

Lemma quiet_fresh_id (env : environment) : keeps quiet (fresh_id env).
Proof. intros w r w' H. injection H; intros; subst. split; reflexivity. Qed.

Lemma quiet_set_files fs : keeps quiet (set_files fs).
Proof. intros w r w' H. injection H; intros; subst. split; reflexivity. Qed.

Lemma quiet_read_file name : keeps quiet (read_file name).
Proof.
  intros w r w'. unfold read_file.
  destruct (lookup_file name (files w));
    intros H; injection H; intros; subst; apply quiet_refl.
Qed.

Lemma quiet_os_remove name : keeps quiet (os_remove name).
Proof.
  intros w r w'. unfold os_remove.
  destruct (lookup_file name (files w)).
  - apply quiet_set_files.
  - intros H; injection H; intros; subst; apply quiet_refl.
Qed.

Lemma quiet_render_to name o : keeps quiet (render_to name o).
Proof.
  unfold render_to. apply keeps_bind.
  - exact quiet_trans.
  - apply keeps_call, quiet_refl.
  - intros bytes w r w'. apply quiet_set_files.
Qed.

Lemma quiet_invoke env client prompt : keeps quiet (invoke env client prompt).
Proof.
  unfold invoke. apply keeps_bind.
  - exact quiet_trans.
  - apply quiet_emit. reflexivity.
  - intros _. apply keeps_call, quiet_refl.
Qed.

Lemma quiet_float_of env text : keeps quiet (float_of env text).
Proof.
  unfold float_of. destruct (py_float env text).
  - apply keeps_ret, quiet_refl.
  - apply keeps_raise, quiet_refl.
Qed.

(** One step of a proof that a computation is quiet. *)
Ltac quiet_step :=
  match goal with
  | |- keeps quiet (bind _ _) =>
      apply (keeps_bind quiet quiet_trans); [|intros ?]
  | |- keeps quiet (try_except _ _) =>
      apply (keeps_try_except quiet quiet_trans); [|intros ?]
  | |- keeps quiet (try_bare _ _) =>
      apply (keeps_try_bare quiet quiet_trans)
  | |- keeps quiet (ret _) => apply keeps_ret, quiet_refl
  | |- keeps quiet (raise _) => apply keeps_raise, quiet_refl
  | |- keeps quiet (lift _) => apply keeps_lift, quiet_refl
  | |- keeps quiet (call _) => apply keeps_call, quiet_refl
  | |- keeps quiet (emit _) => apply quiet_emit; reflexivity
  | |- keeps quiet (invoke _ _ _) => apply quiet_invoke
  | |- keeps quiet bind_llm => apply quiet_bind_llm
  | |- keeps quiet lookup_llm => apply quiet_lookup_llm
  | |- keeps quiet get_session => apply quiet_get_session
  | |- keeps quiet (fresh_id _) => apply quiet_fresh_id
  | |- keeps quiet (read_file _) => apply quiet_read_file
  | |- keeps quiet (os_remove _) => apply quiet_os_remove
  | |- keeps quiet (render_to _ _) => apply quiet_render_to
  | |- keeps quiet (float_of _ _) => apply quiet_float_of
  | |- keeps quiet (if ?b then _ else _) => destruct b
  | |- keeps quiet (match ?x with _ => _ end) => destruct x
  end.

Ltac quiet_auto := cbv zeta; repeat quiet_step.

Lemma quiet_get_coordinates env name : keeps quiet (get_coordinates env name).
Proof. unfold get_coordinates, geocode_fallback. quiet_auto. Qed.

Lemma quiet_map_panel env td : keeps quiet (map_panel env td).
Proof.
  unfold map_panel. quiet_auto; apply quiet_get_coordinates.
Qed.

Lemma quiet_accommodation_block env td research pref pick :
  keeps quiet (accommodation_block env td research pref pick).
Proof. unfold accommodation_block. quiet_auto. Qed.

Lemma quiet_activity_block env td research pref chosen :
  keeps quiet (activity_block env td research pref chosen).
Proof. unfold activity_block. quiet_auto. Qed.

Lemma quiet_dining_block env td research pref chosen :
  keeps quiet (dining_block env td research pref chosen).
Proof. unfold dining_block. quiet_auto. Qed.

Lemma quiet_transport_block env td research pref pick :
  keeps quiet (transport_block env td research pref pick).
Proof. unfold transport_block. quiet_auto. Qed.

Lemma quiet_preference_stage env td research ui :
  keeps quiet (preference_stage env td research ui).
Proof.
  unfold preference_stage. quiet_auto;
    auto using quiet_accommodation_block, quiet_activity_block,
               quiet_dining_block, quiet_transport_block.
Qed.

Lemma quiet_document_export env td research p itinerary_text :
  keeps quiet (document_export env td research p itinerary_text).
Proof. unfold document_export, generate_pdf. quiet_auto. Qed.

Lemma quiet_add_events body indices :
  (forall i, keeps quiet (body i)) ->
  forall cal, keeps quiet (add_events body indices cal).
Proof.
  intros Hbody. induction indices as [|i rest IH]; intros cal; simpl.
  - quiet_auto.
  - quiet_auto; [apply Hbody | apply IH].
Qed.

Lemma quiet_calendar_export env td p itinerary_text :
  keeps quiet (calendar_export env td p itinerary_text).
Proof.
  unfold calendar_export. quiet_auto.
  apply quiet_add_events. intros i. unfold day_event. quiet_auto.
Qed.

(* ================================================================== *)
(** * What a computation adds to the trace *)
(* ================================================================== *)

Lemma filter_log (P : event -> bool) (e : event) (w : world) :
  filter P (trace (log e w))
  = (filter P (trace w) ++ if P e then [e] else [])%list.
Proof. simpl. rewrite filter_app. simpl. destruct (P e); reflexivity. Qed.

Section Unseen.

Variable P : event -> bool.

Lemma unseen_refl (w : world) : unseen P w w.
Proof. reflexivity. Qed.

Lemma unseen_trans (a b c : world) : unseen P a b -> unseen P b c -> unseen P a c.
Proof. unfold unseen. congruence. Qed.

Lemma quiet_step_unseen {A} (m : M A) :
  (forall w r w', m w = (r, w') -> trace w' = trace w) -> keeps (unseen P) m.
Proof. intros H w r w' E. unfold unseen. rewrite (H _ _ _ E). reflexivity. Qed.

Lemma unseen_emit (e : event) : P e = false -> keeps (unseen P) (emit e).
Proof.
  intros He w r w' H. injection H; intros; subst. unfold unseen.
  rewrite filter_log, He. apply app_nil_r.
Qed.

Lemma unseen_invoke env client prompt :
  P (ModelCall client prompt) = false -> keeps (unseen P) (invoke env client prompt).
Proof.
  intros He. unfold invoke. apply (keeps_bind (unseen P) unseen_trans).
  - apply unseen_emit, He.
  - intros _. apply keeps_call, unseen_refl.
Qed.

Lemma unseen_put_session s : keeps (unseen P) (put_session s).
Proof. apply quiet_step_unseen. intros w r w' H. injection H; intros; subst. reflexivity. Qed.

Lemma unseen_get_session : keeps (unseen P) get_session.
Proof. apply quiet_step_unseen. intros w r w' H. injection H; intros; subst. reflexivity. Qed.

Lemma unseen_bind_llm : keeps (unseen P) bind_llm.
Proof. apply quiet_step_unseen. intros w r w' H. injection H; intros; subst. reflexivity. Qed.

Lemma unseen_lookup_llm : keeps (unseen P) lookup_llm.
Proof.
  apply quiet_step_unseen. intros w r w'. unfold lookup_llm.
  destruct (llm_bound w); intros H; injection H; intros; subst; reflexivity.
Qed.

Lemma unseen_fresh_id env : keeps (unseen P) (fresh_id env).
Proof. apply quiet_step_unseen. intros w r w' H. injection H; intros; subst. reflexivity. Qed.

Lemma unseen_set_files fs : keeps (unseen P) (set_files fs).
Proof. apply quiet_step_unseen. intros w r w' H. injection H; intros; subst. reflexivity. Qed.

Lemma unseen_read_file name : keeps (unseen P) (read_file name).
Proof.
  apply quiet_step_unseen. intros w r w'. unfold read_file.
  destruct (lookup_file name (files w));
    intros H; injection H; intros; subst; reflexivity.
Qed.

Lemma unseen_os_remove name : keeps (unseen P) (os_remove name).
Proof.
  intros w r w'. unfold os_remove.
  destruct (lookup_file name (files w)).
  - apply unseen_set_files.
  - intros H; injection H; intros; subst; apply unseen_refl.
Qed.

Lemma unseen_render_to name o : keeps (unseen P) (render_to name o).
Proof.
  unfold render_to. apply (keeps_bind (unseen P) unseen_trans).
  - apply keeps_call, unseen_refl.
  - intros bytes w r w'. apply unseen_set_files.
Qed.

Lemma unseen_float_of env text : keeps (unseen P) (float_of env text).
Proof.
  unfold float_of. destruct (py_float env text).
  - apply keeps_ret, unseen_refl.
  - apply keeps_raise, unseen_refl.
Qed.

End Unseen.

(** One step of a proof that a computation adds no event of a kind. *)
Ltac unseen_step :=
  match goal with
  | |- keeps (unseen ?P) (bind _ _) =>
      apply (keeps_bind (unseen P) (unseen_trans P)); [|intros ?]
  | |- keeps (unseen ?P) (try_except _ _) =>
      apply (keeps_try_except (unseen P) (unseen_trans P)); [|intros ?]
  | |- keeps (unseen ?P) (try_bare _ _) =>
      apply (keeps_try_bare (unseen P) (unseen_trans P))
  | |- keeps (unseen ?P) (ret _) => apply keeps_ret, unseen_refl
  | |- keeps (unseen ?P) (raise _) => apply keeps_raise, unseen_refl
  | |- keeps (unseen ?P) (lift _) => apply keeps_lift, unseen_refl
  | |- keeps (unseen ?P) (call _) => apply keeps_call, unseen_refl
  | |- keeps (unseen ?P) (emit _) => apply unseen_emit; reflexivity
  | |- keeps (unseen ?P) (invoke _ _ _) => apply unseen_invoke; reflexivity
  | |- keeps (unseen ?P) bind_llm => apply unseen_bind_llm
  | |- keeps (unseen ?P) lookup_llm => apply unseen_lookup_llm
  | |- keeps (unseen ?P) get_session => apply unseen_get_session
  | |- keeps (unseen ?P) (put_session _) => apply unseen_put_session
  | |- keeps (unseen ?P) (fresh_id _) => apply unseen_fresh_id
  | |- keeps (unseen ?P) (read_file _) => apply unseen_read_file
  | |- keeps (unseen ?P) (os_remove _) => apply unseen_os_remove
  | |- keeps (unseen ?P) (render_to _ _) => apply unseen_render_to
  | |- keeps (unseen ?P) (float_of _ _) => apply unseen_float_of
  | |- keeps (unseen ?P) (if ?b then _ else _) => destruct b
  | |- keeps (unseen ?P) (match ?x with _ => _ end) => destruct x
  end.

Ltac unseen_auto := cbv zeta; repeat unseen_step.

Lemma unseen_add_events P body indices :
  (forall i, keeps (unseen P) (body i)) ->
  forall cal, keeps (unseen P) (add_events body indices cal).
Proof.
  intros Hbody. induction indices as [|i rest IH]; intros cal; simpl.
  - unseen_auto.
  - unseen_auto; [apply Hbody | apply IH].
Qed.

Lemma unseen_document_export P env td research p itinerary_text :
  (forall l t, P (Notice l t) = false) ->
  (forall a b c d e, P (DownloadButton a b c d e) = false) ->
  keeps (unseen P) (document_export env td research p itinerary_text).
Proof.
  intros Hn Hd. unfold document_export, generate_pdf.
  cbv zeta.
  repeat first [apply unseen_emit; first [apply Hn | apply Hd] | unseen_step].
Qed.

Lemma unseen_calendar_export P env td p itinerary_text :
  (forall l t, P (Notice l t) = false) ->
  (forall a b c d e, P (DownloadButton a b c d e) = false) ->
  keeps (unseen P) (calendar_export env td p itinerary_text).
Proof.
  intros Hn Hd. unfold calendar_export.
  cbv zeta.
  repeat first [apply unseen_emit; first [apply Hn | apply Hd] | unseen_step].
  apply unseen_add_events. intros i. unfold day_event. unseen_auto.
Qed.

(* ================================================================== *)
(** * Synthesis and the trip history *)
(* ================================================================== *)

Lemma still_grows env (w w' : world) : still env w w' -> grows env w w'.
Proof.
  intros [[Hs _] Hu]. exists []. unfold syntheses. rewrite Hs, Hu, app_nil_r.
  simpl. repeat split; auto.
Qed.

Lemma grows_trans env (a b c : world) :
  grows env a b -> grows env b c -> grows env a c.
Proof.
  intros (l1 & H1 & C1 & F1) (l2 & H2 & C2 & F2).
  exists (l1 ++ l2)%list. repeat split.
  - rewrite H2, H1, app_assoc. reflexivity.
  - rewrite C2, C1, length_app. lia.
  - apply Forall_app. split; assumption.
Qed.

Lemma keeps_still env {A} (m : M A) :
  keeps quiet m -> keeps (unseen (planner_answered env)) m -> keeps (still env) m.
Proof. intros Hq Hu w r w' E. split; [eapply Hq, E | eapply Hu, E]. Qed.

(** The synthesis adds an entry exactly when the planner answers. *)
Lemma grows_synthesis env td research p :
  keeps (grows env) (synthesis env td research p).
Proof.
  intros w r w'.
  cbv beta iota zeta
      delta [synthesis bind invoke emit call fresh_id get_session put_session ret].
  destruct (chat env (planner_input td research p)) as [itinerary_text|msg] eqn:Hchat;
    intros H; injection H; intros; subst.
  - eexists [_]. simpl. repeat split.
    + unfold syntheses. rewrite !filter_app, !length_app. simpl.
      rewrite Hchat. simpl. lia.
    + constructor; [|constructor]. eexists. reflexivity.
  - apply still_grows. split; [split; [reflexivity|]|].
    { simpl. rewrite ready_count_app. unfold ready_count at 2. simpl. lia. }
    unfold unseen. rewrite filter_log. simpl. rewrite Hchat. apply app_nil_r.
Qed.

(** The research stage writes to the session state, but not to the
    history, and it does not call the planner. *)
Lemma grows_research_stage env ui : keeps (grows env) (research_stage env ui).
Proof.
  intros w r w'. unfold research_stage.
  destruct (negb _).
  { intros H. apply still_grows. revert H.
    apply keeps_still; [apply quiet_emit | apply unseen_emit]; reflexivity. }
  destruct (String.eqb _ _).
  { intros H. apply still_grows. revert H.
    apply keeps_still; [apply quiet_emit | apply unseen_emit]; reflexivity. }
  cbv beta iota zeta delta [bind bind_llm emit call get_session put_session raise].
  destruct (researcher env (research_input ui)) as [found|msg];
    intros H; injection H; intros; subst.
  - exists []. simpl. rewrite app_nil_r. repeat split; auto.
    unfold syntheses. rewrite !filter_app, !length_app. simpl. lia.
  - exists []. simpl. rewrite app_nil_r. repeat split; auto.
    unfold syntheses. rewrite !filter_app, !length_app. simpl. lia.
Qed.

Lemma no_synthesis_preference_stage env0 env td research ui :
  keeps (unseen (planner_answered env0)) (preference_stage env td research ui).
Proof.
  unfold preference_stage, accommodation_block, activity_block, dining_block,
    transport_block.
  unseen_auto.
Qed.

Lemma no_synthesis_map_panel env0 env td :
  keeps (unseen (planner_answered env0)) (map_panel env td).
Proof. unfold map_panel, get_coordinates, geocode_fallback. unseen_auto. Qed.

(** Whatever the research stage and the synthesis keep, and every step
    that leaves the session state alone and does not call the planner keeps,
    a whole run of the script keeps: nothing else writes to the session
    state or asks the planner. *)
Section ScriptKeeps.

Variable env : environment.
Variable R : world -> world -> Prop.
Hypothesis R_trans : forall a b c, R a b -> R b c -> R a c.
Hypothesis still_R : forall w w', still env w w' -> R w w'.
Hypothesis R_research : forall ui, keeps R (research_stage env ui).
Hypothesis R_synthesis :
  forall td research p, keeps R (synthesis env td research p).

Lemma still_keeps {A} (m : M A) :
  keeps quiet m -> keeps (unseen (planner_answered env)) m -> keeps R m.
Proof. intros Hq Hu w r w' E. apply still_R. eapply keeps_still; eassumption. Qed.

Lemma keeps_page_head ui : keeps R (page_head env ui).
Proof.
  unfold page_head. apply (keeps_bind R R_trans).
  - apply still_keeps; [quiet_auto | unseen_auto].
  - intros _. destruct (generate_clicked ui).
    + apply R_research.
    + apply still_keeps; [quiet_auto | unseen_auto].
Qed.

Lemma keeps_planning_page ui : keeps R (planning_page env ui).
Proof.
  unfold planning_page. apply (keeps_bind R R_trans).
  - apply still_keeps; [apply quiet_get_session | apply unseen_get_session].
  - intros s.
    destruct (show_preferences s);
      [|apply still_keeps; [quiet_auto | unseen_auto]].
    destruct (research_results s) as [research|];
      [|apply still_keeps; [quiet_auto | unseen_auto]].
    apply (keeps_bind R R_trans).
    { apply still_keeps; [quiet_auto | unseen_auto]. }
    intros td. apply (keeps_bind R R_trans).
    { apply still_keeps;
        [apply quiet_preference_stage | apply no_synthesis_preference_stage]. }
    intros p.
    destruct (itinerary_clicked ui);
      [|apply still_keeps; [quiet_auto | unseen_auto]].
    apply (keeps_bind R R_trans); [apply R_synthesis|].
    intros itinerary_text. apply still_keeps.
    + quiet_auto;
        auto using quiet_document_export, quiet_calendar_export, quiet_map_panel.
    + unseen_auto;
        first [ refine (unseen_document_export _ _ _ _ _ _ _ _);
                intros; reflexivity
              | refine (unseen_calendar_export _ _ _ _ _ _ _);
                intros; reflexivity
              | apply no_synthesis_map_panel ].
Qed.

Lemma keeps_script ui : keeps R (script env ui).
Proof.
  unfold script. apply (keeps_bind R R_trans).
  - apply keeps_page_head.
  - intros _. apply keeps_planning_page.
Qed.

End ScriptKeeps.

Lemma grows_script env ui : keeps (grows env) (script env ui).
Proof.
  apply keeps_script.
  - apply grows_trans.
  - apply still_grows.
  - apply grows_research_stage.
  - apply grows_synthesis.
Qed.

(** ** The session state stays well formed *)

Lemma stays_ok_trans (a b c : world) : stays_ok a b -> stays_ok b c -> stays_ok a c.
Proof. unfold stays_ok. auto. Qed.

Lemma quiet_stays_ok (w w' : world) : quiet w w' -> stays_ok w w'.
Proof. intros [Hs _]. unfold stays_ok. rewrite Hs. auto. Qed.

Lemma still_stays_ok env (w w' : world) : still env w w' -> stays_ok w w'.
Proof. intros [H _]. apply quiet_stays_ok, H. Qed.

Lemma stays_ok_research_stage env ui : keeps stays_ok (research_stage env ui).
Proof.
  intros w r w'. unfold research_stage.
  destruct (negb _).
  { intros H. apply quiet_stays_ok. revert H. apply quiet_emit. reflexivity. }
  destruct (String.eqb _ _).
  { intros H. apply quiet_stays_ok. revert H. apply quiet_emit. reflexivity. }
  cbv beta iota zeta delta [bind bind_llm emit call get_session put_session raise].
  destruct (researcher env (research_input ui)) as [found|msg];
    intros H; injection H; intros; subst; intros Hok.
  - intros _. discriminate.
  - exact Hok.
Qed.

Lemma stays_ok_synthesis env td research p :
  keeps stays_ok (synthesis env td research p).
Proof.
  intros w r w'.
  cbv beta iota zeta
      delta [synthesis bind invoke emit call fresh_id get_session put_session ret].
  destruct (chat env (planner_input td research p)) as [itinerary_text|msg];
    intros H; injection H; intros; subst; intros Hok; exact Hok.
Qed.

(** Whatever the runs of a browser session, research results never come
    without the trip data they were made for: the panel never finds
    [current_trip_data] unset. *)
Lemma runs_session_ok (steps : list (environment * widgets)) (w : world) :
  session_ok (session w) -> session_ok (session (runs steps w)).
Proof.
  revert w. induction steps as [|[env ui] rest IH]; intros w Hw; simpl; [exact Hw|].
  apply IH. unfold run.
  destruct (script env ui (start_run w)) as [r w'] eqn:E. simpl.
  refine (keeps_script env stays_ok stays_ok_trans (still_stays_ok env)
            (stays_ok_research_stage env) (stays_ok_synthesis env) ui _ _ _ E _).
  exact Hw.
Qed.

Lemma new_session_ok : session_ok (session new_world).
Proof. intros H. contradiction. Qed.

(** One run: the history is the old one followed by one new entry per
    successful synthesis of the run. *)
Lemma run_history env ui w :
  exists added,
    trip_history (session (snd (run env ui w)))
    = (trip_history (session w) ++ added)%list /\
    List.length added = syntheses env (trace (snd (run env ui w))) /\
    Forall (fun r => exists random, tr_id r = short_id random) added.
Proof.
  unfold run. destruct (script env ui (start_run w)) as [r w'] eqn:E.
  destruct (grows_script env ui _ _ _ E) as (added & H & C & F).
  exists added. simpl in *. repeat split; auto.
Qed.


Lemma runs_history steps w :
  exists added,
    trip_history (session (runs steps w))
    = (trip_history (session w) ++ added)%list /\
    List.length added = successful_syntheses steps w /\
    Forall (fun r => exists random, tr_id r = short_id random) added.
Proof.
  revert w. induction steps as [|[env ui] rest IH]; intros w; simpl.
  - exists []. rewrite app_nil_r. auto.
  - destruct (run_history env ui w) as (l1 & H1 & C1 & F1).
    destruct (IH (snd (run env ui w))) as (l2 & H2 & C2 & F2).
    exists (l1 ++ l2)%list. repeat split.
    + rewrite H2, H1, app_assoc. reflexivity.
    + rewrite length_app. lia.
    + apply Forall_app. split; assumption.
Qed.


(** In the end-to-end scenario the planner is called once, with success. *)
Example paris_scenario_syntheses :
  successful_syntheses [(demo_env, research_click); (demo_env, itinerary_click)]
    new_world = 1%nat.
Proof. vm_compute. reflexivity. Qed.

(** The end-to-end scenario leaves one history entry, with the four
    selections as chosen and the two skipped categories at their sentinel. *)
Example paris_scenario :
  exists r,
    trip_history (session (runs [(demo_env, research_click);
                                 (demo_env, itinerary_click)] new_world)) = [r] /\
    tr_destination r = "Paris" /\ tr_days r = 5 /\ tr_budget r = 150000 /\
    tr_research r = "research notes" /\
    selected_accommodation (tr_preferences r) = "Option 2" /\
    selected_activities (tr_preferences r) = ["Mix of Everything"] /\
    selected_dining (tr_preferences r) = ["Option 1"; "Option 3"] /\
    selected_transport (tr_preferences r) = "No Preference" /\
    tr_itinerary r = "Option 1 ... Option 2 ... Option 3 ...".
Proof. eexists. repeat split; vm_compute; reflexivity. Qed.

(** ** Identifiers *)

Lemma length_append (a b : string) :
  String.length (a ++ b) = (String.length a + String.length b)%nat.
Proof. induction a as [|c a IH]; simpl; [reflexivity | now rewrite IH]. Qed.

Lemma length_hex_digits (k : nat) (n : N) : String.length (hex_digits k n) = k.
Proof.
  revert n. induction k as [|k IH]; intros n; simpl; [reflexivity|].
  rewrite length_append, IH. simpl. lia.
Qed.

Lemma length_substring (n m : nat) (s : string) :
  (n + m <= String.length s)%nat -> String.length (substring n m s) = m.
Proof.
  revert n m. induction s as [|c s IH]; intros n m H; simpl in H.
  - assert (n = O) by lia. assert (m = O) by lia. subst. reflexivity.
  - destruct n as [|n]; simpl.
    + destruct m as [|m]; [reflexivity|]. simpl. rewrite IH; [reflexivity | lia].
    + apply IH. lia.
Qed.

Lemma all_chars_app (test : ascii -> bool) (a b : string) :
  all_chars test (a ++ b) = andb (all_chars test a) (all_chars test b).
Proof.
  induction a as [|c a IH]; simpl; [reflexivity|].
  rewrite IH. apply andb_assoc.
Qed.

Lemma all_chars_impl (test test' : ascii -> bool) (s : string) :
  (forall c, test c = true -> test' c = true) ->
  all_chars test s = true -> all_chars test' s = true.
Proof.
  intros Himp. induction s as [|c s IH]; simpl; [reflexivity|].
  intros H. apply andb_true_iff in H. destruct H as [Hc Hs].
  rewrite (Himp c Hc), (IH Hs). reflexivity.
Qed.

Lemma all_chars_substring (test : ascii -> bool) (n m : nat) (s : string) :
  all_chars test s = true -> all_chars test (substring n m s) = true.
Proof.
  revert n m. induction s as [|c s IH]; intros n m H.
  - destruct n, m; reflexivity.
  - simpl in H. apply andb_true_iff in H. destruct H as [Hc Hs].
    destruct n as [|n]; simpl.
    + destruct m as [|m]; [reflexivity|]. simpl. rewrite Hc, (IH 0%nat m Hs).
      reflexivity.
    + apply IH, Hs.
Qed.

Lemma is_hex_hex_digit (d : N) : is_hex (hex_digit d) = true.
Proof.
  unfold hex_digit. generalize (N.to_nat d). intros n.
  do 16 (destruct n as [|n]; [reflexivity|]). reflexivity.
Qed.

Lemma all_chars_hex_digits (k : nat) (n : N) :
  all_chars is_hex (hex_digits k n) = true.
Proof.
  revert n. induction k as [|k IH]; intros n; simpl; [reflexivity|].
  rewrite all_chars_app, IH. simpl. rewrite is_hex_hex_digit. reflexivity.
Qed.

Lemma is_hex_starts_char (c : ascii) : is_hex c = true -> starts_char c = true.
Proof.
  destruct c as [[] [] [] [] [] [] [] []]; vm_compute; intros H;
    first [reflexivity | discriminate H].
Qed.

(** A slice counts characters: it holds [n] of them, or all there are. *)
Lemma char_count_take (n : nat) (s : string) :
  char_count (take n s) = Nat.min n (char_count s).
Proof.
  revert n. induction s as [|c s IH]; intros n; cbn [char_count take].
  - now rewrite Nat.min_0_r.
  - destruct (is_continuation c) eqn:Hc; cbn [char_count]; rewrite ?Hc.
    + apply IH.
    + destruct n as [|n]; cbn [char_count]; rewrite ?Hc; [reflexivity|].
      rewrite IH. reflexivity.
Qed.

(** A slice is the beginning of the text. *)
Lemma take_prefix (n : nat) (s : string) : exists rest, s = take n s ++ rest.
Proof.
  revert n. induction s as [|c s IH]; intros n; cbn [take].
  - exists EmptyString. reflexivity.
  - destruct (is_continuation c).
    + destruct (IH n) as [rest Hrest]. exists rest. simpl. now rewrite <- Hrest.
    + destruct n as [|n].
      * exists (String c s). reflexivity.
      * destruct (IH n) as [rest Hrest]. exists rest. simpl. now rewrite <- Hrest.
Qed.

(** Of a text of one-byte characters, followed by another character, the
    slice of its length is the text. *)
Lemma take_app_exact (a b : string) :
  all_chars starts_char a = true -> at_char b = true ->
  take (String.length a) (a ++ b) = a.
Proof.
  intros Ha Hb. induction a as [|c a IH]; cbn [String.length append take].
  - destruct b as [|d b]; [reflexivity|]. cbn [at_char take] in *.
    unfold starts_char in Hb. apply negb_true_iff in Hb. now rewrite Hb.
  - cbn [all_chars] in Ha. apply andb_true_iff in Ha. destruct Ha as [Hc Ha].
    unfold starts_char in Hc. apply negb_true_iff in Hc.
    now rewrite Hc, (IH Ha).
Qed.

(** The short identifier is the first group of the UUID text. *)
Lemma short_id_first_group (random : N) :
  short_id random = substring 0 8 (hex_digits 32 (uuid4 random)).
Proof.
  unfold short_id, str_uuid.
  set (hex := hex_digits 32 (uuid4 random)).
  assert (H : String.length (substring 0 8 hex) = 8%nat).
  { apply length_substring. unfold hex. rewrite length_hex_digits. lia. }
  rewrite <- H at 1. apply take_app_exact; [|reflexivity].
  apply (all_chars_impl is_hex); [exact is_hex_starts_char|].
  apply all_chars_substring, all_chars_hex_digits.
Qed.

Lemma length_str_uuid (u : N) : String.length (str_uuid u) = 36%nat.
Proof.
  unfold str_uuid. rewrite !length_append.
  rewrite !length_substring by (rewrite length_hex_digits; lia).
  reflexivity.
Qed.

Lemma length_short_id (random : N) : String.length (short_id random) = 8%nat.
Proof.
  rewrite short_id_first_group. apply length_substring.
  rewrite length_hex_digits. lia.
Qed.

(** C10: the identifier cut from a UUID, [str(uuid.uuid4())[:8]], has
    exactly 8 characters whatever the random bits, the UUID text having 36;
    and every entry of the trip history of a browser session, after any
    sequence of runs, carries such an identifier. *)
Theorem trip_id_has_eight_characters (steps : list (environment * widgets)) :
  (forall random,
      String.length (str_uuid (uuid4 random)) = 36%nat /\
      short_id random = take 8 (str_uuid (uuid4 random)) /\
      String.length (short_id random) = 8%nat) /\
  Forall (fun r => String.length (tr_id r) = 8%nat)
         (trip_history (session (runs steps new_world))).
Proof.
  split.
  - intros random. split; [apply length_str_uuid|].
    split; [reflexivity | apply length_short_id].
  - destruct (runs_history steps new_world) as (added & H & _ & F).
    rewrite H. simpl. eapply Forall_impl; [|exact F].
    intros r [random Hr]. rewrite Hr. apply length_short_id.
Qed.

(* ================================================================== *)
(** * Document export *)
(* ================================================================== *)

Lemma lookup_file_written name bytes fs :
  lookup_file name ((name, bytes) :: fs) = Some bytes.
Proof. unfold lookup_file. simpl. rewrite String.eqb_refl. reflexivity. Qed.

(** C8: whatever the two renderers do, one invocation of the document
    export ends normally having offered exactly one download: the PDF that
    WeasyPrint wrote, else the PDF that ReportLab wrote, both declared
    application/pdf, else the text document, declared text/plain. *)
Theorem document_export_one_artifact
  (env : environment) (td : trip_data) (research : string) (p : preferences)
  (itinerary_text : string) (w : world) :
  let export_trip_id := short_id (urandom env (draws w)) in
  let content := export_document env td research p itinerary_text in
  let pdf_filename := export_file_name "itinerary" td export_trip_id ".pdf" in
  let offered := offered_document env td research p itinerary_text export_trip_id in
  exists w' events,
    document_export env td research p itinerary_text w = (Ok tt, w') /\
    trace w' = (trace w ++ events)%list /\
    downloads events = [offered] /\
    mime_of offered
    = match weasyprint_write_pdf env content pdf_filename,
            reportlab_build env content pdf_filename with
      | Failed _, Failed _ => "text/plain"
      | _, _ => "application/pdf"
      end.
Proof.
  destruct w as [sess bound fs drawn tr].
  cbv zeta. unfold offered_document.
  cbv beta iota zeta
      delta [document_export generate_pdf render_to bind try_except try_bare
             fresh_id emit call ret set_files read_file os_remove log
             session llm_bound files draws trace is_Exception].
  fold (export_document env td research p itinerary_text).
  destruct (weasyprint_write_pdf env _ _) as [bytes|msg1];
    [|destruct (reportlab_build env _ _) as [bytes|msg2]];
    cbv beta iota; rewrite ?lookup_file_written; cbv beta iota;
    rewrite ?lookup_file_written; cbv beta iota;
    eexists; eexists; (split; [reflexivity|]);
    rewrite <- !app_assoc; (split; [reflexivity|]); split; reflexivity.
Qed.

(* ================================================================== *)
(** * Calendar export *)
(* ================================================================== *)

Lemma date_add_days (d i : Z) :
  date_add d (timedelta_days i)
  = if andb (0 <? d + i) (d + i <=? MAXORDINAL) then Ok (d + i)
    else Raise (OverflowError "date value out of range").
Proof. reflexivity. Qed.

(** The loop leaves the world alone; when it ends normally the calendar
    holds the planned events of its indices, in order; it ends normally when
    every date is in range, and otherwise with an ordinary exception. *)
Lemma add_events_result td p itinerary_text start indices cal w :
  exists r,
    add_events (day_event td p itinerary_text start) indices cal w = (r, w) /\
    (forall cal', r = Ok cal' ->
       cal' = (cal ++ map (planned_event td p itinerary_text start) indices)%list) /\
    ((forall i, In i indices -> 0 < start + i <= MAXORDINAL) ->
     r = Ok (cal ++ map (planned_event td p itinerary_text start) indices)%list) /\
    (forall e, r = Raise e -> is_Exception e = true).
Proof.
  revert cal. induction indices as [|i rest IH]; intros cal; simpl.
  - exists (Ok cal). rewrite app_nil_r. repeat split; auto.
    + intros cal' H. injection H; auto.
    + discriminate.
  - unfold bind at 1. unfold day_event at 1. unfold bind at 1, lift.
    rewrite date_add_days.
    destruct (andb (0 <? start + i) (start + i <=? MAXORDINAL)) eqn:Hrange.
    + unfold ret at 1.
      destruct (IH (cal ++ [planned_event td p itinerary_text start i])%list)
        as (r & E & Hok & Hall & Hexn).
      exists r. unfold planned_event at 1 in E. rewrite E.
      rewrite <- app_assoc in Hok, Hall. simpl in Hok, Hall.
      repeat split; auto.
    + eexists. split; [reflexivity|]. split; [discriminate|]. split.
      * intros Hin. exfalso.
        specialize (Hin i (or_introl eq_refl)).
        apply andb_false_iff in Hrange.
        destruct Hrange as [H|H]; [apply Z.ltb_ge in H | apply Z.leb_gt in H]; lia.
      * intros e H. injection H; intros; subst. reflexivity.
Qed.

Lemma length_range (n : Z) : List.length (range n) = Z.to_nat n.
Proof. unfold range. rewrite length_map, length_seq. reflexivity. Qed.

Lemma nth_error_range (n i : Z) :
  0 <= i < n -> nth_error (range n) (Z.to_nat i) = Some i.
Proof.
  intros H. unfold range. rewrite nth_error_map, nth_error_seq.
  assert (Hlt : (Z.to_nat i <? Z.to_nat n)%nat = true)
    by (apply Nat.ltb_lt; lia).
  rewrite Hlt. simpl. f_equal. lia.
Qed.

Lemma In_range (n i : Z) : In i (range n) -> 0 <= i < n.
Proof.
  unfold range. rewrite in_map_iff. intros (k & <- & Hk).
  apply in_seq in Hk. lia.
Qed.

Lemma NoDup_range (n : Z) : NoDup (range n).
Proof.
  unfold range. apply NoDup_map_NoDup_ForallPairs.
  - intros x y _ _ H. lia.
  - apply seq_NoDup.
Qed.

(** The planned events of a trip: one per day, on consecutive dates, eight
    hours each. *)
Lemma planned_events_shape td p itinerary_text start n :
  let cal := map (planned_event td p itinerary_text start) (range n) in
  List.length cal = Z.to_nat n /\
  (forall i, 0 <= i < n ->
     exists e, nth_error cal (Z.to_nat i) = Some e /\
               ev_begin e = start + i /\
               ev_duration e = timedelta_hours 8 /\
               delta_days (ev_duration e) * 86400 + delta_seconds (ev_duration e)
               = 8 * 3600) /\
  NoDup (map ev_begin cal).
Proof.
  cbv zeta. split; [|split].
  - rewrite length_map. apply length_range.
  - intros i Hi. exists (planned_event td p itinerary_text start i).
    rewrite nth_error_map, nth_error_range by assumption.
    repeat split; reflexivity.
  - rewrite map_map. simpl. apply NoDup_map_NoDup_ForallPairs.
    + intros x y _ _ H. lia.
    + apply NoDup_range.
Qed.

(** C6: for a trip of 1 to 30 days, the calendar export ends normally, and
    a download it offers carries exactly [num_days] events, the i-th of
    which, for i from 0 to num_days-1, begins on today's date plus i days
    and lasts 8 hours, so the start dates are all different; and it does
    offer that download when the ics package can be imported and the dates
    exist. *)
Theorem calendar_export_events
  (env : environment) (td : trip_data) (p : preferences) (itinerary_text : string)
  (w : world) (Hdays : 1 <= td_num_days td <= 30) :
  exists w' events,
    calendar_export env td p itinerary_text w = (Ok tt, w') /\
    trace w' = (trace w ++ events)%list /\
    (forall label data file mime key,
        In (DownloadButton label data file mime key) events ->
        exists cal,
          data = CalendarText cal /\
          List.length cal = Z.to_nat (td_num_days td) /\
          (forall i, 0 <= i < td_num_days td ->
             exists e, nth_error cal (Z.to_nat i) = Some e /\
                       ev_begin e = today env + i /\
                       ev_duration e = timedelta_hours 8 /\
                       delta_days (ev_duration e) * 86400
                       + delta_seconds (ev_duration e) = 8 * 3600) /\
          NoDup (map ev_begin cal)) /\
    (ics_importable env = true ->
     0 < today env -> today env + td_num_days td - 1 <= MAXORDINAL ->
     exists d, downloads events = [d]).
Proof.
  destruct w as [sess bound fs drawn tr].
  cbv beta iota zeta
      delta [calendar_export bind try_except try_bare fresh_id emit call ret raise
             log session llm_bound files draws trace].
  destruct (ics_importable env) eqn:Hics; cbv beta iota.
  - match goal with
    | |- context [add_events ?body ?indices ?cal ?w0] =>
        destruct (add_events_result td p itinerary_text (today env) indices cal w0)
          as (r & E & Hok & Hall & Hexn)
    end.
    rewrite E. destruct r as [cal|e]; cbv beta iota.
    + specialize (Hok cal eq_refl). simpl in Hok. subst cal.
      eexists. eexists. split; [reflexivity|].
      rewrite <- !app_assoc. split; [reflexivity|]. split.
      * intros label data file mime key [H|[H|[]]]; [|discriminate].
        injection H; intros; subst. eexists. split; [reflexivity|].
        apply planned_events_shape.
      * intros _ _ _. eexists. reflexivity.
    + assert (Hex : is_Exception e = true) by (apply Hexn; reflexivity).
      rewrite Hex.
      destruct (pip_install_ics env) as [[]|msg]; cbv beta iota;
        eexists; eexists; (split; [reflexivity|]);
        rewrite <- !app_assoc; (split; [reflexivity|]); split.
      * intros label data file mime key [H|[H|[H|[]]]]; discriminate.
      * intros _ Hlo Hhi. exfalso.
        assert (Hr : @Raise calendar e = Ok ([] ++ map (planned_event td p itinerary_text (today env)) (range (td_num_days td)))%list).
        { apply Hall. intros i Hi. apply In_range in Hi. lia. }
        discriminate.
      * intros label data file mime key [H|[H|[H|[]]]]; discriminate.
      * intros _ Hlo Hhi. exfalso.
        assert (Hr : @Raise calendar e = Ok ([] ++ map (planned_event td p itinerary_text (today env)) (range (td_num_days td)))%list).
        { apply Hall. intros i Hi. apply In_range in Hi. lia. }
        discriminate.
  - cbv beta iota delta [is_Exception].
    destruct (pip_install_ics env) as [[]|msg]; cbv beta iota;
      eexists; eexists; (split; [reflexivity|]);
      rewrite <- !app_assoc; (split; [reflexivity|]); split;
      try (intros label data file mime key [H|[H|[H|[]]]]; discriminate);
      intros; discriminate.
Qed.

Lemma calendar_export_events_witness :
  exists w' events,
    calendar_export demo_env paris_trip demo_preferences "Day 1: Louvre" panel_world
    = (Ok tt, w') /\
    trace w' = (trace panel_world ++ events)%list /\
    (forall label data file mime key,
        In (DownloadButton label data file mime key) events ->
        exists cal,
          data = CalendarText cal /\
          List.length cal = Z.to_nat (td_num_days paris_trip) /\
          (forall i, 0 <= i < td_num_days paris_trip ->
             exists e, nth_error cal (Z.to_nat i) = Some e /\
                       ev_begin e = today demo_env + i /\
                       ev_duration e = timedelta_hours 8 /\
                       delta_days (ev_duration e) * 86400
                       + delta_seconds (ev_duration e) = 8 * 3600) /\
          NoDup (map ev_begin cal)) /\
    (ics_importable demo_env = true ->
     0 < today demo_env ->
     today demo_env + td_num_days paris_trip - 1 <= MAXORDINAL ->
     exists d, downloads events = [d]).
Proof.
  apply (calendar_export_events demo_env paris_trip demo_preferences
           "Day 1: Louvre" panel_world).
  simpl. lia.
Defined.

(* ================================================================== *)
(** * Further properties: the research stage *)
(* ================================================================== *)

Lemma bind_inv {A B} (m : M A) (k : A -> M B) w r w' :
  bind m k w = (r, w') ->
  (exists e, m w = (Raise e, w') /\ r = Raise e) \/
  (exists a w1, m w = (Ok a, w1) /\ k a w1 = (r, w')).
Proof.
  unfold bind. destruct (m w) as [[a|e] w1].
  - intros H. right. exists a, w1. split; [reflexivity | exact H].
  - intros H. injection H; intros; subst. left. exists e. split; reflexivity.
Qed.

(** X1: the research stage is all or nothing.  Without both credentials
    it shows the error about the two keys, and with them but without a
    destination the error asking for one: in both cases that notice is all
    it does, it returns normally, and the session state is as it was.
    Otherwise the agent is run exactly once, on the research input; when it
    answers, the session holds its answer, the trip data of the widgets and
    the open preference panel, the success notice is shown, and the run ends
    by a rerun; when it fails, the failure is raised, nothing is shown and
    the session state is as it was.  The history is never touched. *)
Theorem research_stage_all_or_nothing
  (env : environment) (ui : widgets) (w : world) :
  let r := fst (research_stage env ui w) in
  let w' := snd (research_stage env ui w) in
  trip_history (session w') = trip_history (session w) /\
  if negb (andb (truthy (github_token env)) (truthy (serp_api_key env)))
  then
    r = Ok tt /\ w' = log (Notice Error credentials_warning) w
  else if String.eqb (destination ui) ""
  then
    r = Ok tt /\
    w' = log (Notice Error "Please enter your travel destination.") w
  else
    match researcher env (research_input ui) with
    | Returned found =>
        r = Raise RerunException /\
        session w' = researched (session w) ui found /\
        trace w'
        = (trace w
           ++ [AgentRun (research_input ui);
               Notice Success
                 "✓ Research completed! Now select your preferences below."])%list
    | Failed msg =>
        r = Raise (UpstreamError msg) /\
        session w' = session w /\
        trace w' = (trace w ++ [AgentRun (research_input ui)])%list
    end.
Proof.
  cbv zeta. unfold research_stage.
  destruct (negb (andb (truthy (github_token env)) (truthy (serp_api_key env)))).
  { repeat split; reflexivity. }
  destruct (String.eqb (destination ui) "").
  { repeat split; reflexivity. }
  cbv beta iota zeta
      delta [bind bind_llm emit call get_session put_session raise log].
  destruct (researcher env (research_input ui)) as [found|msg]; simpl;
    rewrite <- ?app_assoc; repeat split; reflexivity.
Qed.

Lemma page_head_ok_session env ui w w1 :
  page_head env ui w = (Ok tt, w1) ->
  session w1 = session w /\ llm_bound w1 = llm_bound w.
Proof.
  unfold page_head, research_stage, bind, emit, ret, raise, bind_llm, call,
    get_session, put_session.
  destruct (orb _ _); simpl;
    destruct (generate_clicked ui); simpl;
    try (intros H; injection H; intros; subst; split; reflexivity);
    destruct (negb _); simpl;
    try (intros H; injection H; intros; subst; split; reflexivity);
    destruct (String.eqb _ _); simpl;
    try (intros H; injection H; intros; subst; split; reflexivity);
    destruct (researcher env _); simpl; discriminate.
Qed.

(** X2: before any research has succeeded the page is closed: a run in
    which the research button is not clicked returns normally, leaves the
    session state as it was, and does nothing to the outside but warn about
    missing credentials, whatever the other widgets hold. *)
Theorem closed_page_is_inert (env : environment) (ui : widgets) (w : world)
  (Hclick : generate_clicked ui = false)
  (Hclosed : show_preferences (session w) = false) :
  fst (run env ui w) = Ok tt /\
  session (snd (run env ui w)) = session w /\
  trace (snd (run env ui w))
  = if andb (truthy (github_token env)) (truthy (serp_api_key env)) then []
    else [Notice Warning credentials_warning].
Proof.
  destruct w as [sess bound fs drawn tr]. simpl in Hclosed.
  unfold run, script, page_head, planning_page, start_run.
  rewrite Hclick.
  cbv beta iota zeta delta [bind emit ret get_session log session trace].
  destruct (truthy (github_token env)), (truthy (serp_api_key env)); simpl;
    rewrite Hclosed; repeat split; reflexivity.
Qed.

Lemma closed_page_is_inert_witness :
  fst (run demo_env demo_widgets new_world) = Ok tt /\
  session (snd (run demo_env demo_widgets new_world)) = session new_world /\
  trace (snd (run demo_env demo_widgets new_world))
  = if andb (truthy (github_token demo_env)) (truthy (serp_api_key demo_env))
    then [] else [Notice Warning credentials_warning].
Proof.
  apply (closed_page_is_inert demo_env demo_widgets new_world); reflexivity.
Defined.

(* ================================================================== *)
(** * Further properties: the session state and the history *)
(* ================================================================== *)

Lemma stays_wf_trans (a b c : world) : stays_wf a b -> stays_wf b c -> stays_wf a c.
Proof. unfold stays_wf. auto. Qed.

Lemma quiet_stays_wf (w w' : world) : quiet w w' -> stays_wf w w'.
Proof. intros [Hs _]. unfold stays_wf. rewrite Hs. auto. Qed.

Lemma still_stays_wf env (w w' : world) : still env w w' -> stays_wf w w'.
Proof. intros [H _]. apply quiet_stays_wf, H. Qed.

Lemma stays_wf_research_stage env ui : keeps stays_wf (research_stage env ui).
Proof.
  intros w r w'. unfold research_stage.
  destruct (negb _).
  { intros H. apply quiet_stays_wf. revert H. apply quiet_emit. reflexivity. }
  destruct (String.eqb _ _).
  { intros H. apply quiet_stays_wf. revert H. apply quiet_emit. reflexivity. }
  cbv beta iota zeta delta [bind bind_llm emit call get_session put_session raise].
  destruct (researcher env (research_input ui)) as [found|msg];
    intros H; injection H; intros; subst; intros Hwf.
  - split; simpl; split; intros _; try reflexivity; discriminate.
  - exact Hwf.
Qed.

Lemma stays_wf_synthesis env td research p :
  keeps stays_wf (synthesis env td research p).
Proof.
  intros w r w'.
  cbv beta iota zeta
      delta [synthesis bind invoke emit call fresh_id get_session put_session ret].
  destruct (chat env (planner_input td research p)) as [itinerary_text|msg];
    intros H; injection H; intros; subst; intros Hwf; exact Hwf.
Qed.

(** X3: in a browser session the three flags go together, whatever is
    clicked and whatever the outside does: the preference panel is open
    exactly when research results are stored, and research results are
    stored exactly when the trip data they were made for is. *)
Theorem session_flags_go_together (steps : list (environment * widgets)) :
  session_wf (session (runs steps new_world)).
Proof.
  assert (Hgen : forall w, session_wf (session w) ->
                           session_wf (session (runs steps w))).
  { induction steps as [|[env ui] rest IH]; intros w Hw; simpl; [exact Hw|].
    apply IH. unfold run.
    destruct (script env ui (start_run w)) as [r w'] eqn:E. simpl.
    refine (keeps_script env stays_wf stays_wf_trans (still_stays_wf env)
              (stays_wf_research_stage env) (stays_wf_synthesis env) ui _ _ _ E _).
    exact Hw. }
  apply Hgen. simpl. split; split; intros H; try discriminate; contradiction.
Qed.

(** What is left of the page after the synthesis is quiet. *)
Lemma quiet_after_synthesis env ui td research p itinerary_text :
  keeps quiet
    ((if pdf_clicked ui
      then document_export env td research p itinerary_text
      else ret tt) ;;
     (if calendar_clicked ui
      then calendar_export env td p itinerary_text
      else ret tt) ;;
     map_panel env td).
Proof.
  quiet_auto;
    auto using quiet_document_export, quiet_calendar_export, quiet_map_panel.
Qed.

Lemma synthesis_session env td research p w r w' :
  synthesis env td research p w = (r, w') ->
  (session w' = session w /\ exists e, r = Raise e) \/
  (exists itinerary_text,
      chat env (planner_input td research p) = Returned itinerary_text /\
      r = Ok itinerary_text /\
      session w'
      = {| trip_history :=
             (trip_history (session w)
              ++ [history_entry env td research p itinerary_text
                    (urandom env (draws w))])%list;
           research_results := research_results (session w);
           current_trip_data := current_trip_data (session w);
           show_preferences := show_preferences (session w) |}).
Proof.
  destruct w as [sess bound fs drawn tr].
  cbv beta iota zeta
      delta [synthesis bind invoke emit call fresh_id get_session put_session ret
             log session llm_bound files draws trace].
  destruct (chat env (planner_input td research p)) as [itinerary_text|msg];
    intros H; injection H; intros; subst.
  - right. exists itinerary_text. repeat split; reflexivity.
  - left. split; [reflexivity | eexists; reflexivity].
Qed.

(** The planning page either leaves the session state alone or adds the one
    entry of a synthesis. *)
Lemma planning_page_session env ui w r w' :
  planning_page env ui w = (r, w') ->
  session w' = session w \/
  exists td research p itinerary_text random w0 w1,
    current_trip_data (session w) = Some td /\
    research_results (session w) = Some research /\
    preference_stage env td research ui w0 = (Ok p, w1) /\
    chat env (planner_input td research p) = Returned itinerary_text /\
    session w'
    = {| trip_history :=
           (trip_history (session w)
            ++ [history_entry env td research p itinerary_text random])%list;
         research_results := research_results (session w);
         current_trip_data := current_trip_data (session w);
         show_preferences := show_preferences (session w) |}.
Proof.
  unfold planning_page. intros H.
  apply bind_inv in H. destruct H as [(e & H & _) | (s & w1 & Hs & H)];
    [discriminate|].
  injection Hs; intros; subst w1 s.
  destruct (show_preferences (session w)) eqn:Hshow;
    [|injection H; intros; subst; left; reflexivity].
  destruct (research_results (session w)) as [research|] eqn:Hres;
    [|injection H; intros; subst; left; reflexivity].
  apply bind_inv in H. destruct H as [(e & H & _) | (td & w1 & Htd & H)].
  { destruct (current_trip_data (session w));
      injection H; intros; subst; left; reflexivity. }
  destruct (current_trip_data (session w)) as [td0|] eqn:Hdata; [|discriminate].
  injection Htd; intros; subst w1 td0.
  apply bind_inv in H. destruct H as [(e & H & _) | (p & w1 & Hp & H)].
  { left. apply (quiet_preference_stage _ _ _ _ _ _ _ H). }
  pose proof (quiet_preference_stage _ _ _ _ _ _ _ Hp) as [Hs1 _].
  destruct (itinerary_clicked ui);
    [|injection H; intros; subst; left; exact Hs1].
  apply bind_inv in H. destruct H as [(e & H & _) | (itinerary_text & w2 & Hsyn & H)].
  { apply synthesis_session in H.
    destruct H as [[Hs2 _] | (it & _ & Hr & _)]; [|discriminate].
    left. congruence. }
  pose proof (quiet_after_synthesis _ _ _ _ _ _ _ _ _ H) as [Hs3 _].
  apply synthesis_session in Hsyn.
  destruct Hsyn as [[_ [e He]] | (it & Hchat & Hr & Hs2)]; [discriminate|].
  injection Hr; intros; subst it.
  right. exists td, research, p, itinerary_text, (urandom env (draws w1)), w, w1.
  repeat split; try assumption; try reflexivity.
  rewrite Hs3, Hs2, Hs1. rewrite Hres, Hdata, Hshow. reflexivity.
Qed.

(** A run either leaves the history alone or adds the entry of one
    synthesis. *)
Lemma run_entry (env : environment) (ui : widgets) (w : world) :
  trip_history (session (snd (run env ui w))) = trip_history (session w) \/
  exists td research p itinerary_text random w0 w1,
    current_trip_data (session w) = Some td /\
    research_results (session w) = Some research /\
    preference_stage env td research ui w0 = (Ok p, w1) /\
    chat env (planner_input td research p) = Returned itinerary_text /\
    trip_history (session (snd (run env ui w)))
    = (trip_history (session w)
       ++ [history_entry env td research p itinerary_text random])%list.
Proof.
  unfold run, script.
  destruct (bind (page_head env ui) (fun _ => planning_page env ui) (start_run w))
    as [r w'] eqn:E. simpl.
  apply bind_inv in E. destruct E as [(e & E & _) | ([] & w1 & Hhead & E)].
  - left.
    destruct (keeps_page_head env (grows env) (grows_trans env) (still_grows env)
                (grows_research_stage env) ui _ _ _ E)
      as (added & Hadd & Hcount & _).
    simpl in Hadd.
    assert (Hquiet : syntheses env (trace w') = O).
    { revert E. unfold page_head, research_stage. 
      cbv beta iota zeta
          delta [bind bind_llm emit call get_session put_session raise ret log
                 start_run session llm_bound files draws trace].
      destruct (orb _ _); destruct (generate_clicked ui); try discriminate;
        destruct (negb _); try discriminate;
        destruct (String.eqb _ _); try discriminate;
        destruct (researcher env _); intros E; injection E; intros; subst;
        reflexivity. }
    rewrite Hquiet in Hcount. unfold syntheses in Hcount. simpl in Hcount.
    destruct added; [|discriminate].
    rewrite Hadd, app_nil_r. reflexivity.
  - apply page_head_ok_session in Hhead. destruct Hhead as [Hs _].
    simpl in Hs.
    apply planning_page_session in E.
    destruct E as [E | (td & research & p & it & random & w0 & w2 & H1 & H2 & H3 & H4 & H5)].
    + left. congruence.
    + right. exists td, research, p, it, random, w0, w2.
      rewrite Hs in H1, H2, H5. rewrite H5. simpl. repeat split; assumption.
Qed.

(** X4: a run of the script adds at most one entry to the history.  The
    entry it adds takes destination, days, budget, language and research
    text from the session state as it was when the run began (what the last
    research stored, not what the input widgets show now), its preference
    labels and special requests from the widgets of this run, its itinerary
    from the planner's answer to the prompt built from them, and its date
    from the clock. *)
Theorem run_adds_at_most_one_entry (env : environment) (ui : widgets) (w : world) :
  trip_history (session (snd (run env ui w))) = trip_history (session w) \/
  exists r td research,
    current_trip_data (session w) = Some td /\
    research_results (session w) = Some research /\
    trip_history (session (snd (run env ui w)))
    = (trip_history (session w) ++ [r])%list /\
    tr_destination r = td_destination td /\ tr_days r = td_num_days td /\
    tr_budget r = td_budget td /\ tr_language r = td_language td /\
    tr_research r = research /\ tr_date r = now_text env /\
    chat env (planner_input td research (tr_preferences r))
    = Returned (tr_itinerary r) /\
    accommodation (tr_preferences r) = accommodation_label (accommodation_pref ui) /\
    activities (tr_preferences r) = activity_label (activity_pref ui) /\
    dining (tr_preferences r) = dining_label (dining_pref ui) /\
    transportation (tr_preferences r) = transport_label (transport_pref ui) /\
    special_requests (tr_preferences r) = special_requests_text ui.
Proof.
  destruct (run_entry env ui w)
    as [E | (td & research & p & it & random & w0 & w1 & Htd & Hres & Hp & Hchat & E)].
  - left. exact E.
  - right. exists (history_entry env td research p it random), td, research.
    apply preference_stage_inv in Hp.
    destruct Hp as (_ & _ & _ & _ & _ & _ & _ & La & Lb & Lc & Ld & Ls).
    simpl. repeat (split; [assumption || reflexivity|]). exact Ls.
Qed.

(** Whatever holds of every entry a synthesis can write holds of every entry
    of the history of a browser session. *)
Lemma history_entries (P : trip_record -> Prop) :
  (forall env td research ui p itinerary_text random w0 w1,
      preference_stage env td research ui w0 = (Ok p, w1) ->
      P (history_entry env td research p itinerary_text random)) ->
  forall steps w,
    Forall P (trip_history (session w)) ->
    Forall P (trip_history (session (runs steps w))).
Proof.
  intros HP steps. induction steps as [|[env ui] rest IH]; intros w Hw; simpl.
  - exact Hw.
  - apply IH.
    destruct (run_entry env ui w)
      as [E | (td & research & p & it & random & w0 & w1 & _ & _ & Hp & _ & E)];
      rewrite E; [exact Hw|].
    apply Forall_app. split; [exact Hw|].
    constructor; [|constructor]. eapply HP. exact Hp.
Qed.

Lemma stage_selections_not_empty env td research ui w p w' :
  preference_stage env td research ui w = (Ok p, w') ->
  selected_accommodation p <> "" /\ selected_activities p <> [] /\
  selected_dining p <> [] /\ selected_transport p <> "".
Proof.
  intros H. apply preference_stage_inv in H.
  destruct H as (w1 & w2 & w3 & Ha & Hb & Hc & Hd & _).
  split; [|split; [|split]].
  - destruct (String.eqb_spec (accommodation_label (accommodation_pref ui))
                "No Preference") as [E|E].
    + rewrite accommodation_block_skip in Ha by assumption.
      injection Ha; intros _ <-. discriminate.
    + rewrite accommodation_block_call in Ha by assumption. cbv zeta in Ha.
      destruct (chat env _); [|discriminate].
      injection Ha; intros _ <-.
      destruct (accommodation_selection ui) as [[]|]; discriminate.
  - destruct (String.eqb_spec (activity_label (activity_pref ui))
                "Mix of Everything") as [E|E].
    + rewrite activity_block_skip in Hb by assumption.
      injection Hb; intros _ <-. discriminate.
    + rewrite activity_block_call in Hb by assumption.
      destruct (llm_bound w1); [|discriminate]. cbv zeta in Hb.
      destruct (chat env _); [|discriminate].
      injection Hb; intros _ <-. apply chosen_or_first_not_empty.
  - destruct (String.eqb_spec (dining_label (dining_pref ui))
                "No Preference") as [E|E].
    + rewrite dining_block_skip in Hc by assumption.
      injection Hc; intros _ <-. discriminate.
    + rewrite dining_block_call in Hc by assumption.
      destruct (llm_bound w2); [|discriminate]. cbv zeta in Hc.
      destruct (chat env _); [|discriminate].
      injection Hc; intros _ <-. apply chosen_or_first_not_empty.
  - destruct (String.eqb_spec (transport_label (transport_pref ui))
                "No Preference") as [E|E].
    + rewrite transport_block_skip in Hd by assumption.
      injection Hd; intros _ <-. discriminate.
    + rewrite transport_block_call in Hd by assumption.
      destruct (llm_bound w3); [|discriminate]. cbv zeta in Hd.
      destruct (chat env _); [|discriminate].
      injection Hd; intros _ <-.
      destruct (transport_selection ui) as [[]|]; discriminate.
Qed.

(** X5: no entry of the history of a browser session has an empty
    selection in any of the four categories, so the preferences tab of the
    history panel always shows the four preference lines each followed by
    its "Selected" line, and the special requests line when there are any. *)
Theorem history_selections_never_empty (steps : list (environment * widgets)) :
  Forall (fun r =>
            let p := tr_preferences r in
            selected_accommodation p <> "" /\ selected_activities p <> [] /\
            selected_dining p <> [] /\ selected_transport p <> "" /\
            List.length (preference_lines p)
            = if String.eqb (special_requests p) "" then 8%nat else 9%nat)
         (trip_history (session (runs steps new_world))).
Proof.
  apply history_entries; [|constructor].
  intros env td research ui p it random w0 w1 Hp. cbv zeta. simpl.
  destruct (stage_selections_not_empty _ _ _ _ _ _ _ Hp) as (Ha & Hb & Hc & Hd).
  repeat split; trivial.
  unfold preference_lines.
  apply String.eqb_neq in Ha, Hd. rewrite Ha, Hd.
  destruct (selected_dining p); [contradiction|].
  destruct (selected_activities p); [contradiction|].
  destruct (String.eqb (special_requests p) ""); reflexivity.
Qed.

(* ================================================================== *)
(** * Further properties: the history panel *)
(* ================================================================== *)

Lemma length_enumerate {A} (i : nat) (items : list A) :
  List.length (enumerate i items) = List.length items.
Proof.
  revert i. induction items as [|x rest IH]; intros i; simpl; [reflexivity|].
  now rewrite IH.
Qed.

Lemma nth_error_enumerate {A} (i k : nat) (items : list A) :
  nth_error (enumerate i items) k
  = option_map (fun x => ((i + k)%nat, x)) (nth_error items k).
Proof.
  revert i k. induction items as [|x rest IH]; intros i [|k]; simpl;
    try reflexivity.
  - now rewrite Nat.add_0_r.
  - rewrite IH. now rewrite Nat.add_succ_r.
Qed.

Lemma nth_error_history_panel (history : list trip_record) (k : nat) :
  nth_error (history_panel history) k
  = option_map (trip_expander k) (nth_error (rev history) k).
Proof.
  unfold history_panel. rewrite nth_error_map, nth_error_enumerate.
  destruct (nth_error (rev history) k); reflexivity.
Qed.

(** X6: the history panel shows one expander per entry of the history, the
    newest first: the expander at position k is made from the entry k
    places from the end; the top one is open and no other is; so after an
    entry is appended it is that entry that is on top and open. *)
Theorem history_panel_newest_first (history : list trip_record) :
  List.length (history_panel history) = List.length history /\
  (forall k, (k < List.length history)%nat ->
     exists trip,
       nth_error history (List.length history - S k) = Some trip /\
       nth_error (history_panel history) k = Some (trip_expander k trip)) /\
  (forall k x, nth_error (history_panel history) k = Some x ->
               ex_expanded x = Nat.eqb k 0) /\
  (forall r, hd_error (history_panel (history ++ [r])) = Some (trip_expander 0 r) /\
             ex_expanded (trip_expander 0 r) = true).
Proof.
  split; [|split; [|split]].
  - unfold history_panel. rewrite length_map, length_enumerate, length_rev.
    reflexivity.
  - intros k Hk. rewrite nth_error_history_panel, nth_error_rev.
    assert (Hlt : (k <? List.length history)%nat = true) by (apply Nat.ltb_lt; exact Hk).
    rewrite Hlt.
    destruct (nth_error history (List.length history - S k)) as [trip|] eqn:E.
    + exists trip. split; reflexivity.
    + exfalso. apply nth_error_None in E. lia.
  - intros k x. rewrite nth_error_history_panel.
    destruct (nth_error (rev history) k); [|discriminate].
    intros H. injection H; intros <-. reflexivity.
  - intros r. split; [|reflexivity].
    unfold history_panel. rewrite rev_app_distr. reflexivity.
Qed.

Lemma history_panel_newest_first_witness :
  exists trip,
    nth_error [demo_entry; demo_entry] (List.length [demo_entry; demo_entry] - 2)
    = Some trip /\
    nth_error (history_panel [demo_entry; demo_entry]) 1
    = Some (trip_expander 1 trip).
Proof.
  apply (proj1 (proj2 (history_panel_newest_first [demo_entry; demo_entry])) 1%nat).
  simpl. lia.
Defined.

(* ================================================================== *)
(** * Further properties: the preference stage as a whole *)
(* ================================================================== *)

Lemma trace_log (e : event) (w : world) : trace (log e w) = (trace w ++ [e])%list.
Proof. reflexivity. Qed.

(** X7: when the preference stage returns, the model calls it made are
    exactly the recommendation calls of the categories whose label is not
    the sentinel, one each, in page order (accommodation, activity, dining,
    transportation); nothing else was traced and the session state is as it
    was. *)
Theorem preference_stage_calls
  (env : environment) (td : trip_data) (research : string) (ui : widgets)
  (w : world) (p : preferences) (w' : world) :
  preference_stage env td research ui w = (Ok p, w') ->
  trace w' = (trace w ++ recommendation_calls td research ui)%list /\
  session w' = session w.
Proof.
  intros H. apply preference_stage_inv in H.
  destruct H as (w1 & w2 & w3 & Ha & Hb & Hc & Hd & _).
  unfold recommendation_calls.
  assert (Ea : trace w1
               = (trace w
                  ++ if String.eqb (accommodation_label (accommodation_pref ui))
                          "No Preference"
                     then []
                     else [ModelCall RecommendationLLM
                             (accommodation_search_prompt td research
                                (accommodation_pref ui))])%list
               /\ session w1 = session w).
  { destruct (String.eqb_spec (accommodation_label (accommodation_pref ui))
                "No Preference") as [E|E].
    - rewrite accommodation_block_skip in Ha by assumption.
      injection Ha; intros <- _. rewrite app_nil_r. split; reflexivity.
    - rewrite accommodation_block_call in Ha by assumption. cbv zeta in Ha.
      destruct (chat env _); [|discriminate].
      injection Ha; intros <- _. split; reflexivity. }
  assert (Eb : trace w2
               = (trace w1
                  ++ if String.eqb (activity_label (activity_pref ui))
                          "Mix of Everything"
                     then []
                     else [ModelCall RecommendationLLM
                             (activity_search_prompt td research
                                (activity_pref ui))])%list
               /\ session w2 = session w1).
  { destruct (String.eqb_spec (activity_label (activity_pref ui))
                "Mix of Everything") as [E|E].
    - rewrite activity_block_skip in Hb by assumption.
      injection Hb; intros <- _. rewrite app_nil_r. split; reflexivity.
    - rewrite activity_block_call in Hb by assumption.
      destruct (llm_bound w1); [|discriminate]. cbv zeta in Hb.
      destruct (chat env _); [|discriminate].
      injection Hb; intros <- _. split; reflexivity. }
  assert (Ec : trace w3
               = (trace w2
                  ++ if String.eqb (dining_label (dining_pref ui)) "No Preference"
                     then []
                     else [ModelCall RecommendationLLM
                             (dining_search_prompt td research
                                (dining_pref ui))])%list
               /\ session w3 = session w2).
  { destruct (String.eqb_spec (dining_label (dining_pref ui))
                "No Preference") as [E|E].
    - rewrite dining_block_skip in Hc by assumption.
      injection Hc; intros <- _. rewrite app_nil_r. split; reflexivity.
    - rewrite dining_block_call in Hc by assumption.
      destruct (llm_bound w2); [|discriminate]. cbv zeta in Hc.
      destruct (chat env _); [|discriminate].
      injection Hc; intros <- _. split; reflexivity. }
  assert (Ed : trace w'
               = (trace w3
                  ++ if String.eqb (transport_label (transport_pref ui))
                          "No Preference"
                     then []
                     else [ModelCall RecommendationLLM
                             (transport_search_prompt td research
                                (transport_pref ui))])%list
               /\ session w' = session w3).
  { destruct (String.eqb_spec (transport_label (transport_pref ui))
                "No Preference") as [E|E].
    - rewrite transport_block_skip in Hd by assumption.
      injection Hd; intros <- _. rewrite app_nil_r. split; reflexivity.
    - rewrite transport_block_call in Hd by assumption.
      destruct (llm_bound w3); [|discriminate]. cbv zeta in Hd.
      destruct (chat env _); [|discriminate].
      injection Hd; intros <- _. split; reflexivity. }
  destruct Ea as [Ta Sa], Eb as [Tb Sb], Ec as [Tc Sc], Ed as [Td Sd].
  split; [|congruence].
  rewrite Td, Tc, Tb, Ta, <- !app_assoc. reflexivity.
Qed.

Lemma preference_stage_calls_witness :
  exists p w',
    preference_stage demo_env paris_trip "research notes" demo_widgets panel_world
    = (Ok p, w') /\
    trace w'
    = (trace panel_world
       ++ recommendation_calls paris_trip "research notes" demo_widgets)%list /\
    session w' = session panel_world.
Proof.
  destruct (preference_stage demo_env paris_trip "research notes" demo_widgets
              panel_world) as [[p|e] w'] eqn:E.
  - exists p, w'. split; [reflexivity|].
    apply (preference_stage_calls demo_env paris_trip "research notes"
             demo_widgets panel_world p w').
    exact E.
  - exfalso. vm_compute in E. discriminate.
Defined.

(** One case of the page: which blocks skip, what the model answers. *)
Ltac stage_case :=
  match goal with
  | |- context [accommodation_block _ _ _ ?pref _ _] =>
      destruct (String.eqb_spec (accommodation_label pref) "No Preference");
      [rewrite accommodation_block_skip by assumption
      |rewrite accommodation_block_call by assumption]
  | |- context [activity_block _ _ _ ?pref _ _] =>
      destruct (String.eqb_spec (activity_label pref) "Mix of Everything");
      [rewrite activity_block_skip by assumption
      |rewrite activity_block_call by assumption]
  | |- context [dining_block _ _ _ ?pref _ _] =>
      destruct (String.eqb_spec (dining_label pref) "No Preference");
      [rewrite dining_block_skip by assumption
      |rewrite dining_block_call by assumption]
  | |- context [transport_block _ _ _ ?pref _ _] =>
      destruct (String.eqb_spec (transport_label pref) "No Preference");
      [rewrite transport_block_skip by assumption
      |rewrite transport_block_call by assumption]
  | |- context [match chat ?env ?prompt with _ => _ end] =>
      destruct (chat env prompt)
  end; simpl.

(** X8: with the name [llm] unbound when the preference stage begins, as
    it is in every run, the stage stops with NameError on [llm] exactly when
    "No Preference" is chosen for accommodation while one of the three other
    categories is not at its sentinel; with a hotel style chosen it never
    does. *)
Theorem name_error_exactly_when
  (env : environment) (td : trip_data) (research : string) (ui : widgets)
  (w : world) (Hunbound : llm_bound w = false) :
  fst (preference_stage env td research ui w) = Raise (NameError "llm") <->
  (accommodation_label (accommodation_pref ui) = "No Preference" /\
   ~ (activity_label (activity_pref ui) = "Mix of Everything" /\
      dining_label (dining_pref ui) = "No Preference" /\
      transport_label (transport_pref ui) = "No Preference")).
Proof.
  unfold preference_stage, bind, ret.
  repeat (stage_case; rewrite ?Hunbound; simpl);
    (split; [intros H; first [discriminate H | split; [assumption | tauto]]
            |intros [Ha Hn]; first [reflexivity | exfalso; tauto]]).
Qed.

Lemma name_error_exactly_when_witness :
  fst (preference_stage demo_env paris_trip "research notes"
         (with_accommodation AccommodationNoPreference demo_widgets) panel_world)
  = Raise (NameError "llm") <->
  (accommodation_label
     (accommodation_pref (with_accommodation AccommodationNoPreference demo_widgets))
   = "No Preference" /\
   ~ (activity_label
        (activity_pref (with_accommodation AccommodationNoPreference demo_widgets))
      = "Mix of Everything" /\
      dining_label
        (dining_pref (with_accommodation AccommodationNoPreference demo_widgets))
      = "No Preference" /\
      transport_label
        (transport_pref (with_accommodation AccommodationNoPreference demo_widgets))
      = "No Preference")).
Proof.
  apply (name_error_exactly_when demo_env paris_trip "research notes"
           (with_accommodation AccommodationNoPreference demo_widgets) panel_world).
  reflexivity.
Defined.

(* ================================================================== *)
(** * Further properties: coordinates and the map panel *)
(* ================================================================== *)

(** X9: every place name of the table, written in any casing (any text
    that [str.lower()] turns into the name), resolves to the pair stored for
    that very name: no earlier key of the table occurs inside a later one,
    so none is shadowed.  No model call is made. *)
Theorem every_listed_place_resolves
  (env : environment) (destination_name key : string) (c : coords) (w : world) :
  In (key, c) location_coords ->
  py_lower env destination_name = key ->
  get_coordinates env destination_name w = (Ok c, w).
Proof.
  intros Hin Hlower. unfold get_coordinates. rewrite Hlower. clear Hlower.
  simpl in Hin.
  repeat (destruct Hin as [E | Hin];
          [injection E; intros; subst; vm_compute; reflexivity|]).
  contradiction.
Qed.

Lemma every_listed_place_resolves_witness :
  get_coordinates demo_env "New YORK" panel_world
  = (Ok (40.7128, -74.0060)%float, panel_world).
Proof.
  apply (every_listed_place_resolves demo_env "New YORK" "new york").
  - do 17 right. left. reflexivity.
  - vm_compute. reflexivity.
Defined.

Lemma split_no_comma (s : string) :
  all_chars not_comma s = true -> split "," s = [s].
Proof.
  induction s as [|c s IH]; simpl; [reflexivity|].
  unfold not_comma at 1. intros H. apply andb_true_iff in H. destruct H as [Hc Hs].
  apply negb_true_iff in Hc. rewrite Hc, (IH Hs). reflexivity.
Qed.

Lemma split_one_comma (a b : string) :
  all_chars not_comma a = true -> all_chars not_comma b = true ->
  split "," (a ++ "," ++ b) = [a; b].
Proof.
  intros Ha Hb. induction a as [|c a IH]; simpl.
  - rewrite (split_no_comma b Hb). reflexivity.
  - simpl in Ha. unfold not_comma at 1 in Ha.
    apply andb_true_iff in Ha. destruct Ha as [Hc Ha].
    apply negb_true_iff in Hc. rewrite Hc. simpl in IH. rewrite (IH Ha).
    reflexivity.
Qed.

(** X10: for a destination whose lower-case form, as [str.lower()] gives
    it, no key of the table occurs in, when the
    model's answer, once stripped, is two comma-free parts around one comma
    and [float] accepts both parts stripped, the lookup returns the two
    numbers, latitude first, after that one model call. *)
Theorem geocoded_answer_is_used
  (env : environment) (destination_name content a b : string) (lat lon : float)
  (w : world)
  (Hno_key : forall key c, In (key, c) location_coords ->
                           ~ substring_of key (py_lower env destination_name))
  (Hanswer : chat env (geocode_prompt destination_name) = Returned content)
  (Hshape : strip content = a ++ "," ++ b)
  (Ha : all_chars not_comma a = true) (Hb : all_chars not_comma b = true)
  (Hlat : py_float env (strip a) = Some lat)
  (Hlon : py_float env (strip b) = Some lon) :
  get_coordinates env destination_name w
  = (Ok (lat, lon),
     log (ModelCall GeocodeLLM (geocode_prompt destination_name)) w).
Proof.
  unfold get_coordinates.
  pose proof (scan_table_first location_coords (py_lower env destination_name)) as Hscan.
  destruct (scan_table location_coords (py_lower env destination_name)) as [c|].
  - destruct Hscan as (pre & key & post & Heq & Hkey & _).
    exfalso. apply (Hno_key key c); [|exact Hkey].
    rewrite Heq. apply in_or_app. right. left. reflexivity.
  - unfold bind at 1. rewrite geocode_fallback_outcome, Hanswer. cbv zeta.
    rewrite Hshape, (split_one_comma a b Ha Hb), Hlat, Hlon. reflexivity.
Qed.

Lemma geocoded_answer_is_used_witness :
  get_coordinates geocoding_env "Reykjavik" panel_world
  = (Ok (64.1466, -21.9426)%float,
     log (ModelCall GeocodeLLM (geocode_prompt "Reykjavik")) panel_world).
Proof.
  apply (geocoded_answer_is_used geocoding_env "Reykjavik"
           " 64.1466, -21.9426
" "64.1466" " -21.9426").
  - intros key c Hin. apply contains_false_iff. simpl in Hin.
    repeat (destruct Hin as [E | Hin];
            [injection E; intros; subst; vm_compute; reflexivity|]).
    contradiction.
  - reflexivity.
  - vm_compute. reflexivity.
  - vm_compute. reflexivity.
  - vm_compute. reflexivity.
  - vm_compute. reflexivity.
  - vm_compute. reflexivity.
Defined.



(** In a setting where showing the map fails, an unlisted place is asked
    of the geocoding model twice in one display of the panel. *)
Example map_panel_asks_twice :
  filter is_model_call
    (trace (snd (map_panel geocoding_env
                   {| td_destination := "Reykjavik"; td_num_days := 3;
                      td_budget := 200000; td_language := English |}
                   panel_world)))
  = [ModelCall GeocodeLLM (geocode_prompt "Reykjavik");
     ModelCall GeocodeLLM (geocode_prompt "Reykjavik")].
Proof. vm_compute. reflexivity. Qed.

(* ================================================================== *)
(** * Further properties: the two exports *)
(* ================================================================== *)

Lemma add_events_in_range td p itinerary_text start indices cal w cal' w' :
  add_events (day_event td p itinerary_text start) indices cal w = (Ok cal', w') ->
  forallb (fun i => andb (0 <? start + i) (start + i <=? MAXORDINAL)) indices = true.
Proof.
  revert cal. induction indices as [|i rest IH]; intros cal; simpl; [reflexivity|].
  unfold bind at 1. unfold day_event at 1. unfold bind at 1, lift.
  rewrite date_add_days.
  destruct (andb (0 <? start + i) (start + i <=? MAXORDINAL)); [|discriminate].
  unfold ret at 1. intros H. simpl. eapply IH, H.
Qed.

Lemma dates_in_range_spec start n :
  dates_in_range start n = true ->
  forall i, In i (range n) -> 0 < start + i <= MAXORDINAL.
Proof.
  unfold dates_in_range. rewrite forallb_forall. intros H i Hi.
  specialize (H i Hi). apply andb_true_iff in H. destruct H as [H1 H2].
  apply Z.ltb_lt in H1. apply Z.leb_le in H2. lia.
Qed.

(** X12: the calendar export never raises and never touches the session
    state, and it is all or nothing: it offers its one download, holding the
    planned events of all the days, exactly when the ics package can be
    imported and every date of the trip exists; when one date is past the
    last date of the calendar, or the package is missing, it offers none,
    not a calendar cut short. *)
Theorem calendar_export_all_or_nothing
  (env : environment) (td : trip_data) (p : preferences) (itinerary_text : string)
  (w : world) :
  let export_trip_id := short_id (urandom env (draws w)) in
  exists w' events,
    calendar_export env td p itinerary_text w = (Ok tt, w') /\
    trace w' = (trace w ++ events)%list /\
    session w' = session w /\
    downloads events
    = if andb (ics_importable env) (dates_in_range (today env) (td_num_days td))
      then [DownloadButton "📥 Download Calendar"
              (CalendarText (map (planned_event td p itinerary_text (today env))
                               (range (td_num_days td))))
              (export_file_name "trip" td export_trip_id ".ics")
              "text/calendar" ("calendar_download_" ++ export_trip_id)]
      else [].
Proof.
  destruct w as [sess bound fs drawn tr].
  cbv beta iota zeta
      delta [calendar_export bind try_except try_bare fresh_id emit call ret raise
             log session llm_bound files draws trace].
  destruct (ics_importable env) eqn:Hics; cbv beta iota.
  - match goal with
    | |- context [add_events ?body ?indices ?cal ?w0] =>
        destruct (add_events_result td p itinerary_text (today env) indices cal w0)
          as (r & E & Hok & Hall & Hexn);
        pose proof (add_events_in_range td p itinerary_text (today env)
                      indices cal w0) as Hin
    end.
    rewrite E in *. destruct r as [cal|e]; cbv beta iota.
    + specialize (Hok cal eq_refl). simpl in Hok. subst cal.
      fold (dates_in_range (today env) (td_num_days td)) in Hin.
      rewrite (Hin _ _ eq_refl). simpl andb. cbv iota.
      eexists. eexists. split; [reflexivity|].
      rewrite <- !app_assoc. split; [reflexivity|]. split; reflexivity.
    + assert (Hex : is_Exception e = true) by (apply Hexn; reflexivity).
      rewrite Hex.
      assert (Hout : dates_in_range (today env) (td_num_days td) = false).
      { destruct (dates_in_range (today env) (td_num_days td)) eqn:Hd; [|reflexivity].
        exfalso.
        assert (Hr : @Raise calendar e
                     = Ok ([] ++ map (planned_event td p itinerary_text (today env))
                                   (range (td_num_days td)))%list).
        { apply Hall. apply dates_in_range_spec. exact Hd. }
        discriminate. }
      rewrite Hout. simpl andb. cbv iota.
      destruct (pip_install_ics env) as [[]|msg]; cbv beta iota;
        eexists; eexists; (split; [reflexivity|]);
        rewrite <- !app_assoc; (split; [reflexivity|]); split; reflexivity.
  - cbv beta iota delta [is_Exception]. simpl andb. cbv iota.
    destruct (pip_install_ics env) as [[]|msg]; cbv beta iota;
      eexists; eexists; (split; [reflexivity|]);
      rewrite <- !app_assoc; (split; [reflexivity|]); split; reflexivity.
Qed.






(* ================================================================== *)
(** * Further properties: identifiers and file names *)
(* ================================================================== *)

Lemma all_chars_short_id (random : N) : all_chars is_hex (short_id random) = true.
Proof.
  rewrite short_id_first_group. apply all_chars_substring, all_chars_hex_digits.
Qed.

Lemma is_hex_not_space (c : ascii) : is_hex c = true -> not_space c = true.
Proof.
  destruct c as [[] [] [] [] [] [] [] []]; vm_compute; intros H;
    first [reflexivity | discriminate H].
Qed.

Lemma replace_space_free (s : string) :
  all_chars not_space (replace " " "_" s) = true.
Proof.
  induction s as [|c s IH]; simpl; [reflexivity|].
  destruct (Ascii.eqb c " ") eqn:E; simpl.
  - exact IH.
  - unfold not_space at 1. rewrite E, IH. reflexivity.
Qed.

(** X14: a short identifier is made of lower-case hexadecimal digits only
    (it is the first group of the UUID text, so it stops before the first
    hyphen), and so is the identifier of every entry of the history of a
    browser session. *)
Theorem trip_ids_are_hexadecimal (steps : list (environment * widgets)) :
  (forall random, all_chars is_hex (short_id random) = true) /\
  Forall (fun r => all_chars is_hex (tr_id r) = true)
         (trip_history (session (runs steps new_world))).
Proof.
  split; [exact all_chars_short_id|].
  destruct (runs_history steps new_world) as (added & H & _ & F).
  rewrite H. simpl. eapply Forall_impl; [|exact F].
  intros r [random Hr]. rewrite Hr. apply all_chars_short_id.
Qed.

(** X15: the file names the exports offer never hold a blank, whatever the
    destination: every blank of the destination becomes an underscore and
    the identifier has none. *)
Theorem export_file_names_have_no_blank (td : trip_data) (random : N) :
  all_chars not_space
    (export_file_name "itinerary" td (short_id random) ".pdf") = true /\
  all_chars not_space
    (export_file_name "itinerary" td (short_id random) ".txt") = true /\
  all_chars not_space
    (export_file_name "trip" td (short_id random) ".ics") = true.
Proof.
  assert (Hid : all_chars not_space (short_id random) = true).
  { apply (all_chars_impl is_hex); [exact is_hex_not_space|].
    apply all_chars_short_id. }
  unfold export_file_name.
  repeat split; rewrite !all_chars_app, replace_space_free, Hid; reflexivity.
Qed.

(* ================================================================== *)
(** * Further properties: what is never traced *)
(* ================================================================== *)

(** X16: neither export asks the model or the research agent anything:
    a document export and a calendar export add no model call and no agent
    run to the trace, whatever the renderers, the ics package and pip do. *)
Theorem exports_make_no_model_call
  (env : environment) (td : trip_data) (research : string) (p : preferences)
  (itinerary_text : string) (w : world) :
  let after_document := snd (document_export env td research p itinerary_text w) in
  let after_calendar := snd (calendar_export env td p itinerary_text w) in
  filter is_model_call (trace after_document) = filter is_model_call (trace w) /\
  filter is_agent_run (trace after_document) = filter is_agent_run (trace w) /\
  filter is_model_call (trace after_calendar) = filter is_model_call (trace w) /\
  filter is_agent_run (trace after_calendar) = filter is_agent_run (trace w).
Proof.
  cbv zeta.
  destruct (document_export env td research p itinerary_text w) as [r1 w1] eqn:E1.
  destruct (calendar_export env td p itinerary_text w) as [r2 w2] eqn:E2.
  simpl. split; [|split; [|split]].
  - refine (unseen_document_export is_model_call _ _ _ _ _ _ _ _ _ _ E1);
      intros; reflexivity.
  - refine (unseen_document_export is_agent_run _ _ _ _ _ _ _ _ _ _ E1);
      intros; reflexivity.
  - refine (unseen_calendar_export is_model_call _ _ _ _ _ _ _ _ _ E2);
      intros; reflexivity.
  - refine (unseen_calendar_export is_agent_run _ _ _ _ _ _ _ _ _ E2);
      intros; reflexivity.
Qed.

Lemma no_download_page_head env ui : keeps (unseen is_download) (page_head env ui).
Proof. unfold page_head, research_stage. unseen_auto. Qed.

Lemma no_download_planning_page env ui :
  pdf_clicked ui = false -> calendar_clicked ui = false ->
  keeps (unseen is_download) (planning_page env ui).
Proof.
  intros Hpdf Hcal. unfold planning_page. rewrite Hpdf, Hcal. cbv beta iota.
  unfold preference_stage, accommodation_block, activity_block, dining_block,
    transport_block, synthesis, map_panel, get_coordinates, geocode_fallback.
  unseen_auto.
Qed.

(** X17: a download is offered only on an export click: in a run in which
    neither "Generate PDF" nor "Download Calendar" is clicked, no download
    button is shown, whatever else is clicked and whatever the outside
    does. *)
Theorem no_download_without_export_click
  (env : environment) (ui : widgets) (w : world)
  (Hpdf : pdf_clicked ui = false) (Hcal : calendar_clicked ui = false) :
  filter is_download (trace (snd (run env ui w))) = [].
Proof.
  unfold run. destruct (script env ui (start_run w)) as [r w'] eqn:E. simpl.
  assert (H : keeps (unseen is_download) (script env ui)).
  { unfold script. unseen_step.
    - apply no_download_page_head.
    - apply no_download_planning_page; assumption. }
  exact (H _ _ _ E).
Qed.

Lemma no_download_without_export_click_witness :
  filter is_download (trace (snd (run demo_env demo_widgets panel_world))) = [].
Proof.
  apply (no_download_without_export_click demo_env demo_widgets panel_world);
    reflexivity.
Defined.

Lemma no_agent_run_planning_page env ui :
  keeps (unseen is_agent_run) (planning_page env ui).
Proof.
  unfold planning_page, preference_stage, accommodation_block, activity_block,
    dining_block, transport_block, synthesis, map_panel, get_coordinates,
    geocode_fallback.
  unseen_auto;
    first [ refine (unseen_document_export is_agent_run _ _ _ _ _ _ _);
            intros; reflexivity
          | refine (unseen_calendar_export is_agent_run _ _ _ _ _ _);
            intros; reflexivity ].
Qed.

Lemma page_head_agent_runs env ui w r w' :
  page_head env ui w = (r, w') ->
  filter is_agent_run (trace w')
  = (filter is_agent_run (trace w)
     ++ if andb (generate_clicked ui)
             (andb (andb (truthy (github_token env)) (truthy (serp_api_key env)))
                   (negb (String.eqb (destination ui) "")))
        then [AgentRun (research_input ui)] else [])%list.
Proof.
  destruct w as [sess bound fs drawn tr].
  unfold page_head, research_stage.
  cbv beta iota zeta
      delta [bind bind_llm emit call get_session put_session raise ret log
             session llm_bound files draws trace].
  destruct (truthy (github_token env)), (truthy (serp_api_key env));
    destruct (generate_clicked ui); simpl;
    try (intros H; injection H; intros; subst; simpl;
         rewrite ?filter_app; simpl; rewrite ?app_nil_r; reflexivity).
  destruct (String.eqb (destination ui) ""); simpl;
    try (intros H; injection H; intros; subst; simpl;
         rewrite ?filter_app; simpl; rewrite ?app_nil_r; reflexivity).
  destruct (researcher env (research_input ui));
    intros H; injection H; intros; subst; simpl;
    rewrite ?filter_app; simpl; rewrite ?app_nil_r; reflexivity.
Qed.

(** X18: the research agent, the one part of the page that searches the
    web, is run at most once in a run, and only on a click of the research
    button with both credentials set and a destination given: the agent runs
    of a run are that one run on the research input, or none. *)
Theorem agent_runs_only_on_research_click
  (env : environment) (ui : widgets) (w : world) :
  filter is_agent_run (trace (snd (run env ui w)))
  = if andb (generate_clicked ui)
         (andb (andb (truthy (github_token env)) (truthy (serp_api_key env)))
               (negb (String.eqb (destination ui) "")))
    then [AgentRun (research_input ui)] else [].
Proof.
  unfold run, script.
  destruct (bind (page_head env ui) (fun _ => planning_page env ui) (start_run w))
    as [r w'] eqn:E. simpl.
  apply bind_inv in E. destruct E as [(e & E & _) | ([] & w1 & Hhead & E)].
  - apply page_head_agent_runs in E. exact E.
  - apply page_head_agent_runs in Hhead.
    rewrite (no_agent_run_planning_page env ui _ _ _ E). exact Hhead.
Qed.

(* ================================================================== *)
(** * Further properties: the option lists *)
(* ================================================================== *)

(** X19: in each of the four categories the option list of the selectbox
    is the list of the six labels, the sentinel last, without repetition,
    and the description table has an entry for every option of the list: the
    lookup of the chosen option's description never fails. *)
Theorem every_option_has_a_description :
  (accommodation_options
   = map accommodation_label
       [LuxuryHotels; MidRangeHotels; BudgetHotelsHostels; LocalGuesthouses;
        VacationRentals; AccommodationNoPreference] /\
   NoDup accommodation_options /\
   forall o, dict_get accommodation_descriptions (accommodation_label o) <> None) /\
  (activity_options
   = map activity_label
       [AdventureSports; CulturalHistorical; RelaxationWellness;
        ShoppingEntertainment; NatureWildlife; MixOfEverything] /\
   NoDup activity_options /\
   forall o, dict_get activity_descriptions (activity_label o) <> None) /\
  (dining_options
   = map dining_label
       [FineDining; LocalStreetFood; MixOfBoth; VegetarianVegan; BudgetFriendly;
        DiningNoPreference] /\
   NoDup dining_options /\
   forall o, dict_get dining_descriptions (dining_label o) <> None) /\
  (transport_options
   = map transport_label
       [PublicTransport; RentalCar; WalkingCycling; RideSharingTaxi; TourGroups;
        TransportNoPreference] /\
   NoDup transport_options /\
   forall o, dict_get transport_descriptions (transport_label o) <> None).
Proof.
  assert (Hnodup : forall l : list string,
             (forallb (fun x => Nat.eqb (count_occ string_dec l x) 1) l = true) ->
             NoDup l).
  { intros l H. apply (NoDup_count_occ' string_dec). intros x Hx.
    rewrite forallb_forall in H. apply Nat.eqb_eq. apply H, Hx. }
  repeat split;
    try (apply Hnodup; vm_compute; reflexivity);
    try (intros o; destruct o; vm_compute; discriminate).
Qed.

(* ================================================================== *)
(** * Further properties: a research run, and the names of the days *)
(* ================================================================== *)

(** X20: a run in which the research button is clicked, with both
    credentials set and a destination given, never reaches the preference
    panel: it ends in the rerun when the agent answers and in the agent's
    failure otherwise.  All it does to the outside is the one agent run on
    the research input (the agent does its own searching and asks its own
    model inside that run) and, after an answer, the success notice: the
    page makes none of its recommendation, planner or geocoding calls; the
    panel is for the next run. *)
Theorem research_run_stops_before_panel
  (env : environment) (ui : widgets) (w : world)
  (Hclick : generate_clicked ui = true)
  (Htoken : truthy (github_token env) = true)
  (Hkey : truthy (serp_api_key env) = true)
  (Hdest : destination ui <> "") :
  fst (run env ui w)
  = match researcher env (research_input ui) with
    | Returned _ => Raise RerunException
    | Failed msg => Raise (UpstreamError msg)
    end /\
  trace (snd (run env ui w))
  = match researcher env (research_input ui) with
    | Returned _ =>
        [AgentRun (research_input ui);
         Notice Success "✓ Research completed! Now select your preferences below."]
    | Failed _ => [AgentRun (research_input ui)]
    end.
Proof.
  apply String.eqb_neq in Hdest.
  unfold run, script.
  destruct (bind (page_head env ui) (fun _ => planning_page env ui) (start_run w))
    as [r w'] eqn:E. simpl.
  apply bind_inv in E. destruct E as [(e & E & ->) | ([] & w1 & Hhead & E)].
  - revert E. unfold page_head, research_stage.
    rewrite Hclick, Htoken, Hkey, Hdest.
    cbv beta iota zeta
        delta [bind bind_llm emit call get_session put_session raise ret log
               negb andb orb start_run trace].
    destruct (researcher env (research_input ui));
      intros E; injection E; intros; subst; split; reflexivity.
  - exfalso. revert Hhead. unfold page_head, research_stage.
    rewrite Hclick, Htoken, Hkey, Hdest.
    cbv beta iota zeta
        delta [bind bind_llm emit call get_session put_session raise ret log
               negb andb orb].
    destruct (researcher env (research_input ui)); discriminate.
Qed.

Lemma research_run_stops_before_panel_witness :
  fst (run demo_env research_click new_world) = Raise RerunException /\
  trace (snd (run demo_env research_click new_world))
  = [AgentRun (research_input research_click);
     Notice Success "✓ Research completed! Now select your preferences below."].
Proof.
  apply (research_run_stops_before_panel demo_env research_click new_world);
    try reflexivity.
  vm_compute. discriminate.
Defined.

Lemma str_of_int_inj (a b : Z) : str_of_int a = str_of_int b -> a = b.
Proof.
  unfold str_of_int. intros H.
  assert (Hnil : forall z, Z.to_int z <> Decimal.Pos Decimal.Nil /\
                           Z.to_int z <> Decimal.Neg Decimal.Nil).
  { intros z. split; intros Hz.
    - pose proof (DecimalZ.of_to z) as Hoz. rewrite Hz in Hoz. simpl in Hoz.
      subst z. discriminate Hz.
    - pose proof (DecimalZ.of_to z) as Hoz. rewrite Hz in Hoz. simpl in Hoz.
      subst z. discriminate Hz. }
  assert (Hint : Some (Z.to_int a) = Some (Z.to_int b)).
  { rewrite <- (NilZero.isi (Z.to_int a)) by apply Hnil.
    rewrite <- (NilZero.isi (Z.to_int b)) by apply Hnil.
    rewrite H. reflexivity. }
  injection Hint; intros Hab.
  rewrite <- (DecimalZ.of_to a), <- (DecimalZ.of_to b), Hab. reflexivity.
Qed.

Lemma append_inj_l (a x y : string) : a ++ x = a ++ y -> x = y.
Proof.
  induction a as [|c a IH]; simpl; intros H; [exact H|].
  injection H; intros H'. exact (IH H').
Qed.

Lemma event_name_inj (td : trip_data) (i j : Z) :
  event_name td i = event_name td j -> i = j.
Proof.
  unfold event_name. intros H.
  apply append_inj_l, append_inj_l, append_inj_l, str_of_int_inj in H. lia.
Qed.

(** X21: the events planned for a trip carry the day numbers 1, 2, ... in
    their names, in order, and no two of them have the same name, whatever
    the destination and the number of days. *)
Theorem calendar_days_are_numbered
  (td : trip_data) (p : preferences) (itinerary_text : string) (start n : Z) :
  let cal := map (planned_event td p itinerary_text start) (range n) in
  NoDup (map ev_name cal) /\
  (forall i, 0 <= i < n ->
     exists e, nth_error cal (Z.to_nat i) = Some e /\
               ev_name e
               = "🌍 " ++ td_destination td ++ " Trip - Day " ++ str_of_int (i + 1)).
Proof.
  cbv zeta. split.
  - rewrite map_map. simpl. apply NoDup_map_NoDup_ForallPairs.
    + intros x y _ _ H. exact (event_name_inj td x y H).
    + apply NoDup_range.
  - intros i Hi. exists (planned_event td p itinerary_text start i).
    rewrite nth_error_map, nth_error_range by assumption.
    split; reflexivity.
Qed.

Lemma calendar_days_are_numbered_witness :
  exists e,
    nth_error (map (planned_event paris_trip demo_preferences "Day 1: Louvre" 739007)
                 (range 5)) (Z.to_nat 4) = Some e /\
    ev_name e = "🌍 " ++ td_destination paris_trip ++ " Trip - Day " ++ str_of_int (4 + 1).
Proof.
  apply (proj2 (calendar_days_are_numbered paris_trip demo_preferences
                  "Day 1: Louvre" 739007 5) 4).
  lia.
Defined.

(* ================================================================== *)
(** * Further properties: the texts handed to the renderers *)
(* ================================================================== *)

Lemma replace_removes (old : ascii) (new s : string) (test : ascii -> bool) :
  test old = false ->
  all_chars test new = true ->
  (forall c, Ascii.eqb c old = false -> test c = true) ->
  all_chars test (replace old new s) = true.
Proof.
  intros _ Hnew Hother. induction s as [|c s IH]; simpl; [reflexivity|].
  destruct (Ascii.eqb c old) eqn:E.
  - rewrite all_chars_app, Hnew, IH. reflexivity.
  - simpl. rewrite (Hother c E), IH. reflexivity.
Qed.

Lemma replace_keeps (old : ascii) (new s : string) (test : ascii -> bool) :
  all_chars test new = true ->
  all_chars test s = true ->
  all_chars test (replace old new s) = true.
Proof.
  intros Hnew. induction s as [|c s IH]; simpl; [reflexivity|].
  intros H. apply andb_true_iff in H. destruct H as [Hc Hs].
  destruct (Ascii.eqb c old).
  - rewrite all_chars_app, Hnew, (IH Hs). reflexivity.
  - simpl. rewrite Hc, (IH Hs). reflexivity.
Qed.

Lemma replace_absent (old : ascii) (new s : string) :
  all_chars (fun c => negb (Ascii.eqb c old)) s = true -> replace old new s = s.
Proof.
  induction s as [|c s IH]; simpl; [reflexivity|].
  intros H. apply andb_true_iff in H. destruct H as [Hc Hs].
  apply negb_true_iff in Hc. rewrite Hc, (IH Hs). reflexivity.
Qed.

Lemma all_chars_and (a b : ascii -> bool) (s : string) :
  all_chars (fun c => andb (a c) (b c)) s = andb (all_chars a s) (all_chars b s).
Proof.
  induction s as [|c s IH]; simpl; [reflexivity|].
  rewrite IH. destruct (a c), (b c), (all_chars a s), (all_chars b s); reflexivity.
Qed.

Lemma escape_markup_no_angle (text : string) :
  all_chars no_angle (escape_markup text) = true.
Proof.
  unfold escape_markup, no_angle.
  rewrite all_chars_and. apply andb_true_iff. split.
  - apply replace_keeps; [vm_compute; reflexivity|].
    apply replace_removes; [reflexivity | vm_compute; reflexivity |].
    intros c E. rewrite E. reflexivity.
  - apply replace_removes; [reflexivity | vm_compute; reflexivity |].
    intros c E. rewrite E. reflexivity.
Qed.

(** X22: in the ReportLab story the three body paragraphs (research,
    selections, itinerary) never hold an angle bracket, whatever the model
    wrote: every one is escaped; and they are built from the first 1000
    characters of the research text and the first 2000 of the itinerary
    (characters, not bytes), or from the whole text when it is shorter.  The
    story has the title, the details line and three headed sections, in that
    order. *)
Theorem reportlab_body_is_escaped
  (td : trip_data) (research : string) (p : preferences) (itinerary_text : string) :
  let story := reportlab_story td research p itinerary_text in
  paragraphs_of "Heading2" story
  = ["Research Results"; "Your Selections"; "Detailed Itinerary"] /\
  paragraphs_of "Title" story = [("Travel Itinerary: " ++ td_destination td)%string] /\
  (exists details body_research body_selections body_itinerary,
      paragraphs_of "Normal" story
      = [details; body_research; body_selections; body_itinerary] /\
      all_chars no_angle body_research = true /\
      all_chars no_angle body_selections = true /\
      all_chars no_angle body_itinerary = true /\
      body_research = escape_markup (take 1000 research) /\
      char_count (take 1000 research) = Nat.min 1000 (char_count research) /\
      body_itinerary = escape_markup (take 2000 itinerary_text) /\
      char_count (take 2000 itinerary_text)
      = Nat.min 2000 (char_count itinerary_text)).
Proof.
  cbv zeta. split; [reflexivity|]. split; [reflexivity|].
  eexists. eexists. eexists. eexists. split; [reflexivity|].
  repeat split; try apply escape_markup_no_angle; try apply char_count_take.
Qed.

(** X23: putting the HTML line breaks into a text leaves no line feed in
    it (every one becomes a br tag) and leaves a text without line feeds
    exactly as it is. *)
Theorem html_breaks_removes_line_feeds (text : string) :
  all_chars (fun c => negb (Ascii.eqb c LF)) (html_breaks text) = true /\
  (all_chars (fun c => negb (Ascii.eqb c LF)) text = true ->
   html_breaks text = text).
Proof.
  split.
  - unfold html_breaks. apply replace_removes.
    + reflexivity.
    + vm_compute. reflexivity.
    + intros c E. rewrite E. reflexivity.
  - apply replace_absent.
Qed.

Lemma html_breaks_removes_line_feeds_witness :
  html_breaks "Day 1: Louvre" = "Day 1: Louvre".
Proof.
  apply (proj2 (html_breaks_removes_line_feeds "Day 1: Louvre")).
  vm_compute. reflexivity.
Defined.
